(** * java-gamejolt-archiver: the archiver of [java-archiver.py], embedded

    The program is a Python script: URL and JSON handling, a chain of HTTP
    requests, file downloads and the generation of an applet page.  The
    embedding follows the script function by function.

    - Python [str] values are [string]s whose characters are read as the code
      points U+0000..U+00FF; the character classes ([isalnum], [isdigit],
      [isspace], [lower]) are the ones of the Unicode database on that range.
    - JSON values keep the order of the fields of an object, as Python's
      [dict] does.
    - A Python expression that may raise is a value of [Res]; a method that
      talks to the network, the file system or the console is a function on
      the trace of the events so far.
    - [urllib.parse.urlparse] and [urllib.parse.parse_qs] belong to the
      Python library: the functions that call them take them as arguments
      (record [Lib]), and a reference implementation is given to run the
      examples.
    - Paths are POSIX paths: [os.path.join] and [os.path.dirname] are the
      ones of [posixpath].
    - The interpreter is CPython 3.11 with its default settings: [int]
      refuses a string of more than 4300 digits. *)

From Stdlib Require Import Bool Ascii String List ZArith NArith Lia Permutation.
From Stdlib Require Import Floats.
Import ListNotations.
Open Scope list_scope.
Open Scope string_scope.
Set Warnings "-register-all".

(* ================================================================== *)
(** ** Exceptions *)

(** The exception classes the script can meet.  [except Exception] catches
    every one of them. *)
Inductive Exn : Type :=
| TypeError | AttributeError | KeyError | ValueError | IndexError
| OSError | RequestException | HTTPError | JSONDecodeError.

(** The outcome of evaluating an expression: a value, or a raised exception. *)
Inductive Res (A : Type) : Type :=
| Ok (a : A)
| Raise (e : Exn).
Arguments Ok {A} a.
Arguments Raise {A} e.

Definition res_bind {A B : Type} (r : Res A) (k : A -> Res B) : Res B :=
  match r with
  | Ok a => k a
  | Raise e => Raise e
  end.

(** A library call that reports failure as [None] raises [e]. *)
Definition or_raise {A : Type} (e : Exn) (o : option A) : Res A :=
  match o with
  | Some a => Ok a
  | None => Raise e
  end.

Declare Scope res_scope.
Delimit Scope res_scope with res.
Notation "x <- r ;; k" := (res_bind r (fun x => k))
  (at level 61, r at next level, right associativity) : res_scope.

(* ================================================================== *)
(** ** Strings *)

Module PyStr.

Definition code (c : ascii) : N := N_of_ascii c.

Definition in_range (lo hi : N) (c : ascii) : bool :=
  ((lo <=? code c) && (code c <=? hi))%N.

Definition is_code (n : N) (c : ascii) : bool := (code c =? n)%N.

(** [str.isdecimal], [str.isdigit], [str.isalpha], [str.isnumeric],
    [str.isalnum] and [str.isspace] on one character. *)
Definition isdecimal_char (c : ascii) : bool := in_range 48 57 c.

Definition isdigit_char (c : ascii) : bool :=
  isdecimal_char c || in_range 178 179 c || is_code 185 c.

Definition isalpha_char (c : ascii) : bool :=
  in_range 65 90 c || in_range 97 122 c || is_code 170 c || is_code 181 c
  || is_code 186 c || in_range 192 214 c || in_range 216 246 c
  || in_range 248 255 c.

Definition isnumeric_char (c : ascii) : bool :=
  isdigit_char c || in_range 188 190 c.

Definition isalnum_char (c : ascii) : bool :=
  isalpha_char c || isdecimal_char c || isdigit_char c || isnumeric_char c.

Definition isspace_char (c : ascii) : bool :=
  in_range 9 13 c || in_range 28 32 c || is_code 133 c || is_code 160 c.

(** [str.lower] on one character. *)
Definition lower_char (c : ascii) : ascii :=
  if in_range 65 90 c || in_range 192 214 c || in_range 216 222 c
  then ascii_of_N (code c + 32)
  else c.

Fixpoint all_chars (p : ascii -> bool) (s : string) : bool :=
  match s with
  | EmptyString => true
  | String c r => p c && all_chars p r
  end.

Fixpoint map_chars (f : ascii -> ascii) (s : string) : string :=
  match s with
  | EmptyString => EmptyString
  | String c r => String (f c) (map_chars f r)
  end.

(** [bool(s)]: a string is true when it is not empty. *)
Definition nonempty (s : string) : bool :=
  match s with
  | EmptyString => false
  | String _ _ => true
  end.

(** [s.isdigit()], [s.isalnum()], [s.lower()]. *)
Definition isdigit (s : string) : bool := nonempty s && all_chars isdigit_char s.
Definition isalnum (s : string) : bool := nonempty s && all_chars isalnum_char s.
Definition lower (s : string) : string := map_chars lower_char s.

Fixpoint rev_onto (s acc : string) : string :=
  match s with
  | EmptyString => acc
  | String c r => rev_onto r (String c acc)
  end.

Definition srev (s : string) : string := rev_onto s EmptyString.

Fixpoint lstrip_by (p : ascii -> bool) (s : string) : string :=
  match s with
  | EmptyString => EmptyString
  | String c r => if p c then lstrip_by p r else s
  end.

Definition rstrip_by (p : ascii -> bool) (s : string) : string :=
  srev (lstrip_by p (srev s)).

Definition strip_by (p : ascii -> bool) (s : string) : string :=
  rstrip_by p (lstrip_by p s).

Fixpoint char_in (c : ascii) (chars : string) : bool :=
  match chars with
  | EmptyString => false
  | String d r => Ascii.eqb c d || char_in c r
  end.

(** [s.strip()] and [s.strip(chars)]. *)
Definition strip (s : string) : string := strip_by isspace_char s.
Definition strip_chars (chars s : string) : string :=
  strip_by (fun c => char_in c chars) s.

(** [s.startswith(pre)], [s.endswith(suf)], [sub in s]. *)
Fixpoint startswith (s pre : string) : bool :=
  match pre, s with
  | EmptyString, _ => true
  | String _ _, EmptyString => false
  | String d pre', String c s' => Ascii.eqb c d && startswith s' pre'
  end.

Definition endswith (s suf : string) : bool := startswith (srev s) (srev suf).

Fixpoint contains (sub s : string) : bool :=
  startswith s sub ||
  match s with
  | EmptyString => false
  | String _ r => contains sub r
  end.

(** [s.split(sep)] for a separator of one character: never an empty list. *)
Fixpoint split_on (sep : ascii) (s : string) : list string :=
  match s with
  | EmptyString => [EmptyString]
  | String c r =>
      if Ascii.eqb c sep then EmptyString :: split_on sep r
      else match split_on sep r with
           | [] => [String c EmptyString]
           | w :: ws => String c w :: ws
           end
  end.

(** [s.replace(a, b)] for [a] and [b] of one character. *)
Definition replace_char (a b : ascii) (s : string) : string :=
  map_chars (fun c => if Ascii.eqb c a then b else c) s.

(** The longest prefix whose characters satisfy [p], and the rest. *)
Fixpoint span (p : ascii -> bool) (s : string) : string * string :=
  match s with
  | EmptyString => (EmptyString, EmptyString)
  | String c r =>
      if p c then let (a, b) := span p r in (String c a, b)
      else (EmptyString, s)
  end.

(** [s[len(pre):]] when [s] starts with [pre]. *)
Fixpoint drop_prefix (pre s : string) : option string :=
  match pre, s with
  | EmptyString, _ => Some s
  | String _ _, EmptyString => None
  | String d pre', String c s' =>
      if Ascii.eqb c d then drop_prefix pre' s' else None
  end.

(** The one-character strings of [s]: what [for c in s] iterates over. *)
Fixpoint chars_of (s : string) : list string :=
  match s with
  | EmptyString => []
  | String c r => String c EmptyString :: chars_of r
  end.

(** [sep.join(parts)]. *)
Fixpoint join (sep : string) (parts : list string) : string :=
  match parts with
  | [] => EmptyString
  | [w] => w
  | w :: ws => w ++ sep ++ join sep ws
  end.

Definition digit_value (c : ascii) : Z := Z.of_N (code c) - 48.

Fixpoint int_digits (acc : Z) (s : string) : Z :=
  match s with
  | EmptyString => acc
  | String c r => int_digits (10 * acc + digit_value c) r
  end.

(** The interpreter's limit on the number of digits of a string that
    [int] converts ([sys.get_int_max_str_digits()]); the script leaves
    it at its default. *)
Definition int_max_str_digits : Z := 4300.

(** A string that is not longer than this limit.  Every digit counts,
    zeros at the front too. *)
Definition within_limit (s : string) : bool :=
  (Z.of_nat (String.length s) <=? int_max_str_digits)%Z.

(** [int(s)] on the strings the script passes to it: a string that
    satisfies [isdigit()] or that the pattern [\d+] matched.  On such a
    string [int] succeeds exactly when every character is a decimal digit
    (a superscript two is a digit and no decimal) and there are no more
    of them than the interpreter's limit; otherwise it raises
    [ValueError]. *)
Definition int_of_digits (s : string) : Res Z :=
  if nonempty s && all_chars isdecimal_char s && within_limit s
  then Ok (int_digits 0 s)
  else Raise ValueError.

End PyStr.

(* ================================================================== *)
(** ** Dictionaries and JSON values *)

(** A Python [dict] with string keys: the fields in insertion order.  A
    key occurs once; [dict_set] keeps that, and a lookup reads the first
    field of the name. *)
Definition dict (A : Type) : Type := list (string * A).

Fixpoint dict_get {A : Type} (k : string) (d : dict A) : option A :=
  match d with
  | [] => None
  | (k', v) :: r => if String.eqb k k' then Some v else dict_get k r
  end.

(** [k in d]. *)
Definition dict_has {A : Type} (k : string) (d : dict A) : bool :=
  match dict_get k d with
  | Some _ => true
  | None => false
  end.

(** [d[k] = v]. *)
Fixpoint dict_set {A : Type} (k : string) (v : A) (d : dict A) : dict A :=
  match d with
  | [] => [(k, v)]
  | (k', v') :: r =>
      if String.eqb k k' then (k, v) :: r else (k', v') :: dict_set k v r
  end.

(** [d.get(k, default)]. *)
Definition dict_get_or {A : Type} (k : string) (default : A) (d : dict A) : A :=
  match dict_get k d with
  | Some v => v
  | None => default
  end.

(** What [response.json()] returns: [None], [bool], [int], [float], [str],
    [list] and [dict]. *)
Inductive json : Type :=
| JNull
| JBool (b : bool)
| JInt (n : Z)
| JFloat (f : PrimFloat.float)
| JStr (s : string)
| JArr (items : list json)
| JObj (fields : dict json).

Module Py.
Import PyStr.

(** [bool(v)]. *)
Definition truthy (v : json) : bool :=
  match v with
  | JNull => false
  | JBool b => b
  | JInt n => negb (n =? 0)%Z
  | JFloat f => negb (PrimFloat.eqb f PrimFloat.zero)
  | JStr s => nonempty s
  | JArr l => match l with [] => false | _ :: _ => true end
  | JObj d => match d with [] => false | _ :: _ => true end
  end.

Definition is_str (key : string) (v : json) : bool :=
  match v with
  | JStr s => String.eqb s key
  | _ => false
  end.

(** [key in v] for a string [key]: a key of a dict, an element of a list,
    a substring of a string; the other values are not containers. *)
Definition contains_key (key : string) (v : json) : Res bool :=
  match v with
  | JObj d => Ok (dict_has key d)
  | JArr l => Ok (existsb (is_str key) l)
  | JStr s => Ok (contains key s)
  | _ => Raise TypeError
  end.

(** [v[key]] for a string [key]: only a dict can be indexed by a string. *)
Definition item (v : json) (key : string) : Res json :=
  match v with
  | JObj d => or_raise KeyError (dict_get key d)
  | _ => Raise TypeError
  end.

(** [v.get(key, default)] and [v.get(key)]: only a dict has [get]. *)
Definition get_or (v : json) (key : string) (default : json) : Res json :=
  match v with
  | JObj d => Ok (dict_get_or key default d)
  | _ => Raise AttributeError
  end.

Definition get (v : json) (key : string) : Res json := get_or v key JNull.

(** [for x in v]. *)
Definition iter (v : json) : Res (list json) :=
  match v with
  | JStr s => Ok (map JStr (chars_of s))
  | JArr l => Ok l
  | JObj d => Ok (map (fun kv => JStr (fst kv)) d)
  | _ => Raise TypeError
  end.

End Py.

(* ================================================================== *)
(** ** Paths ([os.path] on a POSIX system) *)

Module OsPath.
Import PyStr.

Definition is_slash (c : ascii) : bool := Ascii.eqb c "/".

(** [os.path.join(a, b)]. *)
Definition join (a b : string) : string :=
  if startswith b "/" then b
  else if negb (nonempty a) || endswith a "/" then a ++ b
  else a ++ "/" ++ b.

(** [os.path.dirname(p)]: [p] up to its last slash, without the slashes
    that end this head unless the head is made of slashes only. *)
Definition dirname (p : string) : string :=
  let head := srev (snd (span (fun c => negb (is_slash c)) (srev p))) in
  if nonempty head && negb (all_chars is_slash head)
  then rstrip_by is_slash head
  else head.

End OsPath.

(* ================================================================== *)
(** ** The Python library the script calls *)

(** What [urlparse] returns. *)
Record ParseResult : Type := mkParseResult {
  scheme : string;
  netloc : string;
  path : string;
  params : string;
  query : string;
  fragment : string
}.

(** The library functions the script calls on strings and numbers.  A
    result [None] (or [Raise]) stands for an exception.
    - [urlparse] and [parse_qs] are [urllib.parse]'s;
    - [filesize_text v] is [format_filesize(int(v))], [timestamp_text v] is
      [format_timestamp(v)] and [fixed2_text v] is [f"{v:.2f}"]: they
      format floating-point numbers and dates, for the verbose report
      only. *)
Record Lib : Type := mkLib {
  urlparse : string -> option ParseResult;
  parse_qs : string -> option (dict (list string));
  filesize_text : json -> Res string;
  timestamp_text : json -> Res string;
  fixed2_text : json -> Res string
}.

(** A reference implementation of [urlparse] and [parse_qs], after
    CPython 3.11, to run the script on concrete URLs.  Two parts of the
    library are left out: an authority with a bracket (an IPv6 literal) is
    refused, and percent escapes in a query are not decoded. *)
Module UrlRef.
Import PyStr.

Definition ascii_letter (c : ascii) : bool :=
  in_range 65 90 c || in_range 97 122 c.

Definition scheme_char (c : ascii) : bool :=
  ascii_letter c || isdecimal_char c || char_in c "+-.".

Definition c0_or_space (c : ascii) : bool := (code c <=? 32)%N.

Definition tab_cr_lf (c : ascii) : bool :=
  is_code 9 c || is_code 10 c || is_code 13 c.

Fixpoint remove_chars (p : ascii -> bool) (s : string) : string :=
  match s with
  | EmptyString => EmptyString
  | String c r => if p c then remove_chars p r else String c (remove_chars p r)
  end.

(** [s.partition(c)]: the text before the first [c], and the text after
    it when there is one. *)
Definition partition (c : ascii) (s : string) : string * option string :=
  match span (fun x => negb (Ascii.eqb x c)) s with
  | (before, String _ after) => (before, Some after)
  | (before, EmptyString) => (before, None)
  end.

Definition uses_params : list string :=
  [""; "ftp"; "hdl"; "prospero"; "http"; "imap"; "https"; "shttp"; "rtsp";
   "rtspu"; "sip"; "sips"; "mms"; "sftp"; "tel"].

(** The scheme and what follows its colon. *)
Definition split_scheme (url : string) : string * string :=
  match partition ":" url with
  | (String c0 pre, Some rest) =>
      if ascii_letter c0 && all_chars scheme_char (String c0 pre)
      then (lower (String c0 pre), rest)
      else (EmptyString, url)
  | _ => (EmptyString, url)
  end.

(** [_splitparams]: the parameters follow the first semicolon of the last
    segment of the path. *)
Definition splitparams (url : string) : string * string :=
  let (rlast, rhead) := span (fun c => negb (Ascii.eqb c "/")) (srev url) in
  match partition ";" (srev rlast) with
  | (seg, Some ps) => (srev rhead ++ seg, ps)
  | (_, None) => (url, EmptyString)
  end.

Definition urlparse (url0 : string) : option ParseResult :=
  let url := remove_chars tab_cr_lf (lstrip_by c0_or_space url0) in
  let (sch, url) := split_scheme url in
  let (loc, url) :=
    match drop_prefix "//" url with
    | Some r => span (fun c => negb (char_in c "/?#")) r
    | None => (EmptyString, url)
    end in
  if char_in "[" loc || char_in "]" loc then None
  else
    let (url, frag) :=
      match partition "#" url with
      | (u, Some f) => (u, f)
      | (u, None) => (u, EmptyString)
      end in
    let (url, qry) :=
      match partition "?" url with
      | (u, Some q) => (u, q)
      | (u, None) => (u, EmptyString)
      end in
    let (url, prm) :=
      if existsb (String.eqb sch) uses_params && char_in ";" url
      then splitparams url
      else (url, EmptyString) in
    Some (mkParseResult sch loc url prm qry frag).

(** [parse_qsl]: the fields between ampersands that have an equals sign
    and a value that is not empty; a plus sign stands for a space. *)
Definition parse_field (name_value : string) : list (string * string) :=
  match partition "=" name_value with
  | (name, Some value) =>
      if nonempty value
      then [(replace_char "+" " " name, replace_char "+" " " value)]
      else []
  | (_, None) => []
  end.

Definition parse_qsl (qs : string) : list (string * string) :=
  if nonempty qs then flat_map parse_field (split_on "&" qs) else [].

(** [parse_qs]: the values of each name, in the order of the query. *)
Fixpoint group_fields (fields : list (string * string)) (d : dict (list string))
  : dict (list string) :=
  match fields with
  | [] => d
  | (name, value) :: r =>
      group_fields r (dict_set name (dict_get_or name [] d ++ [value])%list d)
  end.

Definition parse_qs (qs : string) : option (dict (list string)) :=
  Some (group_fields (parse_qsl qs) []).

(** The library with the reference parsers; the three formatters of the
    verbose report are left out (they raise). *)
Definition lib : Lib :=
  mkLib urlparse parse_qs
        (fun _ => Raise ValueError) (fun _ => Raise ValueError)
        (fun _ => Raise ValueError).

End UrlRef.


(* ================================================================== *)
(** ** The archiver: URL and JSON handling *)

Module Pattern.
Import PyStr.

(** The pattern of line 96 matched at the start of [s]: the text
    [/games/], one character or more other than a slash, a slash, and the
    decimal digits of group 1 (one or more, as many as there are); the
    optional slash that ends the pattern constrains nothing. *)
Definition game_id_match_at (s : string) : option string :=
  match drop_prefix "/games/" s with
  | None => None
  | Some r =>
      match span (fun c => negb (Ascii.eqb c "/")) r with
      | (String _ _, String _ r') =>
          let (ds, _) := span isdecimal_char r' in
          if nonempty ds then Some ds else None
      | _ => None
      end
  end.

(** [re.search(r'/games/[^/]+/(\d+)/?', s)]: group 1 of the leftmost
    match. *)
Fixpoint game_id_search (s : string) : option string :=
  match game_id_match_at s with
  | Some ds => Some ds
  | None =>
      match s with
      | EmptyString => None
      | String _ r => game_id_search r
      end
  end.

End Pattern.

Section Parsing.
Import PyStr Py Pattern.
Variable L : Lib.

(** Lines 80-100 of [extract_game_id_from_url]: the body of its [try]. *)
Definition extract_game_id_try (url : string) : Res (option Z) :=
  (parsed_url <- or_raise ValueError (urlparse L url) ;;
   if negb (endswith (netloc parsed_url) "gamejolt.com") then Ok None
   else
     let segments := split_on "/" (strip_chars "/" (path parsed_url)) in
     if (3 <=? List.length segments)%nat && String.eqb (hd "" segments) "games"
     then
       if isdigit (last segments "")
       then n <- int_of_digits (last segments "") ;; Ok (Some n)
       else
         match game_id_search (path parsed_url) with
         | Some ds => n <- int_of_digits ds ;; Ok (Some n)
         | None => Ok None
         end
     else Ok None)%res.

(** [extract_game_id_from_url], lines 68-104: what it returns.  An
    exception in the body is caught: the method prints a diagnostic and
    returns [None]. *)
Definition extract_game_id_from_url (url : string) : option Z :=
  match extract_game_id_try url with
  | Ok r => r
  | Raise _ => None
  end.

(** [query_params['token'][0]]. *)
Definition first_token (query_params : dict (list string)) : Res string :=
  match dict_get "token" query_params with
  | Some (v :: _) => Ok v
  | Some [] => Raise IndexError
  | None => Raise KeyError
  end.

(** Lines 150-162 of [extract_token_from_url]: the body of its [try]. *)
Definition extract_token_try (url : string) : Res (option string) :=
  (parsed_url <- or_raise ValueError (urlparse L url) ;;
   query_params <- or_raise ValueError (parse_qs L (query parsed_url)) ;;
   if dict_has "token" query_params
   then t <- first_token query_params ;; Ok (Some t)
   else
     if String.eqb (netloc parsed_url) "gamejolt.net"
        && negb (nonempty (path parsed_url))
     then
       query_params <- or_raise ValueError (parse_qs L (query parsed_url)) ;;
       if dict_has "token" query_params
       then t <- first_token query_params ;; Ok (Some t)
       else Ok None
     else Ok None)%res.

(** [extract_token_from_url], lines 138-166: what it returns for a string. *)
Definition extract_token_from_url (url : string) : option string :=
  match extract_token_try url with
  | Ok r => r
  | Raise _ => None
  end.

End Parsing.

Section FileDetails.
Import PyStr Py.

(** Lines 248-252: the platform names, in the order of the four tests. *)
Definition platforms_of (build : json) : Res (list string) :=
  (let platforms : list string := [] in
   w <- get build "os_windows" ;;
   let platforms := if truthy w then (platforms ++ ["Windows"])%list else platforms in
   m <- get build "os_mac" ;;
   let platforms := if truthy m then (platforms ++ ["Mac"])%list else platforms in
   l <- get build "os_linux" ;;
   let platforms := if truthy l then (platforms ++ ["Linux"])%list else platforms in
   o <- get build "os_other" ;;
   let platforms := if truthy o then (platforms ++ ["Other"])%list else platforms in
   Ok platforms)%res.

(** [a in v and b in v[a]]. *)
Definition has_nested (v : json) (a b : string) : Res bool :=
  (ha <- contains_key a v ;;
   if ha then inner <- item v a ;; contains_key b inner else Ok false)%res.

(** [result[key] = v.get(field)]. *)
Definition copy_field (v : json) (field key : string) (result : dict json)
  : Res (dict json) :=
  (x <- get v field ;; Ok (dict_set key x result))%res.

(** [if v.get(field): result[key] = v.get(field)]. *)
Definition copy_if_truthy (v : json) (field key : string) (result : dict json)
  : Res (dict json) :=
  (x <- get v field ;;
   if truthy x then copy_field v field key result else Ok result)%res.

(** [get_file_details], lines 220-274. *)
Definition get_file_details (download_info : json) : Res (dict json) :=
  (let result : dict json := [] in
   has_url <- contains_key "url" download_info ;;
   result <-
     (if has_url
      then u <- item download_info "url" ;; Ok (dict_set "download_url" u result)
      else Ok result) ;;
   has_file <- has_nested download_info "build" "primary_file" ;;
   result <-
     (if has_file
      then
        b <- item download_info "build" ;;
        primary_file <- item b "primary_file" ;;
        result <- copy_field primary_file "filename" "filename" result ;;
        copy_field primary_file "filesize" "filesize" result
      else Ok result) ;;
   has_build <- contains_key "build" download_info ;;
   result <-
     (if has_build
      then
        build <- item download_info "build" ;;
        result <- copy_field build "id" "build_id" result ;;
        result <- copy_field build "type" "type" result ;;
        result <- copy_field build "added_on" "added_on" result ;;
        result <- copy_field build "updated_on" "updated_on" result ;;
        platforms <- platforms_of build ;;
        let result := dict_set "platforms" (JArr (map JStr platforms)) result in
        result <- copy_if_truthy build "embed_width" "width" result ;;
        copy_if_truthy build "embed_height" "height" result
      else Ok result) ;;
   has_game <- contains_key "game" download_info ;;
   result <-
     (if has_game
      then
        game <- item download_info "game" ;;
        result <- copy_field game "id" "game_id" result ;;
        copy_field game "title" "title" result
      else Ok result) ;;
   archive <- get download_info "javaArchive" ;;
   if truthy archive
   then
     result <- copy_field download_info "javaArchive" "java_archive" result ;;
     result <- copy_field download_info "javaCodebase" "java_codebase" result ;;
     has_build <- contains_key "build" download_info ;;
     named <-
       (if has_build
        then b <- item download_info "build" ;;
             c <- get b "java_class_name" ;; Ok (truthy c)
        else Ok false) ;;
     if named
     then b <- item download_info "build" ;;
          copy_field b "java_class_name" "java_class_name" result
     else Ok result
   else Ok result)%res.

(** What the generator of line 339 yields for one item [c] of the title:
    [c if c.isalnum() or c in " -_" else "_"]. *)
Definition safe_piece (c : string) : string :=
  if isalnum c || contains c " -_" then c else "_".

(** An item of the title must have [isalnum]: it must be a string. *)
Definition str_item (v : json) : Res string :=
  match v with
  | JStr s => Ok s
  | _ => Raise AttributeError
  end.

Fixpoint str_items (vs : list json) : Res (list string) :=
  match vs with
  | [] => Ok []
  | v :: r => (s <- str_item v ;; ss <- str_items r ;; Ok (s :: ss))%res
  end.

(** Lines 339-340 of [create_game_directory]: the safe version of the
    title.  For a title that is a string the items are its characters. *)
Definition safe_title (game_title : json) : Res string :=
  (items <- iter game_title ;;
   pieces <- str_items items ;;
   let safe_title := join "" (map safe_piece pieces) in
   Ok (replace_char " " "_" (strip safe_title)))%res.

End FileDetails.

(* ================================================================== *)
(** ** The outside world *)

(** The HTTP requests of the script, by the URL template they fill in. *)
Inductive Request : Type :=
| GetOverview (game_id : Z)        (* GET GAME_API_URL.format(game_id) *)
| PostBuildUrl (build_id : json)   (* POST BUILD_API_URL.format(build_id) *)
| GetGameserver (token : string)   (* GET GAMESERVER_API_URL.format(token) *)
| GetFile (url : json).            (* GET url, stream=True *)

(** The directory [os.makedirs] is asked for: a path, or the directory of
    the absolute form of the output path (line 293). *)
Inductive DirTarget : Type :=
| Dir (p : string)
| DirOfAbs (output_path : string).

(** The values the applet page interpolates in its template. *)
Record AppletPage : Type := mkAppletPage {
  page_title : json;
  applet_archive : json;
  applet_code : json;
  applet_height : json;
  applet_width : json
}.

(** What is written to a file: a chunk of a download, or the applet page. *)
Inductive Data : Type :=
| Chunk (bytes : string)
| Page (p : AppletPage).

(** The lines the script prints, by the [print] that writes them, with the
    values they format. *)
Inductive Msg : Type :=
| MsgJson (about : Request) (data : json)
| MsgErrGame (game_id : Z) (e : Exn)
| MsgErrToken (e : Exn)
| MsgNoToken (initial_url : json)
| MsgErrBuild (build_id : json) (e : Exn)
| MsgFileExists (p : string)
| MsgDownloading (filename : string) (total_size : Z)
| MsgProgress (downloaded total : Z)
| MsgDownloaded (p : string)
| MsgErrDownload (e : Exn)
| MsgMissingApplet
| MsgCreatedHtml (p : string)
| MsgErrHtml (e : Exn)
| MsgFailedGame (game_id : Z)
| MsgGame (game_title : json) (game_id : Z)
| MsgUrl (url : json)
| MsgDescription (d : json)
| MsgRatings (value : string) (count : json)
| MsgStats (views downloads plays : json)
| MsgBuildId (build_id : json)
| MsgFile (filename : json) (size : string)
| MsgType (ty : json)
| MsgPlatforms (platforms : list string)
| MsgAdded (date : string)
| MsgJarDetected (filename : string)
| MsgJavaHeader
| MsgJavaInfo (info : dict json)
| MsgNoJar
| MsgNoBuilds.

(** What the script does to the outside, in order.  A file-system
    operation carries whether the system carried it out. *)
Inductive Event : Type :=
| EvPrint (m : Msg)
| EvRequest (r : Request)
| EvMakedirs (d : DirTarget) (ok : bool)
| EvOpen (p : string) (ok : bool)
| EvWrite (p : string) (d : Data) (ok : bool).

Definition Trace : Type := list Event.

(** The body of a download once its headers are read: the declared
    length, the chunks that arrive, and the exception that ends the stream
    early, if one does. *)
Record FileBody : Type := mkFileBody {
  total_size : Z;
  chunks : list string;
  broken : option Exn
}.

(** The environment: what the network and the file system answer, given
    what happened so far.
    - [api t r]: the JSON body of the answer to [r]; [Raise] when the
      request, its status check or the decoding of the body raises.
    - [fetch t url]: the answer to the download of [url]; [Raise] when the
      request, its status check or the reading of [content-length] raises.
    - [path_exists t p] is [os.path.exists(p)]; [makedirs_ok], [open_ok]
      and [write_ok] tell whether the operation succeeds ([OSError]
      otherwise). *)
Record Env : Type := mkEnv {
  api : Trace -> Request -> Res json;
  fetch : Trace -> json -> Res FileBody;
  path_exists : Trace -> string -> bool;
  makedirs_ok : Trace -> DirTarget -> bool;
  open_ok : Trace -> string -> bool;
  write_ok : Trace -> string -> Data -> bool
}.

(** The pair a method returns: [(True, path)] or [(False, message)]. *)
Inductive Outcome : Type :=
| Success (p : string)
| Failure (m : Msg).

(** The calls of the two methods the orchestrator guards: a record kept
    beside the trace, to state when they run. *)
Inductive Call : Type :=
| CallDownload (url : json) (filename : string) (game_title : json)
               (output_path : option string)
| CallCheerpj (file_details : dict json) (output_dir : string).

Record World : Type := mkWorld {
  trace : Trace;
  calls : list Call
}.

(** A method: from the world before to its result and the world after. *)
Definition IO (A : Type) : Type := World -> Res A * World.

Definition ret {A : Type} (a : A) : IO A := fun w => (Ok a, w).

Definition bind {A B : Type} (m : IO A) (k : A -> IO B) : IO B :=
  fun w =>
    match m w with
    | (Ok a, w') => k a w'
    | (Raise e, w') => (Raise e, w')
    end.

Definition lift {A : Type} (r : Res A) : IO A := fun w => (r, w).

(** [try: body except Exception as e: handler e]. *)
Definition try_except {A : Type} (body : IO A) (handler : Exn -> IO A) : IO A :=
  fun w =>
    match body w with
    | (Ok a, w') => (Ok a, w')
    | (Raise e, w') => handler e w'
    end.

Definition emit (ev : Event) : IO unit :=
  fun w => (Ok tt, mkWorld (trace w ++ [ev])%list (calls w)).

Definition enter (c : Call) : IO unit :=
  fun w => (Ok tt, mkWorld (trace w) (calls w ++ [c])%list).

Declare Scope io_scope.
Delimit Scope io_scope with io.
Notation "x <- m ;; k" := (bind m (fun x => k))
  (at level 61, m at next level, right associativity) : io_scope.
Notation "m ;;; k" := (bind m (fun _ => k))
  (at level 61, right associativity) : io_scope.

Fixpoint for_each {A S : Type} (body : S -> A -> IO S) (items : list A) (st : S)
  : IO S :=
  match items with
  | [] => ret st
  | x :: r => bind (body st x) (for_each body r)
  end.

(* ================================================================== *)
(** ** The archiver: methods that act on the world *)

(** The fields of a [GameJoltArchiver] the methods read.  The HTTP session
    and its headers are part of the environment: what a request is
    answered may depend on everything that happened before it. *)
Record Archiver : Type := mkArchiver {
  download_dir : string;
  verbose : bool
}.

Section Methods.
Import PyStr Py.
Variable L : Lib.
Variable E : Env.

Definition print (m : Msg) : IO unit := emit (EvPrint m).

Definition raise {A : Type} (e : Exn) : IO A := lift (Raise e).

(** A request to one of the three JSON endpoints, with
    [raise_for_status()] and [response.json()]. *)
Definition request_json (r : Request) : IO json :=
  fun w => (api E (trace w) r, mkWorld (trace w ++ [EvRequest r])%list (calls w)).

(** The streamed request of a download, up to the reading of its length. *)
Definition request_file (url : json) : IO FileBody :=
  fun w => (fetch E (trace w) url,
            mkWorld (trace w ++ [EvRequest (GetFile url)])%list (calls w)).

Definition exists_path (p : string) : IO bool :=
  fun w => (Ok (path_exists E (trace w) p), w).

Definition fs_step (ok : bool) (ev : Event) : IO unit :=
  fun w => (if ok then Ok tt else Raise OSError,
            mkWorld (trace w ++ [ev])%list (calls w)).

(** [os.makedirs(d, exist_ok=True)]. *)
Definition makedirs (d : DirTarget) : IO unit :=
  fun w => fs_step (makedirs_ok E (trace w) d)
                   (EvMakedirs d (makedirs_ok E (trace w) d)) w.

(** [open(p, 'w')] and [open(p, 'wb')]: the file exists from then on. *)
Definition open_file (p : string) : IO unit :=
  fun w => fs_step (open_ok E (trace w) p) (EvOpen p (open_ok E (trace w) p)) w.

(** [f.write(d)]. *)
Definition write_file (p : string) (d : Data) : IO unit :=
  fun w => fs_step (write_ok E (trace w) p d)
                   (EvWrite p d (write_ok E (trace w) p d)) w.

(** [__init__], lines 19-46. *)
Definition new_archiver (download_dir : string) (verbose : bool) : IO Archiver :=
  (makedirs (Dir download_dir) ;;; ret (mkArchiver download_dir verbose))%io.

(** [print_json_response], lines 48-62. *)
Definition print_json_response (self : Archiver) (data : json) (about : Request)
  : IO unit :=
  if verbose self then print (MsgJson about data) else ret tt.

(** [get_game_info], lines 106-136.  Python's [None] is [JNull]. *)
Definition get_game_info (self : Archiver) (game_id : Z) : IO json :=
  try_except
    (data <- request_json (GetOverview game_id) ;;
     print_json_response self data (GetOverview game_id) ;;;
     has_payload <- lift (contains_key "payload" data) ;;
     if has_payload then lift (item data "payload") else ret JNull)%io
    (fun e => print (MsgErrGame game_id e) ;;; ret JNull)%io.

(** [extract_token_from_url] on the value found under [payload.url].  A
    value that is no string has no [decode]: [urlparse] raises on it, unless
    the value is false, which parses as the empty URL. *)
Definition extract_token (url : json) : IO (option string) :=
  match url with
  | JStr s =>
      match extract_token_try L s with
      | Ok r => ret r
      | Raise e => (print (MsgErrToken e) ;;; ret None)%io
      end
  | v =>
      if truthy v
      then (print (MsgErrToken AttributeError) ;;; ret None)%io
      else ret None
  end.

(** [if token:]. *)
Definition token_given (token : option string) : option string :=
  match token with
  | Some t => if nonempty t then Some t else None
  | None => None
  end.

(** [get_build_download_url], lines 168-218. *)
Definition get_build_download_url (self : Archiver) (build_id : json) (game_id : Z)
  : IO json :=
  try_except
    (initial_data <- request_json (PostBuildUrl build_id) ;;
     print_json_response self initial_data (PostBuildUrl build_id) ;;;
     has_url <- lift (has_nested initial_data "payload" "url") ;;
     if has_url
     then
       initial_url <- lift (p <- item initial_data "payload" ;; item p "url")%res ;;
       token <- extract_token initial_url ;;
       match token_given token with
       | Some token =>
           gameserver_data <- request_json (GetGameserver token) ;;
           print_json_response self gameserver_data (GetGameserver token) ;;;
           lift (get_or gameserver_data "payload" (JObj []))
       | None => print (MsgNoToken initial_url) ;;; ret JNull
       end
     else ret JNull)%io
    (fun e => print (MsgErrBuild build_id e) ;;; ret JNull)%io.

(** [create_game_directory], lines 336-346. *)
Definition create_game_directory (self : Archiver) (game_title : json) : IO string :=
  (safe <- lift (safe_title game_title) ;;
   let game_dir := OsPath.join (download_dir self) safe in
   makedirs (Dir game_dir) ;;;
   ret game_dir)%io.

(** [show_progress], lines 356-363. *)
Definition show_progress (downloaded total : Z) : IO unit :=
  if (0 <? total)%Z then print (MsgProgress downloaded total) else ret tt.

(** [if output_path:]. *)
Definition path_given (output_path : option string) : option string :=
  match output_path with
  | Some p => if nonempty p then Some p else None
  | None => None
  end.

(** The body of the loop of lines 322-326. *)
Definition write_chunk (p : string) (total : Z) (downloaded : Z) (chunk : string)
  : IO Z :=
  if nonempty chunk
  then
    (write_file p (Chunk chunk) ;;;
     let downloaded := (downloaded + Z.of_nat (String.length chunk))%Z in
     show_progress downloaded total ;;;
     ret downloaded)%io
  else ret downloaded.

(** Lines 290-298 of [download_file]: the destination, once its
    directory is made. *)
Definition destination (self : Archiver) (filename : string) (game_title : json)
  (output_path : option string) : IO string :=
  match path_given output_path with
  | Some p => (makedirs (DirOfAbs p) ;;; ret p)%io
  | None =>
      (game_dir <- create_game_directory self game_title ;;
       ret (OsPath.join game_dir filename))%io
  end.

(** [download_file], lines 276-334. *)
Definition download_file (self : Archiver) (url : json) (filename : string)
  (game_title : json) (output_path : option string) : IO Outcome :=
  (enter (CallDownload url filename game_title output_path) ;;;
   try_except
     (final_output_path <- destination self filename game_title output_path ;;
      found <- exists_path final_output_path ;;
      if found
      then print (MsgFileExists final_output_path) ;;;
           ret (Success final_output_path)
      else
        response <- request_file url ;;
        print (MsgDownloading filename (total_size response)) ;;;
        open_file final_output_path ;;;
        _ <- for_each (write_chunk final_output_path (total_size response))
                      (chunks response) 0%Z ;;
        match broken response with
        | Some e => raise e
        | None =>
            print (MsgDownloaded final_output_path) ;;;
            ret (Success final_output_path)
        end)
     (fun e => print (MsgErrDownload e) ;;; ret (Failure (MsgErrDownload e))))%io.

(** [create_cheerpj_html], lines 365-457. *)
Definition create_cheerpj_html (self : Archiver) (file_details : dict json)
  (output_dir : string) : IO Outcome :=
  (enter (CallCheerpj file_details output_dir) ;;;
   try_except
     (if negb (dict_has "java_class_name" file_details)
         || negb (dict_has "filename" file_details)
      then ret (Failure MsgMissingApplet)
      else
        let jar_filename := dict_get_or "filename" JNull file_details in
        let java_class := dict_get_or "java_class_name" JNull file_details in
        let game_title := dict_get_or "title" (JStr "Game") file_details in
        let width := dict_get_or "width" (JInt 640) file_details in
        let height := dict_get_or "height" (JInt 480) file_details in
        let html_filename := OsPath.join output_dir "cheerpj.html" in
        open_file html_filename ;;;
        write_file html_filename
          (Page (mkAppletPage game_title jar_filename java_class height width)) ;;;
        print (MsgCreatedHtml html_filename) ;;;
        ret (Success html_filename))
     (fun e => print (MsgErrHtml e) ;;; ret (Failure (MsgErrHtml e))))%io.

End Methods.

(* ================================================================== *)
(** ** The orchestrator *)

(** The two lists [process_game] fills while it iterates: [jar_files] and
    [java_class_info]. *)
Definition LoopState : Type := (list (json * string) * list (dict json))%type.

Section Orchestrator.
Import PyStr Py.
Variable L : Lib.
Variable E : Env.

(** Lines 486-492: the verbose report on the game. *)
Definition describe_game (game_info : json) : IO unit :=
  (d <- lift (m <- item game_info "microdata" ;; item m "description")%res ;;
   print (MsgDescription d) ;;;
   rated <- lift (m <- item game_info "microdata" ;;
                  contains_key "aggregateRating" m)%res ;;
   (if rated
    then
      rating <- lift (m <- item game_info "microdata" ;;
                      item m "aggregateRating")%res ;;
      value <- lift (v <- item rating "ratingValue" ;; fixed2_text L v)%res ;;
      count <- lift (item rating "ratingCount") ;;
      print (MsgRatings value count)
    else ret tt) ;;;
   views <- lift (item game_info "profileCount") ;;
   downloads <- lift (item game_info "downloadCount") ;;
   plays <- lift (item game_info "playCount") ;;
   print (MsgStats views downloads plays))%io.

(** Lines 501-512: the verbose report on a build. *)
Definition describe_build (build : json) : IO unit :=
  (build_id <- lift (item build "id") ;;
   print (MsgBuildId build_id) ;;;
   primary_file <- lift (get build "primary_file") ;;
   (if truthy primary_file
    then
      name <- lift (f <- item build "primary_file" ;; item f "filename")%res ;;
      size <- lift (f <- item build "primary_file" ;;
                    s <- item f "filesize" ;; filesize_text L s)%res ;;
      print (MsgFile name size)
    else ret tt) ;;;
   ty <- lift (item build "type") ;;
   print (MsgType ty) ;;;
   platforms <- lift (platforms_of build) ;;
   (match platforms with
    | [] => ret tt
    | _ :: _ => print (MsgPlatforms platforms)
    end) ;;;
   added <- lift (a <- item build "added_on" ;; timestamp_text L a)%res ;;
   print (MsgAdded added))%io.

(** Lines 521-529: the entry of [java_class_info]. *)
Definition java_info_of (file_details : dict json) (game_title : json) : dict json :=
  [("filename", dict_get_or "filename" (JStr "") file_details);
   ("java_class", dict_get_or "java_class_name" (JStr "") file_details);
   ("java_archive", dict_get_or "java_archive" (JStr "") file_details);
   ("java_codebase", dict_get_or "java_codebase" (JStr "") file_details);
   ("title", game_title);
   ("width", dict_get_or "width" (JInt 640) file_details);
   ("height", dict_get_or "height" (JInt 480) file_details)].

(** [download and filename.lower().endswith('.jar')], line 534: the name
    when the test holds.  Only a string has [lower]. *)
Definition jar_name (download : bool) (filename : json) : Res (option string) :=
  if download
  then
    match filename with
    | JStr name => Ok (if endswith (lower name) ".jar" then Some name else None)
    | _ => Raise AttributeError
    end
  else Ok None.

(** Line 543: the output directory, made when no output path is given. *)
Definition output_dir_of (archiver : Archiver) (game_title : json)
  (output_path : option string) : IO string :=
  match path_given output_path with
  | Some p => ret (OsPath.dirname p)
  | None => create_game_directory E archiver game_title
  end.

(** Lines 519-557: what the loop does with the details of a resolved
    build. *)
Definition process_file_details (archiver : Archiver) (game_title : json)
  (output_path : option string) (verbose print_java_class download create_cheerpj : bool)
  (st : LoopState) (file_details : dict json) : IO LoopState :=
  let (jar_files, java_class_info) := st in
  let java_class_info :=
    if dict_has "java_class_name" file_details
       && (print_java_class || create_cheerpj)
    then (java_class_info ++ [java_info_of file_details game_title])%list
    else java_class_info in
  let filename := dict_get_or "filename" (JStr "") file_details in
  (jar <- lift (jar_name download filename) ;;
   match jar with
   | Some filename =>
       let download_url := dict_get_or "download_url" JNull file_details in
       let jar_files := (jar_files ++ [(download_url, filename)])%list in
       (if verbose then print (MsgJarDetected filename) else ret tt) ;;;
       (if download
        then
          output_dir <- output_dir_of archiver game_title output_path ;;
          outcome <- download_file E archiver download_url filename game_title
                                   output_path ;;
          match outcome with
          | Success jar_path =>
              if create_cheerpj && dict_has "java_class_name" file_details
              then
                _ <- create_cheerpj_html E archiver
                       (dict_set "title" game_title file_details)
                       (OsPath.dirname jar_path) ;;
                ret tt
              else ret tt
          | Failure _ => ret tt
          end
        else ret tt) ;;;
       ret (jar_files, java_class_info)
   | None => ret (jar_files, java_class_info)
   end)%io.

(** Lines 499-557: the body of the loop over the builds. *)
Definition process_build (archiver : Archiver) (game_id : Z) (game_title : json)
  (output_path : option string) (verbose print_java_class download create_cheerpj : bool)
  (st : LoopState) (build : json) : IO LoopState :=
  ((if verbose then describe_build build else ret tt) ;;;
   build_id <- lift (item build "id") ;;
   download_info <- get_build_download_url L E archiver build_id game_id ;;
   if truthy download_info
   then
     file_details <- lift (get_file_details download_info) ;;
     process_file_details archiver game_title output_path verbose
       print_java_class download create_cheerpj st file_details
   else ret st)%io.

(** Lines 560-568: the report on the Java classes. *)
Definition print_java_classes (java_class_info : list (dict json)) : IO unit :=
  (print MsgJavaHeader ;;;
   for_each (fun _ info => print (MsgJavaInfo info)) java_class_info tt)%io.

(** Lines 496-571: the iteration over the builds and the two reports that
    end it. *)
Definition process_builds (archiver : Archiver) (game_id : Z) (game_title : json)
  (output_path : option string)
  (verbose print_java_class download create_cheerpj : bool) (builds : list json)
  : IO unit :=
  (st <- for_each (process_build archiver game_id game_title output_path
                     verbose print_java_class download create_cheerpj)
                  builds ([], []) ;;
   let (jar_files, java_class_info) := (st : LoopState) in
   (match java_class_info with
    | _ :: _ =>
        if print_java_class then print_java_classes java_class_info else ret tt
    | [] => ret tt
    end) ;;;
   match jar_files with
   | [] => if download then print MsgNoJar else ret tt
   | _ :: _ => ret tt
   end)%io.

(** [process_game], lines 459-573. *)
Definition process_game (game_id : Z) (output_path : option string)
  (verbose print_java_class download create_cheerpj : bool) : IO unit :=
  (archiver <- new_archiver E "downloads" verbose ;;
   game_info <- get_game_info E archiver game_id ;;
   if negb (truthy game_info)
   then print (MsgFailedGame game_id)
   else
     game_title <- lift (m <- item game_info "microdata" ;; item m "name")%res ;;
     print (MsgGame game_title game_id) ;;;
     url <- lift (m <- item game_info "microdata" ;; item m "url")%res ;;
     print (MsgUrl url) ;;;
     (if verbose then describe_game game_info else ret tt) ;;;
     builds <- lift (get game_info "builds") ;;
     if truthy builds
     then
       builds <- lift (b <- item game_info "builds" ;; iter b)%res ;;
       process_builds archiver game_id game_title output_path
         verbose print_java_class download create_cheerpj builds
     else print MsgNoBuilds)%io.

End Orchestrator.

(* ================================================================== *)
(** ** Vocabulary of the statements *)

Module Shape.
Import PyStr.

(** A string that starts with a character outside [p]. *)
Definition starts_outside (p : ascii -> bool) (s : string) : bool :=
  match s with
  | EmptyString => false
  | String c _ => negb (p c)
  end.

(** A string without the character [c]. *)
Definition no_char (c : ascii) (s : string) : bool :=
  all_chars (fun x => negb (Ascii.eqb x c)) s.

(** A string of decimal digits, one at least. *)
Definition digits (s : string) : bool :=
  nonempty s && all_chars isdecimal_char s.

(** The string of [n] digits [1]. *)
Fixpoint ones (n : nat) : string :=
  match n with
  | O => EmptyString
  | S k => String "1" (ones k)
  end.

(** [path] is made of the segments [segs] joined by slashes, between any
    number of leading and of trailing slashes. *)
Definition path_of_segments (segs : list string) (path : string) : Prop :=
  exists pre post,
    all_chars OsPath.is_slash pre = true /\
    all_chars OsPath.is_slash post = true /\
    path = pre ++ join "/" segs ++ post.

(** Segments of a path: none holds a slash, and the first and the last
    are not empty. *)
Definition segments (segs : list string) : Prop :=
  Forall (fun s => no_char "/" s = true) segs /\
  nonempty (hd "" segs) = true /\
  nonempty (last segs "") = true.

End Shape.

Module Titles.
Import PyStr.

(** What a character of a title becomes: itself when it is alphanumeric,
    a space, a hyphen or an underscore, and an underscore otherwise. *)
Definition keep_char (c : ascii) : ascii :=
  if isalnum_char c || char_in c " -_" then c else "_"%char.

(** The characters [A-Za-z0-9 _-]. *)
Definition ascii_allowed : string :=
  "ABCDEFGHIJKLMNOPQRSTUVWXYZabcdefghijklmnopqrstuvwxyz0123456789 _-".

(** The letter e with an acute accent, U+00E9. *)
Definition e_acute : ascii := ascii_of_N 233.

End Titles.

Section TokenWords.
Variable L : Lib.

(** The spec's words for token extraction: the first value of the [token]
    query parameter when the parameter is present, [None] otherwise. *)
Definition token_of_query (url : string) : option string :=
  match urlparse L url with
  | None => None
  | Some p =>
      match parse_qs L (query p) with
      | None => None
      | Some d =>
          match dict_get "token" d with
          | Some (v :: _) => Some v
          | _ => None
          end
      end
  end.

(** [extract_token_from_url] cut after its first branch (lines 150-154):
    without the test for a direct token URL of lines 156-160. *)
Definition extract_token_first_branch (url : string) : option string :=
  match
    (parsed_url <- or_raise ValueError (urlparse L url) ;;
     query_params <- or_raise ValueError (parse_qs L (query parsed_url)) ;;
     if dict_has "token" query_params
     then t <- first_token query_params ;; Ok (Some t)
     else Ok None)%res
  with
  | Ok r => r
  | Raise _ => None
  end.

End TokenWords.

(** The platform names and the flag of a build each one stands for, in the
    order the script tests them. *)
Definition platform_flags : list (string * string) :=
  [("Windows", "os_windows"); ("Mac", "os_mac");
   ("Linux", "os_linux"); ("Other", "os_other")].

(** The names of the flags that are true in the fields of a build. *)
Definition true_platforms (fields : dict json) : list string :=
  map fst (filter (fun nf => Py.truthy (dict_get_or (snd nf) JNull fields))
                  platform_flags).

(** A method that records no call of the two guarded methods. *)
Definition calls_kept {A : Type} (m : IO A) : Prop :=
  forall w, calls (snd (m w)) = calls w.

(** A method that only adds calls that satisfy [P]. *)
Definition calls_only {A : Type} (P : Call -> Prop) (m : IO A) : Prop :=
  forall w, Forall P (calls w) -> Forall P (calls (snd (m w))).

(** A method that returns, whatever the world: no exception leaves it. *)
Definition never_raises {A : Type} (m : IO A) : Prop :=
  forall w, exists a, fst (m w) = Ok a.

(** The values the applet page of [file_details] declares. *)
Definition applet_page (file_details : dict json) : AppletPage :=
  mkAppletPage (dict_get_or "title" (JStr "Game") file_details)
               (dict_get_or "filename" JNull file_details)
               (dict_get_or "java_class_name" JNull file_details)
               (dict_get_or "height" (JInt 480) file_details)
               (dict_get_or "width" (JInt 640) file_details).

(** File details that name a JAR file (a name that ends with [.jar] in
    any case, so a name that is not empty) and an entry class (a value
    that is true: for a string, one that is not empty). *)
Definition names_applet (file_details : dict json) : Prop :=
  (exists name, dict_get "filename" file_details = Some (JStr name)
                /\ PyStr.endswith (PyStr.lower name) ".jar" = true
                /\ PyStr.nonempty name = true)
  /\ (exists v, dict_get "java_class_name" file_details = Some v
                 /\ Py.truthy v = true).

(** The calls the orchestrator may make: any download, and an emission
    only for file details that name an applet. *)
Definition guarded_call (c : Call) : Prop :=
  match c with
  | CallDownload _ _ _ _ => True
  | CallCheerpj file_details _ => names_applet file_details
  end.

(** The downloads among the calls: the URL and the file name of each. *)
Definition downloads_of (cs : list Call) : list (json * string) :=
  flat_map (fun c =>
              match c with
              | CallDownload url filename _ _ => [(url, filename)]
              | CallCheerpj _ _ => []
              end) cs.

(** The requests for a file among the events. *)
Definition file_requests (t : Trace) : list json :=
  flat_map (fun ev =>
              match ev with
              | EvRequest (GetFile url) => [url]
              | _ => []
              end) t.

(** A file system that keeps its files while the script runs: a path
    that exists, or that was opened for writing, exists from then on. *)
Definition keeps_files (E : Env) : Prop :=
  (forall t t' p, path_exists E t p = true -> path_exists E (t ++ t')%list p = true)
  /\ (forall t t' p, path_exists E (t ++ EvOpen p true :: t')%list p = true).

(** A method that sends no request for a file: it only adds events that
    are no such request. *)
Definition fetches_nothing {A : Type} (m : IO A) : Prop :=
  forall w, exists t, trace (snd (m w)) = (trace w ++ t)%list /\ file_requests t = [].

Section DestinationPath.
Import PyStr.

(** The destination of a transfer, as its arguments decide it: the output
    path when one is given, and otherwise the filename in the directory
    of the safe title, when the title has one. *)
Definition destination_path (self : Archiver) (filename : string)
  (game_title : json) (output_path : option string) : option string :=
  match output_path with
  | Some p => if nonempty p then Some p else
                match safe_title game_title with
                | Ok safe => Some (OsPath.join (OsPath.join (download_dir self) safe) filename)
                | Raise _ => None
                end
  | None =>
      match safe_title game_title with
      | Ok safe => Some (OsPath.join (OsPath.join (download_dir self) safe) filename)
      | Raise _ => None
      end
  end.

End DestinationPath.

(** A method that sends one request for a file at most. *)
Definition fetches_once {A : Type} (m : IO A) : Prop :=
  forall w, exists t,
    trace (snd (m w)) = (trace w ++ t)%list
    /\ (List.length (file_requests t) <= 1)%nat.

(* ================================================================== *)
(** ** A reference environment *)

(** An environment to run the script in: a server that answers by a
    table, and a file system that keeps what was created and refuses
    nothing, or refuses to open files. *)
Module Sample.

(** A path exists once it was opened for writing or made as a directory. *)
Definition created (t : Trace) (p : string) : bool :=
  existsb (fun ev =>
             match ev with
             | EvOpen q true => String.eqb q p
             | EvMakedirs (Dir q) true => String.eqb q p
             | _ => false
             end) t.

Definition env (server : Request -> Res json) (files : json -> Res FileBody) : Env :=
  mkEnv (fun _ r => server r) (fun _ u => files u) created
        (fun _ _ => true) (fun _ _ => true) (fun _ _ _ => true).

(** The same, on a file system that lets no file be opened. *)
Definition read_only (server : Request -> Res json) (files : json -> Res FileBody)
  : Env :=
  mkEnv (fun _ r => server r) (fun _ u => files u) created
        (fun _ _ => true) (fun _ _ => false) (fun _ _ _ => true).

Definition start : World := mkWorld [] [].

Definition no_server (r : Request) : Res json := Raise RequestException.
Definition no_files (u : json) : Res FileBody := Raise HTTPError.

Definition archiver : Archiver := mkArchiver "downloads" false.

(** The overview of game 12345, "My Game", with the given builds. *)
Definition overview (builds : list json) : json :=
  JObj [("payload",
         JObj [("microdata",
                JObj [("name", JStr "My Game");
                      ("url", JStr "https://gamejolt.com/games/my-game/12345")]);
               ("builds", JArr builds)])].

Definition build (id : Z) : json := JObj [("id", JInt id)].

(** The answer of the build endpoint: a URL that carries [token]. *)
Definition token_url (token : string) : json :=
  JObj [("payload", JObj [("url", JStr ("https://gamejolt.net/?token=" ++ token))])].

(** The descriptor of a build whose primary file is [filename]. *)
Definition descriptor (id : Z) (filename : string) : json :=
  JObj [("url", JStr ("https://cdn.example/" ++ filename));
        ("build", JObj [("id", JInt id);
                        ("primary_file", JObj [("filename", JStr filename)]);
                        ("os_windows", JBool true)])].

(** The descriptor of a build that has no primary file. *)
Definition descriptor_without_file (id : Z) : json :=
  JObj [("build", JObj [("id", JInt id); ("primary_file", JNull)])].

(** One game with the builds 998 and 999: the first has no primary file,
    the second is [game.jar]. *)
Definition server_two_builds (r : Request) : Res json :=
  match r with
  | GetOverview 12345 => Ok (overview [build 998; build 999])
  | PostBuildUrl (JInt 998) => Ok (token_url "t998")
  | PostBuildUrl (JInt 999) => Ok (token_url "t999")
  | GetGameserver "t998" => Ok (JObj [("payload", descriptor_without_file 998)])
  | GetGameserver "t999" => Ok (JObj [("payload", descriptor 999 "game.jar")])
  | _ => Raise HTTPError
  end.

(** One game with the build 999, [game.jar]. *)
Definition server_one_build (r : Request) : Res json :=
  match r with
  | GetOverview 12345 => Ok (overview [build 999])
  | PostBuildUrl (JInt 999) => Ok (token_url "t999")
  | GetGameserver "t999" => Ok (JObj [("payload", descriptor 999 "game.jar")])
  | _ => Raise HTTPError
  end.

(** The descriptor of an applet build: the archive and the entry class
    are given, the embed height is not. *)
Definition applet_descriptor (id : Z) (filename : string) : json :=
  JObj [("url", JStr ("https://cdn.example/" ++ filename));
        ("build", JObj [("id", JInt id);
                        ("primary_file", JObj [("filename", JStr filename)]);
                        ("java_class_name", JStr "Main");
                        ("embed_width", JInt 800)]);
        ("javaArchive", JStr filename);
        ("javaCodebase", JStr "https://cdn.example/")].

(** One game with the build 999, the applet [game.jar]. *)
Definition server_applet (r : Request) : Res json :=
  match r with
  | GetOverview 12345 => Ok (overview [build 999])
  | PostBuildUrl (JInt 999) => Ok (token_url "t999")
  | GetGameserver "t999" => Ok (JObj [("payload", applet_descriptor 999 "game.jar")])
  | _ => Raise HTTPError
  end.

(** One game with the build 999, the text file [notes.txt]. *)
Definition server_no_jar (r : Request) : Res json :=
  match r with
  | GetOverview 12345 => Ok (overview [build 999])
  | PostBuildUrl (JInt 999) => Ok (token_url "t999")
  | GetGameserver "t999" => Ok (JObj [("payload", descriptor 999 "notes.txt")])
  | _ => Raise HTTPError
  end.

Definition files (u : json) : Res FileBody :=
  match u with
  | JStr "https://cdn.example/game.jar" => Ok (mkFileBody 4 ["ab"; ""; "cd"] None)
  | _ => Raise HTTPError
  end.

(** File details of an applet: both names present. *)
Definition applet_details : dict json :=
  [("filename", JStr "game.jar"); ("java_class_name", JStr "Main")].

(** File details whose two names are present and empty. *)
Definition empty_names : dict json :=
  [("filename", JStr ""); ("java_class_name", JStr "")].

End Sample.

(* ================================================================== *)
(** ** Vocabulary for the descriptors, the requests and the files *)

Module Descriptor.

Definition is_obj (v : json) : bool :=
  match v with
  | JObj _ => true
  | _ => false
  end.

(** A value that is absent, or that satisfies [p]. *)
Definition absent_or (p : json -> bool) (o : option json) : bool :=
  match o with
  | Some v => p v
  | None => true
  end.

(** A build whose [primary_file], when it has one, is an object. *)
Definition build_shaped (b : json) : bool :=
  match b with
  | JObj fields => absent_or is_obj (dict_get "primary_file" fields)
  | _ => false
  end.

(** A descriptor of the shape [get_file_details] reads: an object whose
    [build], when it has one, is a build as above, and whose [game], when
    it has one, is an object. *)
Definition well_formed (download_info : json) : bool :=
  match download_info with
  | JObj d =>
      absent_or build_shaped (dict_get "build" d)
      && absent_or is_obj (dict_get "game" d)
  | _ => false
  end.

(** The keys [get_file_details] may set, in the order it sets them. *)
Definition detail_keys : list string :=
  ["download_url"; "filename"; "filesize"; "build_id"; "type"; "added_on";
   "updated_on"; "platforms"; "width"; "height"; "game_id"; "title";
   "java_archive"; "java_codebase"; "java_class_name"].

(** [v.get(key)] for an object, [None] for its absence. *)
Definition field (key : string) (fields : dict json) : json :=
  dict_get_or key JNull fields.

(** [x if x else default]. *)
Definition or_default (x default : json) : json :=
  if Py.truthy x then x else default.

(** The five steps of [get_file_details], each from the result so far:
    lines 232-233, 235-238, 240-259, 261-264 and 267-272. *)
Definition step_url (download_info : json) (result : dict json) : Res (dict json) :=
  (has_url <- Py.contains_key "url" download_info ;;
   if has_url
   then u <- Py.item download_info "url" ;; Ok (dict_set "download_url" u result)
   else Ok result)%res.

Definition step_file (download_info : json) (result : dict json) : Res (dict json) :=
  (has_file <- has_nested download_info "build" "primary_file" ;;
   if has_file
   then
     b <- Py.item download_info "build" ;;
     primary_file <- Py.item b "primary_file" ;;
     result <- copy_field primary_file "filename" "filename" result ;;
     copy_field primary_file "filesize" "filesize" result
   else Ok result)%res.

Definition step_build (download_info : json) (result : dict json) : Res (dict json) :=
  (has_build <- Py.contains_key "build" download_info ;;
   if has_build
   then
     build <- Py.item download_info "build" ;;
     result <- copy_field build "id" "build_id" result ;;
     result <- copy_field build "type" "type" result ;;
     result <- copy_field build "added_on" "added_on" result ;;
     result <- copy_field build "updated_on" "updated_on" result ;;
     platforms <- platforms_of build ;;
     let result := dict_set "platforms" (JArr (map JStr platforms)) result in
     result <- copy_if_truthy build "embed_width" "width" result ;;
     copy_if_truthy build "embed_height" "height" result
   else Ok result)%res.

Definition step_game (download_info : json) (result : dict json) : Res (dict json) :=
  (has_game <- Py.contains_key "game" download_info ;;
   if has_game
   then
     game <- Py.item download_info "game" ;;
     result <- copy_field game "id" "game_id" result ;;
     copy_field game "title" "title" result
   else Ok result)%res.

Definition step_java (download_info : json) (result : dict json) : Res (dict json) :=
  (archive <- Py.get download_info "javaArchive" ;;
   if Py.truthy archive
   then
     result <- copy_field download_info "javaArchive" "java_archive" result ;;
     result <- copy_field download_info "javaCodebase" "java_codebase" result ;;
     has_build <- Py.contains_key "build" download_info ;;
     named <-
       (if has_build
        then b <- Py.item download_info "build" ;;
             c <- Py.get b "java_class_name" ;; Ok (Py.truthy c)
        else Ok false) ;;
     if named
     then b <- Py.item download_info "build" ;;
          copy_field b "java_class_name" "java_class_name" result
     else Ok result
   else Ok result)%res.

(** [result[key] = src.get(name)] on an object [src], and the same under
    [if src.get(name):]. *)
Definition copied (src : dict json) (name key : string) (r : dict json)
  : dict json :=
  dict_set key (field name src) r.

Definition copied_if_true (src : dict json) (name key : string) (r : dict json)
  : dict json :=
  if Py.truthy (field name src) then copied src name key r else r.

(** The fields of [v] when [v] is an object. *)
Definition fields_of (o : option json) : option (dict json) :=
  match o with
  | Some (JObj fields) => Some fields
  | _ => None
  end.

(** What the five steps add on the fields [d] of a well-formed descriptor,
    without the exceptions: used to compute with the result. *)
Definition url_of (d : dict json) (r : dict json) : dict json :=
  match dict_get "url" d with
  | Some u => dict_set "download_url" u r
  | None => r
  end.

Definition file_of (d : dict json) (r : dict json) : dict json :=
  match fields_of (dict_get "build" d) with
  | Some bd =>
      match fields_of (dict_get "primary_file" bd) with
      | Some pf =>
          copied pf "filesize" "filesize" (copied pf "filename" "filename" r)
      | None => r
      end
  | None => r
  end.

Definition build_of (d : dict json) (r : dict json) : dict json :=
  match fields_of (dict_get "build" d) with
  | Some bd =>
      copied_if_true bd "embed_height" "height"
        (copied_if_true bd "embed_width" "width"
           (dict_set "platforms" (JArr (map JStr (true_platforms bd)))
              (copied bd "updated_on" "updated_on"
                 (copied bd "added_on" "added_on"
                    (copied bd "type" "type"
                       (copied bd "id" "build_id" r))))))
  | None => r
  end.

Definition game_of (d : dict json) (r : dict json) : dict json :=
  match fields_of (dict_get "game" d) with
  | Some g => copied g "title" "title" (copied g "id" "game_id" r)
  | None => r
  end.

Definition java_of (d : dict json) (r : dict json) : dict json :=
  if Py.truthy (field "javaArchive" d)
  then
    let r := copied d "javaCodebase" "java_codebase"
               (copied d "javaArchive" "java_archive" r) in
    match fields_of (dict_get "build" d) with
    | Some bd => copied_if_true bd "java_class_name" "java_class_name" r
    | None => r
    end
  else r.

Definition details (d : dict json) : dict json :=
  java_of d (game_of d (build_of d (file_of d (url_of d [])))).

End Descriptor.

(** The requests among the events, in order. *)
Definition requests_of (t : Trace) : list Request :=
  flat_map (fun ev =>
              match ev with
              | EvRequest r => [r]
              | _ => []
              end) t.

Definition is_print (ev : Event) : bool :=
  match ev with
  | EvPrint _ => true
  | _ => false
  end.

(** A method that only adds events that satisfy [P]. *)
Definition adds_only {A : Type} (P : Event -> Prop) (m : IO A) : Prop :=
  forall w, exists t, trace (snd (m w)) = (trace w ++ t)%list /\ Forall P t.

(** The chunks written to the file [p], in order. *)
Definition written_to (p : string) (t : Trace) : list string :=
  flat_map (fun ev =>
              match ev with
              | EvWrite q (Chunk bytes) true =>
                  if String.eqb q p then [bytes] else []
              | _ => []
              end) t.

(** What a file holds once [chunks] were written to it. *)
Definition file_content (chunks : list string) : string :=
  fold_right append EmptyString chunks.

(** An event that is the making of a directory. *)
Definition is_makedirs (ev : Event) : Prop :=
  exists d ok, ev = EvMakedirs d ok.

(** What a run that downloads nothing may do: print, ask the JSON
    endpoints, and make the directory [downloads]. *)
Definition dry_event (ev : Event) : Prop :=
  match ev with
  | EvPrint _ => True
  | EvRequest (GetFile _) => False
  | EvRequest _ => True
  | EvMakedirs (Dir p) _ => p = "downloads"%string
  | _ => False
  end.

(** The directories a run with the output path [output_path] may make:
    [downloads], a directory right below it whose name is made of
    letters, digits, [-] and [_], and the directory of the output path. *)
Definition run_directory (output_path : option string) (ev : Event) : Prop :=
  match ev with
  | EvMakedirs (Dir p) _ =>
      p = "downloads"%string
      \/ exists name,
          PyStr.all_chars
            (fun c => PyStr.isalnum_char c || PyStr.char_in c "-_") name = true
          /\ p = ("downloads/" ++ name)%string
  | EvMakedirs (DirOfAbs op) _ => path_given output_path = Some op
  | _ => True
  end.

(** An event that is not the writing of an applet page. *)
Definition no_page (ev : Event) : Prop :=
  match ev with
  | EvWrite _ (Page _) _ => False
  | _ => True
  end.

(** More answers of the outside world, to run the script on. *)
Module Scenario.

(** The download of [game.jar] breaks after its first chunk. *)
Definition broken_files (u : json) : Res FileBody :=
  match u with
  | JStr "https://cdn.example/game.jar" =>
      Ok (mkFileBody 4 ["ab"] (Some RequestException))
  | _ => Raise HTTPError
  end.

End Scenario.
(* ================================================================== *)
(** ** Facts about strings *)

Module StrFacts.
Import PyStr Shape.

Lemma sapp_nil_r (s : string) : s ++ "" = s.
Proof. induction s as [|c s IH]; simpl; [reflexivity | now rewrite IH]. Qed.

Lemma sapp_assoc (a b c : string) : (a ++ b) ++ c = a ++ (b ++ c).
Proof. induction a as [|x a IH]; simpl; [reflexivity | now rewrite IH]. Qed.

Lemma rev_onto_app (s acc : string) : rev_onto s acc = srev s ++ acc.
Proof.
  unfold srev. revert acc.
  induction s as [|c s IH]; intro acc; simpl; [reflexivity|].
  rewrite (IH (String c acc)), (IH (String c "")), sapp_assoc. reflexivity.
Qed.

Lemma srev_cons (c : ascii) (s : string) : srev (String c s) = srev s ++ String c "".
Proof. unfold srev at 1. simpl. apply rev_onto_app. Qed.

Lemma srev_app (a b : string) : srev (a ++ b) = srev b ++ srev a.
Proof.
  induction a as [|x a IH]; simpl.
  - now rewrite sapp_nil_r.
  - now rewrite !srev_cons, IH, sapp_assoc.
Qed.

Lemma srev_involutive (s : string) : srev (srev s) = s.
Proof.
  induction s as [|c s IH]; [reflexivity|].
  rewrite srev_cons, srev_app, IH. reflexivity.
Qed.

Lemma all_chars_app (p : ascii -> bool) (a b : string) :
  all_chars p (a ++ b) = all_chars p a && all_chars p b.
Proof.
  induction a as [|x a IH]; simpl; [reflexivity|].
  now rewrite IH, andb_assoc.
Qed.

Lemma all_chars_srev (p : ascii -> bool) (s : string) :
  all_chars p (srev s) = all_chars p s.
Proof.
  induction s as [|c s IH]; [reflexivity|].
  rewrite srev_cons, all_chars_app, IH. simpl.
  rewrite andb_true_r. apply andb_comm.
Qed.

Lemma all_chars_impl (p q : ascii -> bool) (s : string) :
  (forall c, p c = true -> q c = true) ->
  all_chars p s = true -> all_chars q s = true.
Proof.
  intro Hpq. induction s as [|c s IH]; simpl; [reflexivity|].
  intro H. apply andb_true_iff in H. destruct H as [Hc Hs].
  now rewrite (Hpq _ Hc), (IH Hs).
Qed.

Lemma startswith_app (p s : string) : startswith (p ++ s) p = true.
Proof.
  induction p as [|c p IH]; simpl; [now destruct s|].
  now rewrite Ascii.eqb_refl.
Qed.

Lemma startswith_iff (s p : string) :
  startswith s p = true <-> exists r, s = p ++ r.
Proof.
  split.
  - revert s. induction p as [|d p IH]; intros s H.
    + now exists s.
    + destruct s as [|c s]; simpl in H; [discriminate|].
      apply andb_true_iff in H. destruct H as [Hc Hs].
      apply Ascii.eqb_eq in Hc. subst d.
      destruct (IH _ Hs) as [r ->]. now exists r.
  - intros [r ->]. apply startswith_app.
Qed.

Lemma endswith_iff (s suf : string) :
  endswith s suf = true <-> exists p, s = p ++ suf.
Proof.
  unfold endswith. rewrite startswith_iff. split.
  - intros [r Hr]. exists (srev r).
    rewrite <- (srev_involutive s), Hr, srev_app, srev_involutive. reflexivity.
  - intros [p ->]. exists (srev p). apply srev_app.
Qed.

Lemma lstrip_by_app (p : ascii -> bool) (a s : string) :
  all_chars p a = true -> lstrip_by p (a ++ s) = lstrip_by p s.
Proof.
  induction a as [|x a IH]; simpl; [reflexivity|].
  intro H. apply andb_true_iff in H. destruct H as [Hx Ha].
  rewrite Hx. now apply IH.
Qed.

Lemma lstrip_by_outside (p : ascii -> bool) (s r : string) :
  starts_outside p s = true -> lstrip_by p (s ++ r) = s ++ r.
Proof.
  destruct s as [|c s]; simpl; [discriminate|].
  intro H. apply negb_true_iff in H. now rewrite H.
Qed.

Lemma lstrip_by_all (p : ascii -> bool) (s : string) :
  all_chars p s = true -> lstrip_by p s = "".
Proof.
  induction s as [|c s IH]; simpl; [reflexivity|].
  intro H. apply andb_true_iff in H. destruct H as [Hc Hs].
  rewrite Hc. now apply IH.
Qed.

(** Stripping removes what surrounds a body that starts and ends outside
    the stripped characters. *)
Lemma strip_by_core (p : ascii -> bool) (pre body post : string) :
  all_chars p pre = true -> all_chars p post = true ->
  starts_outside p body = true -> starts_outside p (srev body) = true ->
  strip_by p (pre ++ body ++ post) = body.
Proof.
  intros Hpre Hpost Hb He. unfold strip_by, rstrip_by.
  rewrite (lstrip_by_app _ _ _ Hpre), (lstrip_by_outside _ _ _ Hb).
  rewrite srev_app, lstrip_by_app by now rewrite all_chars_srev.
  rewrite <- (sapp_nil_r (srev body)), (lstrip_by_outside _ _ _ He), sapp_nil_r.
  apply srev_involutive.
Qed.

Lemma strip_by_all (p : ascii -> bool) (s : string) :
  all_chars p s = true -> strip_by p s = "".
Proof.
  intro H. unfold strip_by, rstrip_by. now rewrite (lstrip_by_all _ _ H).
Qed.

Lemma split_on_one (sep : ascii) (s : string) :
  no_char sep s = true -> split_on sep s = [s].
Proof.
  induction s as [|c s IH]; simpl; [reflexivity|].
  intro H. apply andb_true_iff in H. destruct H as [Hc Hs].
  apply negb_true_iff in Hc. rewrite Hc, (IH Hs). reflexivity.
Qed.

Lemma split_on_app (sep : ascii) (a b : string) :
  no_char sep a = true ->
  split_on sep (a ++ String sep b) = a :: split_on sep b.
Proof.
  induction a as [|c a IH]; simpl.
  - intros _. now rewrite Ascii.eqb_refl.
  - intro H. apply andb_true_iff in H. destruct H as [Hc Ha].
    apply negb_true_iff in Hc. rewrite Hc, (IH Ha). reflexivity.
Qed.

Lemma split_on_join (sep : ascii) (segs : list string) :
  segs <> [] -> Forall (fun s => no_char sep s = true) segs ->
  split_on sep (join (String sep "") segs) = segs.
Proof.
  induction segs as [|w ws IH]; intros Hne Hall; [congruence|].
  inversion Hall as [|? ? Hw Hws]; subst.
  destruct ws as [|w' ws'].
  - simpl. now apply split_on_one.
  - change (join (String sep "") (w :: w' :: ws'))
      with (w ++ String sep (join (String sep "") (w' :: ws'))).
    rewrite (split_on_app _ _ _ Hw), IH; [reflexivity | discriminate | assumption].
Qed.

Lemma srev_join_last (sep : string) (segs : list string) :
  segs <> [] ->
  exists r, srev (join sep segs) = srev (last segs "") ++ r.
Proof.
  induction segs as [|w ws IH]; intro Hne; [congruence|].
  destruct ws as [|w' ws'].
  - exists "". simpl. now rewrite sapp_nil_r.
  - destruct IH as [r Hr]; [discriminate|].
    exists (r ++ srev (w ++ sep)).
    change (join sep (w :: w' :: ws')) with (w ++ sep ++ join sep (w' :: ws')).
    change (last (w :: w' :: ws') "") with (last (w' :: ws') "").
    rewrite <- sapp_assoc, srev_app, Hr, sapp_assoc. reflexivity.
Qed.

Lemma join_hd (sep : string) (segs : list string) :
  segs <> [] -> exists r, join sep segs = hd "" segs ++ r.
Proof.
  destruct segs as [|w ws]; intro Hne; [congruence|].
  destruct ws as [|w' ws'].
  - exists "". simpl. now rewrite sapp_nil_r.
  - now exists (sep ++ join sep (w' :: ws')).
Qed.

Lemma lstrip_by_split (p : ascii -> bool) (s : string) :
  exists pre, all_chars p pre = true /\ s = pre ++ lstrip_by p s.
Proof.
  induction s as [|c s (pre & Hpre & Hs)]; [now exists ""|].
  simpl. destruct (p c) eqn:Hc.
  - exists (String c pre). simpl. rewrite Hc, Hpre. split; [reflexivity|].
    now rewrite <- Hs.
  - now exists "".
Qed.

Lemma lstrip_by_outcome (p : ascii -> bool) (s : string) :
  lstrip_by p s = "" \/ starts_outside p (lstrip_by p s) = true.
Proof.
  induction s as [|c s IH]; [now left|].
  simpl. destruct (p c) eqn:Hc; [exact IH|]. right. simpl. now rewrite Hc.
Qed.

Lemma rstrip_by_split (p : ascii -> bool) (s : string) :
  exists post, all_chars p post = true /\ s = rstrip_by p s ++ post.
Proof.
  destruct (lstrip_by_split p (srev s)) as (pre & Hpre & Hs).
  exists (srev pre). split; [now rewrite all_chars_srev|].
  unfold rstrip_by. rewrite <- srev_app, <- Hs. symmetry. apply srev_involutive.
Qed.

(** What stripping leaves: the string is the stripped text between
    stripped characters, and the text, when it is not empty, starts and
    ends outside them. *)
Lemma strip_by_split (p : ascii -> bool) (s : string) :
  exists pre post,
    all_chars p pre = true /\ all_chars p post = true
    /\ s = pre ++ strip_by p s ++ post
    /\ (strip_by p s = ""
        \/ (starts_outside p (strip_by p s) = true
            /\ starts_outside p (srev (strip_by p s)) = true)).
Proof.
  destruct (lstrip_by_split p s) as (pre & Hpre & Hs).
  destruct (rstrip_by_split p (lstrip_by p s)) as (post & Hpost & Ht).
  exists pre, post. repeat split; try assumption.
  - unfold strip_by. now rewrite <- Ht.
  - unfold strip_by in *.
    destruct (rstrip_by p (lstrip_by p s)) as [|c r] eqn:Hr; [now left|].
    right. split.
    + destruct (lstrip_by_outcome p s) as [He|Ho].
      * rewrite He in Ht. discriminate.
      * rewrite Ht in Ho. exact Ho.
    + unfold rstrip_by in Hr. rewrite <- Hr, srev_involutive.
      destruct (lstrip_by_outcome p (srev (lstrip_by p s))) as [He|Ho];
        [|exact Ho].
      rewrite He in Hr. discriminate.
Qed.

Lemma split_on_nonnil (sep : ascii) (s : string) : split_on sep s <> [].
Proof.
  destruct s as [|c s]; simpl; [discriminate|].
  destruct (Ascii.eqb c sep); [discriminate|].
  destruct (split_on sep s); discriminate.
Qed.

Lemma join_split (sep : ascii) (s : string) :
  join (String sep "") (split_on sep s) = s.
Proof.
  induction s as [|c s IH]; [reflexivity|].
  simpl. destruct (Ascii.eqb_spec c sep) as [->|Hne].
  - pose proof (split_on_nonnil sep s) as Hnn.
    destruct (split_on sep s) as [|w ws]; [congruence|].
    change (join (String sep "") ("" :: w :: ws))
      with (String sep (join (String sep "") (w :: ws))).
    now rewrite IH.
  - pose proof (split_on_nonnil sep s) as Hnn.
    destruct (split_on sep s) as [|w ws]; [congruence|].
    rewrite <- IH. destruct ws; reflexivity.
Qed.

Lemma split_on_no_sep (sep : ascii) (s : string) :
  Forall (fun w => no_char sep w = true) (split_on sep s).
Proof.
  induction s as [|c s IH]; simpl; [now repeat constructor|].
  destruct (Ascii.eqb c sep) eqn:Hc; [now constructor|].
  destruct (split_on sep s) as [|w ws];
    [repeat constructor; unfold no_char; simpl; now rewrite Hc|].
  inversion IH; subst. constructor; [|assumption].
  unfold no_char in *. simpl. now rewrite Hc.
Qed.

Lemma split_on_hd (sep : ascii) (s : string) :
  starts_outside (fun c => Ascii.eqb c sep) s = true ->
  nonempty (hd "" (split_on sep s)) = true.
Proof.
  destruct s as [|c s]; simpl; [discriminate|].
  intro H. apply negb_true_iff in H. rewrite H.
  now destruct (split_on sep s).
Qed.

Lemma split_on_last (sep : ascii) (s : string) :
  last (split_on sep s) "" = "" ->
  s = "" \/ exists r, s = r ++ String sep "".
Proof.
  induction s as [|c s IH]; [now left|].
  intro H. right. simpl in H.
  pose proof (split_on_nonnil sep s) as Hnn.
  destruct (Ascii.eqb_spec c sep) as [->|Hne].
  - destruct (split_on sep s) as [|w ws] eqn:Hsp; [congruence|].
    change (last ("" :: w :: ws) "") with (last (w :: ws) "") in H.
    destruct (IH H) as [->|[r ->]]; [now exists "" | now exists (String sep r)].
  - destruct (split_on sep s) as [|w ws] eqn:Hsp; [congruence|].
    destruct ws as [|w' ws']; [discriminate H|].
    change (last (String c w :: w' :: ws') "") with (last (w :: w' :: ws') "") in H.
    destruct (IH H) as [->|[r ->]]; [discriminate Hsp | now exists (String c r)].
Qed.

End StrFacts.

(* ================================================================== *)
(** ** The identifier resolver *)

Section ResolverFacts.
Import PyStr Py Pattern Shape StrFacts.
Variable L : Lib.

Lemma span_all (p : ascii -> bool) (s : string) :
  all_chars p (fst (span p s)) = true.
Proof.
  induction s as [|c s IH]; simpl; [reflexivity|].
  destruct (p c) eqn:Hc; [|reflexivity].
  destruct (span p s) as [a b]. simpl in *. now rewrite Hc.
Qed.

Lemma game_id_match_at_digits (s ds : string) :
  game_id_match_at s = Some ds -> digits ds = true.
Proof.
  unfold game_id_match_at.
  destruct (drop_prefix "/games/" s) as [r|]; [|discriminate].
  destruct (span (fun c => negb (Ascii.eqb c "/")) r) as [[|c0 slug] [|c1 r']];
    try discriminate.
  pose proof (span_all isdecimal_char r') as Hall.
  destruct (span isdecimal_char r') as [d rest]. simpl in Hall.
  destruct (nonempty d) eqn:Hne; [|discriminate].
  intro H. injection H as <-. unfold digits. now rewrite Hne, Hall.
Qed.

Lemma game_id_search_digits (s ds : string) :
  game_id_search s = Some ds -> digits ds = true.
Proof.
  induction s as [|c s IH]; cbn [game_id_search].
  - destruct (game_id_match_at "") as [d|] eqn:Hm; [|discriminate].
    intro H. replace ds with d by congruence.
    exact (game_id_match_at_digits _ _ Hm).
  - destruct (game_id_match_at (String c s)) as [d|] eqn:Hm.
    + intro H. replace ds with d by congruence.
      exact (game_id_match_at_digits _ _ Hm).
    + exact IH.
Qed.

Lemma int_of_digits_ok (ds : string) :
  digits ds = true -> within_limit ds = true ->
  int_of_digits ds = Ok (int_digits 0 ds).
Proof. unfold digits, int_of_digits. now intros -> ->. Qed.

Lemma int_of_digits_long (ds : string) :
  within_limit ds = false -> int_of_digits ds = Raise ValueError.
Proof. unfold int_of_digits. intros ->. now rewrite andb_false_r. Qed.

Lemma int_of_digits_limit (ds : string) :
  digits ds = true ->
  int_of_digits ds
  = if within_limit ds then Ok (int_digits 0 ds) else Raise ValueError.
Proof.
  intro Hd. destruct (within_limit ds) eqn:Hl;
    [now apply int_of_digits_ok | now apply int_of_digits_long].
Qed.

Lemma digits_isdigit (ds : string) : digits ds = true -> isdigit ds = true.
Proof.
  unfold digits, isdigit. intro H. apply andb_true_iff in H. destruct H as [Hn Ha].
  rewrite Hn. simpl. apply (all_chars_impl isdecimal_char); [|exact Ha].
  intros c Hc. unfold isdigit_char. now rewrite Hc.
Qed.

Lemma segments_nonnil (segs : list string) : segments segs -> segs <> [].
Proof. intros (_ & Hh & _) ->. discriminate. Qed.

Lemma starts_outside_app (p : ascii -> bool) (a r : string) :
  nonempty a = true -> all_chars (fun c => negb (p c)) a = true ->
  starts_outside p (a ++ r) = true.
Proof.
  destruct a as [|c a]; simpl; [discriminate|].
  intros _ H. now apply andb_true_iff in H.
Qed.

Lemma nonempty_srev (s : string) : nonempty (srev s) = nonempty s.
Proof.
  destruct s as [|c s]; [reflexivity|].
  rewrite srev_cons. now destruct (srev s).
Qed.

(** The script's way of cutting a path gives back the segments the path
    was made of. *)
Lemma segments_of_path (segs : list string) (pth : string) :
  segments segs -> path_of_segments segs pth ->
  split_on "/" (strip_chars "/" pth) = segs.
Proof.
  intros Hsegs (pre & post & Hpre & Hpost & ->).
  pose proof (segments_nonnil _ Hsegs) as Hne.
  destruct Hsegs as (Hall & Hhd & Hlast).
  assert (Hslash : forall s, all_chars OsPath.is_slash s = true ->
                             all_chars (fun c => char_in c "/") s = true).
  { intros s. apply all_chars_impl. intros c Hc. simpl.
    unfold OsPath.is_slash in Hc. now rewrite Hc. }
  assert (Hout : forall a r, nonempty a = true -> no_char "/" a = true ->
                             starts_outside (fun c => char_in c "/") (a ++ r) = true).
  { intros a r Ha Hno. apply starts_outside_app; [exact Ha|].
    revert Hno. apply all_chars_impl. intros c Hc. simpl.
    now rewrite orb_false_r. }
  unfold strip_chars.
  rewrite strip_by_core; [now apply split_on_join | now apply Hslash
                          | now apply Hslash | |].
  - destruct (join_hd "/" segs Hne) as [r ->]. apply Hout; [exact Hhd|].
    destruct segs as [|w ws]; [congruence|]. now inversion Hall.
  - destruct (srev_join_last "/" segs Hne) as [r ->].
    apply Hout; [now rewrite nonempty_srev|].
    unfold no_char. rewrite all_chars_srev.
    assert (Hin : In (last segs "") segs).
    { destruct (exists_last Hne) as (l & x & ->). rewrite last_last.
      apply in_or_app. right. now left. }
    rewrite Forall_forall in Hall. now apply Hall.
Qed.

Lemma host_refused (url : string) (p : ParseResult) :
  urlparse L url = Some p ->
  endswith (netloc p) "gamejolt.com" = false ->
  extract_game_id_from_url L url = None.
Proof.
  intros Hp Hh. unfold extract_game_id_from_url, extract_game_id_try.
  rewrite Hp. cbn [or_raise res_bind]. now rewrite Hh.
Qed.

Lemma numeric_segment_resolves (url : string) (p : ParseResult) (segs : list string) :
  urlparse L url = Some p ->
  endswith (netloc p) "gamejolt.com" = true ->
  segments segs -> path_of_segments segs (path p) ->
  3 <= List.length segs -> hd "" segs = "games" ->
  digits (last segs "") = true -> within_limit (last segs "") = true ->
  extract_game_id_from_url L url = Some (int_digits 0 (last segs "")).
Proof.
  intros Hp Hh Hs Hpath Hlen Hhd Hd Hl.
  unfold extract_game_id_from_url, extract_game_id_try.
  rewrite Hp. cbn [or_raise res_bind]. rewrite Hh. cbn [negb].
  rewrite (segments_of_path _ _ Hs Hpath), Hhd.
  apply Nat.leb_le in Hlen. rewrite Hlen, String.eqb_refl. cbn [andb].
  rewrite (digits_isdigit _ Hd), (int_of_digits_ok _ Hd Hl). reflexivity.
Qed.

Lemma short_path_refused (url : string) (p : ParseResult) (segs : list string) :
  urlparse L url = Some p ->
  segments segs -> path_of_segments segs (path p) ->
  List.length segs < 3 \/ hd "" segs <> "games" ->
  extract_game_id_from_url L url = None.
Proof.
  intros Hp Hs Hpath Hbad.
  unfold extract_game_id_from_url, extract_game_id_try.
  rewrite Hp. cbn [or_raise res_bind].
  destruct (endswith (netloc p) "gamejolt.com"); [cbn [negb]|reflexivity].
  rewrite (segments_of_path _ _ Hs Hpath).
  destruct Hbad as [Hlen|Hhd].
  - apply Nat.leb_gt in Hlen. now rewrite Hlen.
  - apply String.eqb_neq in Hhd. rewrite Hhd. now rewrite andb_false_r.
Qed.

Lemma fallback_resolves (url : string) (p : ParseResult) (segs : list string) :
  urlparse L url = Some p ->
  endswith (netloc p) "gamejolt.com" = true ->
  segments segs -> path_of_segments segs (path p) ->
  3 <= List.length segs -> hd "" segs = "games" ->
  isdigit (last segs "") = false ->
  extract_game_id_from_url L url
  = match game_id_search (path p) with
    | Some ds => if within_limit ds then Some (int_digits 0 ds) else None
    | None => None
    end.
Proof.
  intros Hp Hh Hs Hpath Hlen Hhd Hd.
  unfold extract_game_id_from_url, extract_game_id_try.
  rewrite Hp. cbn [or_raise res_bind]. rewrite Hh. cbn [negb].
  rewrite (segments_of_path _ _ Hs Hpath), Hhd.
  apply Nat.leb_le in Hlen. rewrite Hlen, String.eqb_refl. cbn [andb]. rewrite Hd.
  destruct (game_id_search (path p)) as [ds|] eqn:Hsearch; [|reflexivity].
  rewrite (int_of_digits_limit _ (game_id_search_digits _ _ Hsearch)).
  now destruct (within_limit ds).
Qed.

(** Every path is made of slashes only, or of segments. *)
Lemma path_cases (pth : string) :
  all_chars OsPath.is_slash pth = true
  \/ exists segs, segments segs /\ path_of_segments segs pth.
Proof.
  destruct (strip_by_split OsPath.is_slash pth)
    as (pre & post & Hpre & Hpost & Hs & [He|[Hb Hl]]).
  - left. rewrite Hs, He, !all_chars_app, Hpre, Hpost. reflexivity.
  - right. exists (split_on "/" (strip_by OsPath.is_slash pth)).
    split; [repeat split|].
    + apply split_on_no_sep.
    + now apply split_on_hd.
    + destruct (last (split_on "/" (strip_by OsPath.is_slash pth)) "") eqn:Hlast;
        [|reflexivity].
      apply split_on_last in Hlast. destruct Hlast as [H0|[r Hr]].
      * rewrite H0 in Hb. discriminate.
      * rewrite Hr, srev_app in Hl. discriminate.
    + exists pre, post. repeat split; try assumption.
      now rewrite (join_split "/").
Qed.

Lemma bare_path_refused (url : string) (p : ParseResult) :
  urlparse L url = Some p ->
  all_chars OsPath.is_slash (path p) = true ->
  extract_game_id_from_url L url = None.
Proof.
  intros Hp Hall. unfold extract_game_id_from_url, extract_game_id_try.
  rewrite Hp. cbn [or_raise res_bind].
  destruct (endswith (netloc p) "gamejolt.com"); [cbn [negb]|reflexivity].
  unfold strip_chars. rewrite strip_by_all; [reflexivity|].
  revert Hall. apply all_chars_impl. intros c Hc. simpl.
  unfold OsPath.is_slash in Hc. now rewrite Hc.
Qed.

(** A last segment of digits that are not all decimal, a superscript
    two for one: [isdigit] accepts it, [int] raises, and the exception is
    caught. *)
Lemma other_digits_refused (url : string) (p : ParseResult) (segs : list string) :
  urlparse L url = Some p ->
  segments segs -> path_of_segments segs (path p) ->
  isdigit (last segs "") = true -> digits (last segs "") = false ->
  extract_game_id_from_url L url = None.
Proof.
  intros Hp Hs Hpath Hd Hn.
  unfold extract_game_id_from_url, extract_game_id_try.
  rewrite Hp. cbn [or_raise res_bind].
  destruct (endswith (netloc p) "gamejolt.com"); [cbn [negb]|reflexivity].
  rewrite (segments_of_path _ _ Hs Hpath).
  destruct ((3 <=? List.length segs)%nat && String.eqb (hd "" segs) "games");
    [|reflexivity].
  rewrite Hd. unfold int_of_digits. unfold digits in Hn. now rewrite Hn.
Qed.

(** A last segment of more decimal digits than the interpreter converts:
    [isdigit] accepts it, [int] raises, and the exception is caught. *)
Lemma long_digits_refused (url : string) (p : ParseResult) (segs : list string) :
  urlparse L url = Some p ->
  segments segs -> path_of_segments segs (path p) ->
  digits (last segs "") = true -> within_limit (last segs "") = false ->
  extract_game_id_from_url L url = None.
Proof.
  intros Hp Hs Hpath Hd Hl.
  unfold extract_game_id_from_url, extract_game_id_try.
  rewrite Hp. cbn [or_raise res_bind].
  destruct (endswith (netloc p) "gamejolt.com"); [cbn [negb]|reflexivity].
  rewrite (segments_of_path _ _ Hs Hpath).
  destruct ((3 <=? List.length segs)%nat && String.eqb (hd "" segs) "games");
    [|reflexivity].
  now rewrite (digits_isdigit _ Hd), (int_of_digits_long _ Hl).
Qed.

End ResolverFacts.

Section ResolverClaims.
Import PyStr Py Pattern Shape StrFacts.

Lemma startswith_cancel (a s p : string) :
  startswith (a ++ s) (a ++ p) = startswith s p.
Proof.
  induction a as [|c a IH]; simpl; [reflexivity|].
  now rewrite Ascii.eqb_refl.
Qed.

Lemma endswith_cancel (h suf p : string) :
  endswith (h ++ suf) (p ++ suf) = endswith h p.
Proof. unfold endswith. rewrite !srev_app. apply startswith_cancel. Qed.

Lemma length_sapp (a b : string) :
  String.length (a ++ b) = String.length a + String.length b.
Proof. induction a as [|c a IH]; simpl; [reflexivity | now rewrite IH]. Qed.

Lemma sapp_neq_r (h s : string) : nonempty h = true -> String.eqb (h ++ s) s = false.
Proof.
  intro Hh. apply String.eqb_neq. intro Heq.
  apply (f_equal String.length) in Heq. rewrite length_sapp in Heq.
  destruct h; [discriminate|]. simpl in Heq. lia.
Qed.

(** C1, as the code has it.  Identifier resolution, for a URL that parses
    into the authority [netloc p] and the path [path p]:
    - when the authority does not end with the text [gamejolt.com], the
      result is [None];
    - the path is made of slashes only, or of segments;
    - when it is made of slashes only, the result is [None];
    - when the authority ends with [gamejolt.com] and the path is made of
      three segments or more, the first being [games] and the last a
      string of decimal digits, 4300 of them at most, the result is that
      string as an integer;
    - when the path has fewer than three segments, or its first segment is
      not [games], the result is [None];
    - when the last segment is of digits that are not all decimal, the
      result is [None];
    - when the last segment is of more than 4300 decimal digits, the
      result is [None];
    - when the last segment is not numeric, the result is the number that
      follows [/games/<slug>/] in the path, if there is one and it has
      4300 digits at most, and [None] otherwise. *)
Theorem extract_game_id_by_shape (L : Lib) (url : string) (p : ParseResult) :
  urlparse L url = Some p ->
  (endswith (netloc p) "gamejolt.com" = false ->
   extract_game_id_from_url L url = None)
  /\
  (all_chars OsPath.is_slash (path p) = true
   \/ exists segs, segments segs /\ path_of_segments segs (path p))
  /\
  (all_chars OsPath.is_slash (path p) = true ->
   extract_game_id_from_url L url = None)
  /\
  (forall segs,
      segments segs -> path_of_segments segs (path p) ->
      (endswith (netloc p) "gamejolt.com" = true ->
       3 <= List.length segs -> hd "" segs = "games" ->
       digits (last segs "") = true -> within_limit (last segs "") = true ->
       extract_game_id_from_url L url = Some (int_digits 0 (last segs "")))
      /\
      (List.length segs < 3 \/ hd "" segs <> "games" ->
       extract_game_id_from_url L url = None)
      /\
      (isdigit (last segs "") = true -> digits (last segs "") = false ->
       extract_game_id_from_url L url = None)
      /\
      (digits (last segs "") = true -> within_limit (last segs "") = false ->
       extract_game_id_from_url L url = None)
      /\
      (endswith (netloc p) "gamejolt.com" = true ->
       3 <= List.length segs -> hd "" segs = "games" ->
       isdigit (last segs "") = false ->
       extract_game_id_from_url L url
       = match game_id_search (path p) with
         | Some ds => if within_limit ds then Some (int_digits 0 ds) else None
         | None => None
         end)).
Proof.
  intro Hp. split; [now apply host_refused|].
  split; [apply path_cases|].
  split; [now apply bare_path_refused|].
  intros segs Hs Hpath. repeat split.
  - intros. now apply (numeric_segment_resolves L url p segs).
  - intros. now apply (short_path_refused L url p segs).
  - intros. now apply (other_digits_refused L url p segs).
  - intros. now apply (long_digits_refused L url p segs).
  - intros. now apply (fallback_resolves L url p segs).
Qed.

(** The segments of the path [/games/my-game/12345]. *)
Lemma sample_path_segments :
  segments ["games"; "my-game"; "12345"]
  /\ path_of_segments ["games"; "my-game"; "12345"] "/games/my-game/12345".
Proof.
  split.
  - repeat split; try reflexivity. repeat constructor.
  - exists "/", "". repeat split.
Qed.

(** C1 at the URL of a game page: the hypotheses hold there, and the
    identifier is the last segment. *)
Lemma extract_game_id_by_shape_witness :
  urlparse UrlRef.lib "https://gamejolt.com/games/my-game/12345"
  = Some (mkParseResult "https" "gamejolt.com" "/games/my-game/12345" "" "" "")
  /\ extract_game_id_from_url UrlRef.lib "https://gamejolt.com/games/my-game/12345"
     = Some 12345%Z.
Proof.
  split; [reflexivity|].
  destruct sample_path_segments as [Hs Hp].
  apply (proj1 (proj2 (proj2 (proj2 (extract_game_id_by_shape UrlRef.lib
                         "https://gamejolt.com/games/my-game/12345" _ eq_refl)))
                      ["games"; "my-game"; "12345"] Hs Hp));
    [reflexivity | simpl; lia | reflexivity | reflexivity | reflexivity].
Defined.

(** The limit of the interpreter at work: an identifier of 4301 digits is
    numeric and is not resolved, one of 4300 digits is. *)
Lemma long_identifier_unresolved :
  isdigit (ones 4301) = true
  /\ extract_game_id_from_url UrlRef.lib
       ("https://gamejolt.com/games/g/" ++ ones 4301) = None
  /\ extract_game_id_from_url UrlRef.lib
       ("https://gamejolt.com/games/g/" ++ ones 4300)
     = Some (int_digits 0 (ones 4300)).
Proof. repeat split; vm_compute; reflexivity. Qed.

(** C1 as stated fails: a path whose last segment is not numeric is of
    another shape, and yet the identifier is resolved, from the digits
    that follow the slug. *)
Lemma extract_game_id_other_shape :
  urlparse UrlRef.lib "https://gamejolt.com/games/slug/123/extra"
  = Some (mkParseResult "https" "gamejolt.com" "/games/slug/123/extra" "" "" "")
  /\ split_on "/" (strip_chars "/" "/games/slug/123/extra")
     = ["games"; "slug"; "123"; "extra"]
  /\ isdigit "extra" = false
  /\ extract_game_id_from_url UrlRef.lib "https://gamejolt.com/games/slug/123/extra"
     = Some 123%Z.
Proof. repeat split. Qed.

(** C10.  The host test is a test on the end of the authority, with no
    dot before the domain: for every authority [h ++ "gamejolt.com"] where
    [h] is not empty and does not end with a dot, the authority is neither
    the domain nor a subdomain of it, and a path of the shape
    [/games/<slug>/<digits>], of 4300 digits at most, is resolved to its
    digits all the same. *)
Theorem suffix_host_is_resolved (L : Lib) (url h : string) (p : ParseResult)
  (segs : list string) :
  urlparse L url = Some p ->
  netloc p = h ++ "gamejolt.com" ->
  nonempty h = true -> endswith h "." = false ->
  segments segs -> path_of_segments segs (path p) ->
  3 <= List.length segs -> hd "" segs = "games" ->
  digits (last segs "") = true -> within_limit (last segs "") = true ->
  String.eqb (netloc p) "gamejolt.com" = false
  /\ endswith (netloc p) ".gamejolt.com" = false
  /\ extract_game_id_from_url L url = Some (int_digits 0 (last segs "")).
Proof.
  intros Hp Hn Hne Hdot Hs Hpath Hlen Hhd Hd Hl. repeat split.
  - rewrite Hn. now apply sapp_neq_r.
  - rewrite Hn. change ".gamejolt.com" with ("." ++ "gamejolt.com").
    now rewrite endswith_cancel.
  - apply (numeric_segment_resolves L url p segs); try assumption.
    apply endswith_iff. now exists h.
Qed.

(** C10 at the host [evilgamejolt.com]. *)
Lemma suffix_host_is_resolved_witness :
  urlparse UrlRef.lib "https://evilgamejolt.com/games/my-game/12345"
  = Some (mkParseResult "https" "evilgamejolt.com" "/games/my-game/12345" "" "" "")
  /\ String.eqb "evilgamejolt.com" "gamejolt.com" = false
  /\ endswith "evilgamejolt.com" ".gamejolt.com" = false
  /\ extract_game_id_from_url UrlRef.lib "https://evilgamejolt.com/games/my-game/12345"
     = Some 12345%Z.
Proof.
  split; [reflexivity|].
  destruct sample_path_segments as [Hs Hp].
  apply (suffix_host_is_resolved UrlRef.lib
           "https://evilgamejolt.com/games/my-game/12345" "evil" _
           ["games"; "my-game"; "12345"] eq_refl eq_refl eq_refl eq_refl Hs Hp);
    [simpl; lia | reflexivity | reflexivity | reflexivity].
Defined.

End ResolverClaims.

(* ================================================================== *)
(** ** The safe title of a game directory *)

Section TitleFacts.
Import PyStr Py Shape Titles StrFacts.

Ltac each_char c :=
  destruct c as [[] [] [] [] [] [] [] []]; vm_compute; try reflexivity;
  try discriminate.

Lemma safe_piece_char (c : ascii) :
  safe_piece (String c "") = String (keep_char c) "".
Proof. each_char c. Qed.

Lemma join_empty_cons (w : string) (ws : list string) :
  join "" (w :: ws) = w ++ join "" ws.
Proof. destruct ws; simpl; [now rewrite sapp_nil_r | reflexivity]. Qed.

Lemma join_pieces (s : string) :
  join "" (map safe_piece (chars_of s)) = map_chars keep_char s.
Proof.
  induction s as [|c s IH]; [reflexivity|].
  cbn [chars_of map]. rewrite join_empty_cons, safe_piece_char, IH. reflexivity.
Qed.

Lemma str_items_chars (s : string) :
  str_items (map JStr (chars_of s)) = Ok (chars_of s).
Proof.
  induction s as [|c s IH]; [reflexivity|].
  cbn [chars_of map str_items str_item res_bind]. now rewrite IH.
Qed.

(** Lines 339-340 on a title that is a string, character by character. *)
Lemma safe_title_string (s : string) :
  safe_title (JStr s) = Ok (replace_char " " "_" (strip (map_chars keep_char s))).
Proof.
  unfold safe_title. cbn [iter res_bind].
  rewrite str_items_chars. cbn [res_bind]. now rewrite join_pieces.
Qed.

Lemma lstrip_by_nil_iff (p : ascii -> bool) (s : string) :
  lstrip_by p s = "" <-> all_chars p s = true.
Proof.
  induction s as [|c s IH]; simpl; [tauto|].
  destruct (p c); simpl; [exact IH|]. split; discriminate.
Qed.

Lemma srev_nil_iff (s : string) : srev s = "" <-> s = "".
Proof.
  split; [|now intros ->].
  intro H. apply (f_equal srev) in H. now rewrite srev_involutive in H.
Qed.

Lemma strip_by_nil_iff (p : ascii -> bool) (s : string) :
  strip_by p s = "" <-> all_chars p s = true.
Proof.
  unfold strip_by, rstrip_by.
  rewrite srev_nil_iff, lstrip_by_nil_iff, all_chars_srev.
  split.
  - intro H. apply lstrip_by_nil_iff.
    induction s as [|c s IH]; [reflexivity|].
    simpl in *. destruct (p c) eqn:Hc; [now apply IH|].
    simpl in H. now rewrite Hc in H.
  - intro H. apply lstrip_by_nil_iff in H. now rewrite H.
Qed.

Lemma all_chars_lstrip (q p : ascii -> bool) (s : string) :
  all_chars q s = true -> all_chars q (lstrip_by p s) = true.
Proof.
  induction s as [|c s IH]; simpl; [reflexivity|].
  intro H. destruct (p c); [|exact H].
  apply andb_true_iff in H. now apply IH.
Qed.

Lemma all_chars_strip (q p : ascii -> bool) (s : string) :
  all_chars q s = true -> all_chars q (strip_by p s) = true.
Proof.
  intro H. unfold strip_by, rstrip_by.
  rewrite all_chars_srev. apply all_chars_lstrip.
  rewrite all_chars_srev. now apply all_chars_lstrip.
Qed.

Lemma all_chars_map (q : ascii -> bool) (f : ascii -> ascii) (s : string) :
  all_chars q (map_chars f s) = all_chars (fun c => q (f c)) s.
Proof. induction s as [|c s IH]; simpl; [reflexivity | now rewrite IH]. Qed.

Lemma all_chars_true (q : ascii -> bool) (s : string) :
  (forall c, q c = true) -> all_chars q s = true.
Proof.
  intro H. induction s as [|c s IH]; simpl; [reflexivity|].
  now rewrite H, IH.
Qed.

Lemma all_chars_ext (p q : ascii -> bool) (s : string) :
  (forall c, p c = q c) -> all_chars p s = all_chars q s.
Proof.
  intro H. induction s as [|c s IH]; simpl; [reflexivity|].
  now rewrite H, IH.
Qed.

Lemma map_chars_nil_iff (f : ascii -> ascii) (s : string) :
  map_chars f s = "" <-> s = "".
Proof. destruct s; simpl; split; congruence. Qed.

Lemma kept_char_space (c : ascii) : isspace_char (keep_char c) = Ascii.eqb c " ".
Proof. each_char c. Qed.

Lemma kept_char_safe (c : ascii) :
  let k := keep_char c in
  let r := if Ascii.eqb k " " then "_"%char else k in
  isalnum_char r || char_in r "-_" = true.
Proof. each_char c. Qed.

Lemma ascii_keep (c : ascii) :
  (code c <? 128)%N = true ->
  isalnum_char c || char_in c " -_" = char_in c ascii_allowed.
Proof. each_char c. Qed.

(** C4, as the code has it.  For every title that is a string:
    - the safe title is the title where every character that is neither
      alphanumeric (in Unicode's sense: an accented letter is) nor a
      space, a hyphen or an underscore is an underscore, then trimmed,
      then with every space left turned into an underscore; among the
      characters below U+0080 the ones kept are [A-Za-z0-9 _-];
    - every character of the safe title is alphanumeric, a hyphen or an
      underscore: it holds no space and no slash;
    - the safe title is empty exactly when the title is made of spaces
      only (the empty title is). *)
Theorem safe_title_characters (s : string) :
  exists result,
    safe_title (JStr s) = Ok result
    /\ result = replace_char " " "_" (strip (map_chars keep_char s))
    /\ (forall c, (code c <? 128)%N = true ->
                  (keep_char c = c <-> char_in c ascii_allowed = true))
    /\ all_chars (fun c => isalnum_char c || char_in c "-_") result = true
    /\ (result = "" <-> all_chars (fun c => Ascii.eqb c " ") s = true).
Proof.
  eexists. split; [apply safe_title_string|]. split; [reflexivity|].
  split; [|split].
  - intros c Hc. rewrite <- (ascii_keep c Hc). unfold keep_char.
    destruct (isalnum_char c || char_in c " -_") eqn:Hk; [tauto|].
    split; [|discriminate]. intros <-. revert Hk. clear. now vm_compute.
  - unfold replace_char. rewrite all_chars_map. unfold strip.
    apply all_chars_strip. rewrite all_chars_map.
    apply all_chars_true. intro c. apply (kept_char_safe c).
  - unfold replace_char. rewrite map_chars_nil_iff. unfold strip.
    rewrite strip_by_nil_iff, all_chars_map.
    now rewrite (all_chars_ext _ (fun c => Ascii.eqb c " ") s kept_char_space).
Qed.

(** C4 as stated fails twice: the empty title has an empty safe title,
    which is no path segment, and an accented letter lies outside
    [A-Za-z0-9 _-] and is kept. *)
Lemma safe_title_empty_and_accent :
  safe_title (JStr "") = Ok ""
  /\ char_in e_acute ascii_allowed = false
  /\ safe_title (JStr (String e_acute "")) = Ok (String e_acute "").
Proof. repeat split. Qed.

End TitleFacts.

(* ================================================================== *)
(** ** Token extraction *)

Section TokenFacts.
Import PyStr Py.
Variable L : Lib.

(** C6.  For every URL, token extraction returns the first value of the
    [token] query parameter when the parameter is present and [None]
    otherwise; the second branch (the direct token URL) never changes what
    the first decided; and two URLs with the same query give the same
    token, whatever their authority and path. *)
Theorem extract_token_one_shape (url : string) :
  extract_token_from_url L url = token_of_query L url
  /\ extract_token_from_url L url = extract_token_first_branch L url
  /\ (forall url' p p',
         urlparse L url = Some p -> urlparse L url' = Some p' ->
         query p = query p' ->
         extract_token_from_url L url = extract_token_from_url L url').
Proof.
  assert (Hq : forall u, extract_token_from_url L u = token_of_query L u).
  { intro u.
    unfold extract_token_from_url, extract_token_try, token_of_query, first_token.
    destruct (urlparse L u) as [p|]; cbn [or_raise res_bind]; [|reflexivity].
    destruct (parse_qs L (query p)) as [d|]; cbn [or_raise res_bind]; [|reflexivity].
    unfold dict_has.
    destruct (dict_get "token" d) as [[|v vs]|]; cbn [res_bind]; try reflexivity.
    destruct (String.eqb (netloc p) "gamejolt.net" && negb (nonempty (path p)));
      reflexivity. }
  split; [apply Hq|]. split.
  - rewrite Hq.
    unfold extract_token_first_branch, token_of_query, first_token.
    destruct (urlparse L url) as [p|]; cbn [or_raise res_bind]; [|reflexivity].
    destruct (parse_qs L (query p)) as [d|]; cbn [or_raise res_bind]; [|reflexivity].
    unfold dict_has.
    destruct (dict_get "token" d) as [[|v vs]|]; reflexivity.
  - intros url' p p' Hp Hp' Hquery. rewrite !Hq. unfold token_of_query.
    now rewrite Hp, Hp', Hquery.
Qed.

End TokenFacts.

(* ================================================================== *)
(** ** Platform flags *)

Section PlatformFacts.
Import PyStr Py.

Lemma dict_get_permutation {A : Type} (k : string) (d d' : dict A) :
  NoDup (map fst d) -> Permutation d d' -> dict_get k d = dict_get k d'.
Proof.
  intros Hnd Hperm. induction Hperm as [|[k1 v1] l l' Hp IH
                                        |[k1 v1] [k2 v2] l|l l' l'' Hp1 IH1 Hp2 IH2].
  - reflexivity.
  - simpl in *. inversion Hnd; subst.
    destruct (String.eqb k k1); [reflexivity | now apply IH].
  - simpl in *. inversion Hnd as [|? ? Hnin _]; subst.
    destruct (String.eqb_spec k k1) as [->|]; [|reflexivity].
    destruct (String.eqb_spec k1 k2) as [->|]; [|reflexivity].
    exfalso. apply Hnin. now left.
  - rewrite IH1 by assumption. apply IH2.
    apply (Permutation_NoDup (l := map fst l)); [|assumption].
    now apply Permutation_map.
Qed.

Lemma platforms_of_fields (fields : dict json) :
  platforms_of (JObj fields) = Ok (true_platforms fields).
Proof.
  unfold platforms_of, true_platforms, platform_flags, get, get_or.
  cbn [res_bind filter map fst snd].
  destruct (truthy (dict_get_or "os_windows" JNull fields));
    destruct (truthy (dict_get_or "os_mac" JNull fields));
    destruct (truthy (dict_get_or "os_linux" JNull fields));
    destruct (truthy (dict_get_or "os_other" JNull fields)); reflexivity.
Qed.

Lemma dict_get_set_same {A : Type} (k : string) (v : A) (d : dict A) :
  dict_get k (dict_set k v d) = Some v.
Proof.
  induction d as [|[k' v'] d IH]; simpl.
  - now rewrite String.eqb_refl.
  - destruct (String.eqb k k') eqn:Hk; simpl.
    + now rewrite String.eqb_refl.
    + now rewrite Hk.
Qed.

Lemma dict_get_set_other {A : Type} (k k' : string) (v : A) (d : dict A) :
  String.eqb k k' = false -> dict_get k (dict_set k' v d) = dict_get k d.
Proof.
  intro Hk. induction d as [|[k1 v1] d IH]; simpl.
  - now rewrite Hk.
  - destruct (String.eqb k' k1) eqn:Hk1; simpl.
    + apply String.eqb_eq in Hk1. subst k1. now rewrite Hk.
    + destruct (String.eqb k k1); [reflexivity | exact IH].
Qed.

Lemma copy_field_other (v : json) (field key k : string) (r r' : dict json) :
  String.eqb k key = false ->
  copy_field v field key r = Ok r' -> dict_get k r' = dict_get k r.
Proof.
  unfold copy_field. intros Hk H.
  destruct (get v field) as [x|]; cbn [res_bind] in H; [|discriminate].
  injection H as <-. now apply dict_get_set_other.
Qed.

Lemma copy_if_truthy_other (v : json) (field key k : string) (r r' : dict json) :
  String.eqb k key = false ->
  copy_if_truthy v field key r = Ok r' -> dict_get k r' = dict_get k r.
Proof.
  unfold copy_if_truthy. intros Hk H.
  destruct (get v field) as [x|]; cbn [res_bind] in H; [|discriminate].
  destruct (truthy x); [now apply (copy_field_other v field key) | now injection H as <-].
Qed.

End PlatformFacts.

Lemma Ok_inj {A : Type} (a b : A) : Ok a = Ok b -> a = b.
Proof. congruence. Qed.

Ltac res_steps :=
  repeat match goal with
    | H : res_bind ?r _ = Ok _ |- _ =>
        let E := fresh "E" in
        destruct r eqn:E; cbn [res_bind] in H; [|discriminate H]
    | H : (if ?b then _ else _) = Ok _ |- _ =>
        let E := fresh "E" in destruct b eqn:E
    | H : Ok ?a = Ok ?b |- _ => apply Ok_inj in H; try subst a; try subst b
    end.

Ltac through_copies k :=
  repeat match goal with
    | E : copy_field _ _ ?key ?r = Ok ?r' |- context [dict_get k ?r'] =>
        rewrite (copy_field_other _ _ key k r r' eq_refl E)
    | E : copy_if_truthy _ _ ?key ?r = Ok ?r' |- context [dict_get k ?r'] =>
        rewrite (copy_if_truthy_other _ _ key k r r' eq_refl E)
    | |- context [dict_get k (dict_set ?key _ _)] =>
        rewrite (dict_get_set_other k key) by reflexivity
    end.


Section PlatformClaims.
Import PyStr Py.

(** The [platforms] entry of the file details is the list of lines
    248-252, computed from the fields of the build. *)
Lemma file_details_platforms (d fields result : dict json) :
  dict_get "build" d = Some (JObj fields) ->
  get_file_details (JObj d) = Ok result ->
  dict_get "platforms" result = Some (JArr (map JStr (true_platforms fields))).
Proof.
  intros Hb H. unfold get_file_details, has_nested in H.
  cbn [contains_key item res_bind or_raise] in H.
  unfold dict_has in H. rewrite Hb in H. cbn [res_bind or_raise contains_key] in H.
  rewrite platforms_of_fields in H. cbn [res_bind] in H.
  res_steps; through_copies "platforms"; apply dict_get_set_same.
Qed.

Lemma true_platforms_permutation (fields fields' : dict json) :
  NoDup (map fst fields) -> Permutation fields fields' ->
  true_platforms fields' = true_platforms fields.
Proof.
  intros Hnd Hperm. unfold true_platforms, dict_get_or. f_equal.
  apply filter_ext. intros [name flag]. cbn [snd].
  now rewrite (dict_get_permutation flag fields fields' Hnd Hperm).
Qed.

(** C8.  For every build record, whose fields [fields'] are the fields
    [fields] in another order:
    - the platform list is the same for both orders;
    - it holds a platform name exactly when the flag of that name is true,
      and nothing else: it is the list of the four names, in the order
      Windows, Mac, Linux, Other, without those whose flag is false;
    - it is what [get_file_details] stores under [platforms]. *)
Theorem platforms_order_independent (fields fields' : dict json) :
  NoDup (map fst fields) -> Permutation fields fields' ->
  platforms_of (JObj fields') = platforms_of (JObj fields)
  /\ platforms_of (JObj fields) = Ok (true_platforms fields)
  /\ (forall name flag,
         In (name, flag) platform_flags ->
         (In name (true_platforms fields)
          <-> truthy (dict_get_or flag JNull fields) = true))
  /\ (forall name, In name (true_platforms fields) ->
                   In name ["Windows"; "Mac"; "Linux"; "Other"])
  /\ (forall d result,
         dict_get "build" d = Some (JObj fields') ->
         get_file_details (JObj d) = Ok result ->
         dict_get "platforms" result
         = Some (JArr (map JStr (true_platforms fields)))).
Proof.
  intros Hnd Hperm. split; [|split; [|split; [|split]]].
  - rewrite !platforms_of_fields. f_equal.
    now apply true_platforms_permutation.
  - apply platforms_of_fields.
  - intros name flag Hin. unfold true_platforms.
    rewrite in_map_iff. split.
    + intros ([n f] & Hn & Hf). cbn [fst] in Hn. subst n.
      apply filter_In in Hf. destruct Hf as [Hpf Ht]. cbn [snd] in Ht.
      unfold platform_flags in Hin, Hpf. simpl in Hin, Hpf.
      repeat match goal with
             | H : _ \/ _ |- _ => destruct H
             | H : (_, _) = (_, _) |- _ => injection H as ? ?; subst
             | H : False |- _ => destruct H
             end; congruence.
    + intro Ht. exists (name, flag). split; [reflexivity|].
      apply filter_In. now split.
  - intros name Hin. unfold true_platforms in Hin.
    apply in_map_iff in Hin. destruct Hin as ([n f] & Hn & Hf).
    apply filter_In in Hf. destruct Hf as [Hpf _]. cbn [fst] in Hn. subst n.
    unfold platform_flags in Hpf. simpl in Hpf. simpl.
    repeat match goal with
           | H : _ \/ _ |- _ => destruct H
           | H : (_, _) = (_, _) |- _ => injection H as ? ?; subst
           | H : False |- _ => destruct H
           end; tauto.
  - intros d result Hb Hr.
    rewrite <- (true_platforms_permutation fields fields' Hnd Hperm).
    now apply (file_details_platforms d fields' result).
Qed.

(** C8 on a build for Windows and Linux, its fields in two orders. *)
Lemma platforms_order_independent_witness :
  platforms_of (JObj [("os_linux", JBool true); ("id", JInt 999);
                      ("os_windows", JBool true)])
  = Ok ["Windows"; "Linux"]
  /\ platforms_of (JObj [("os_windows", JBool true); ("os_linux", JBool true);
                         ("id", JInt 999)])
     = Ok ["Windows"; "Linux"].
Proof.
  assert (Hnd : NoDup (map fst [("os_windows", JBool true);
                                ("os_linux", JBool true); ("id", JInt 999)])).
  { repeat constructor; simpl; intuition discriminate. }
  assert (Hperm : Permutation
                    [("os_windows", JBool true); ("os_linux", JBool true);
                     ("id", JInt 999)]
                    [("os_linux", JBool true); ("id", JInt 999);
                     ("os_windows", JBool true)]).
  { eapply perm_trans; [apply perm_swap|]. apply perm_skip, perm_swap. }
  destruct (platforms_order_independent _ _ Hnd Hperm) as (Hsame & Hval & _).
  split; [rewrite Hsame|]; exact Hval.
Defined.

End PlatformClaims.

Section ClassName.
Import PyStr Py.

Lemma copy_field_same (v : json) (field key : string) (r r' : dict json) :
  copy_field v field key r = Ok r' ->
  exists x, get v field = Ok x /\ dict_get key r' = Some x.
Proof.
  unfold copy_field. intro H.
  destruct (get v field) as [x|]; cbn [res_bind] in H; [|discriminate].
  injection H as <-. exists x. split; [reflexivity | apply dict_get_set_same].
Qed.

(** The entry class name of the file details, when there is one, is a
    value that is true: line 271 stores no other. *)
Lemma file_details_class (download_info : json) (fd : dict json) (v : json) :
  get_file_details download_info = Ok fd ->
  dict_get "java_class_name" fd = Some v -> truthy v = true.
Proof.
  intros H Hv. unfold get_file_details, has_nested in H.
  res_steps; revert Hv; through_copies "java_class_name"; try discriminate.
  all: match goal with
       | E : copy_field _ _ "java_class_name" _ = Ok _ |- _ =>
           destruct (copy_field_same _ _ _ _ _ E) as (c & Hc & ->)
       end.
  all: intro Hv; injection Hv as <-.
  all: repeat match goal with
         | H : res_bind ?r _ = Ok _ |- _ =>
             let E := fresh "E" in
             destruct r eqn:E; cbn [res_bind] in H; [|discriminate H]
         | H : Ok ?a = Ok ?b |- _ => apply Ok_inj in H
         end.
  all: congruence.
Qed.

End ClassName.

(* ================================================================== *)
(** ** What the methods leave alone *)

Section Frames.
Import PyStr Py.
Local Open Scope list_scope.
Variable L : Lib.
Variable E : Env.

Lemma kept_ret {A : Type} (a : A) : calls_kept (ret a).
Proof. intro w. reflexivity. Qed.

Lemma kept_lift {A : Type} (r : Res A) : calls_kept (lift r).
Proof. intro w. reflexivity. Qed.

Lemma kept_emit (ev : Event) : calls_kept (emit ev).
Proof. intro w. reflexivity. Qed.

Lemma kept_bind {A B : Type} (m : IO A) (k : A -> IO B) :
  calls_kept m -> (forall a, calls_kept (k a)) -> calls_kept (bind m k).
Proof.
  intros Hm Hk w. unfold bind. specialize (Hm w).
  destruct (m w) as [[a|e] w1]; simpl in *; [|exact Hm].
  now rewrite (Hk a w1).
Qed.

Lemma kept_try {A : Type} (body : IO A) (handler : Exn -> IO A) :
  calls_kept body -> (forall e, calls_kept (handler e)) ->
  calls_kept (try_except body handler).
Proof.
  intros Hb Hh w. unfold try_except. specialize (Hb w).
  destruct (body w) as [[a|e] w1]; simpl in *; [exact Hb|].
  now rewrite (Hh e w1).
Qed.

Lemma kept_for_each {A S : Type} (body : S -> A -> IO S) (items : list A) :
  (forall st x, calls_kept (body st x)) ->
  forall st, calls_kept (for_each body items st).
Proof.
  intro Hb. induction items as [|x r IH]; intro st; simpl.
  - apply kept_ret.
  - apply kept_bind; [apply Hb | exact IH].
Qed.

Lemma kept_fs_step (ok : bool) (ev : Event) : calls_kept (fs_step ok ev).
Proof. intro w. reflexivity. Qed.

Ltac kept :=
  repeat first
    [ apply kept_ret | apply kept_lift | apply kept_emit | apply kept_fs_step
    | apply kept_bind | apply kept_try | apply kept_for_each
    | progress intros
    | match goal with
      | |- calls_kept (if ?b then _ else _) => destruct b
      | |- calls_kept (match ?x with _ => _ end) => destruct x
      end ].

Lemma kept_print (m : Msg) : calls_kept (print m).
Proof. apply kept_emit. Qed.

Lemma kept_request_json (r : Request) : calls_kept (request_json E r).
Proof. intro w. reflexivity. Qed.

Lemma kept_request_file (u : json) : calls_kept (request_file E u).
Proof. intro w. reflexivity. Qed.

Lemma kept_exists_path (p : string) : calls_kept (exists_path E p).
Proof. intro w. reflexivity. Qed.

Lemma kept_makedirs (d : DirTarget) : calls_kept (makedirs E d).
Proof. intro w. reflexivity. Qed.

Lemma kept_open_file (p : string) : calls_kept (open_file E p).
Proof. intro w. reflexivity. Qed.

Lemma kept_write_file (p : string) (d : Data) : calls_kept (write_file E p d).
Proof. intro w. reflexivity. Qed.

Lemma kept_print_json (self : Archiver) (data : json) (about : Request) :
  calls_kept (print_json_response self data about).
Proof. unfold print_json_response. destruct (verbose self); kept. Qed.

Lemma kept_extract_token (url : json) : calls_kept (extract_token L url).
Proof. unfold extract_token. kept. Qed.

Lemma kept_get_game_info (self : Archiver) (game_id : Z) :
  calls_kept (get_game_info E self game_id).
Proof.
  unfold get_game_info. kept;
    first [apply kept_request_json | apply kept_print_json | apply kept_print].
Qed.

Lemma kept_get_build_download_url (self : Archiver) (build_id : json) (game_id : Z) :
  calls_kept (get_build_download_url L E self build_id game_id).
Proof.
  unfold get_build_download_url. kept;
    first [apply kept_request_json | apply kept_print_json | apply kept_print
          | apply kept_extract_token].
Qed.

Lemma kept_create_game_directory (self : Archiver) (game_title : json) :
  calls_kept (create_game_directory E self game_title).
Proof. unfold create_game_directory. kept. apply kept_makedirs. Qed.

Lemma kept_new_archiver (dir : string) (v : bool) : calls_kept (new_archiver E dir v).
Proof. unfold new_archiver. kept. apply kept_makedirs. Qed.

Lemma kept_describe_build (build : json) : calls_kept (describe_build L build).
Proof. unfold describe_build. kept; apply kept_print. Qed.

Lemma kept_describe_game (game_info : json) : calls_kept (describe_game L game_info).
Proof. unfold describe_game. kept; apply kept_print. Qed.

Lemma kept_print_java_classes (infos : list (dict json)) :
  calls_kept (print_java_classes infos).
Proof. unfold print_java_classes. kept; apply kept_print. Qed.

(** Handlers that return make a [try] that returns. *)
Lemma never_try {A : Type} (body : IO A) (handler : Exn -> IO A) :
  (forall e, never_raises (handler e)) -> never_raises (try_except body handler).
Proof.
  intros Hh w. unfold try_except.
  destruct (body w) as [[a|e] w1]; [now exists a | apply Hh].
Qed.

Lemma never_print_then_ret {A : Type} (m : Msg) (a : A) :
  never_raises (bind (print m) (fun _ => ret a)).
Proof. intro w. now exists a. Qed.

Lemma never_bind {A B : Type} (m : IO A) (k : A -> IO B) :
  never_raises m -> (forall a, never_raises (k a)) -> never_raises (bind m k).
Proof.
  intros Hm Hk w. unfold bind. destruct (Hm w) as [a Ha].
  destruct (m w) as [[a'|e] w1]; simpl in Ha; [|discriminate]. apply Hk.
Qed.

Lemma never_enter (c : Call) : never_raises (enter c).
Proof. intro w. now exists tt. Qed.

(** The two guarded methods, [get_game_info] and [get_build_download_url]
    catch every exception. *)
Lemma download_file_returns (self : Archiver) (url : json) (filename : string)
  (game_title : json) (output_path : option string) :
  never_raises (download_file E self url filename game_title output_path).
Proof.
  unfold download_file. apply never_bind; [apply never_enter|].
  intros _. apply never_try. intro e. apply never_print_then_ret.
Qed.

Lemma create_cheerpj_html_returns (self : Archiver) (fd : dict json) (dir : string) :
  never_raises (create_cheerpj_html E self fd dir).
Proof.
  unfold create_cheerpj_html. apply never_bind; [apply never_enter|].
  intros _. apply never_try. intro e. apply never_print_then_ret.
Qed.

Lemma get_game_info_returns (self : Archiver) (game_id : Z) :
  never_raises (get_game_info E self game_id).
Proof. unfold get_game_info. apply never_try. intro e. apply never_print_then_ret. Qed.

Lemma get_build_download_url_returns (self : Archiver) (build_id : json) (game_id : Z) :
  never_raises (get_build_download_url L E self build_id game_id).
Proof.
  unfold get_build_download_url. apply never_try. intro e.
  apply never_print_then_ret.
Qed.

(** The calls the two guarded methods record: their own. *)
Lemma download_file_calls (self : Archiver) (url : json) (filename : string)
  (game_title : json) (output_path : option string) (w : World) :
  calls (snd (download_file E self url filename game_title output_path w))
  = calls w ++ [CallDownload url filename game_title output_path].
Proof.
  unfold download_file, bind at 1, enter.
  match goal with
  | |- calls (snd (try_except ?b ?h ?w1)) = _ =>
      assert (Hk : calls_kept (try_except b h))
  end.
  { unfold destination.
    kept; first [apply kept_makedirs | apply kept_create_game_directory
                | apply kept_exists_path | apply kept_print
                | apply kept_request_file | apply kept_open_file | idtac].
    all: unfold write_chunk, show_progress, raise; kept;
      first [apply kept_write_file | apply kept_print]. }
  now rewrite Hk.
Qed.

Lemma create_cheerpj_html_calls (self : Archiver) (fd : dict json) (dir : string)
  (w : World) :
  calls (snd (create_cheerpj_html E self fd dir w)) = calls w ++ [CallCheerpj fd dir].
Proof.
  unfold create_cheerpj_html, bind at 1, enter.
  match goal with
  | |- calls (snd (try_except ?b ?h ?w1)) = _ =>
      assert (Hk : calls_kept (try_except b h))
  end.
  { kept; first [apply kept_open_file | apply kept_write_file | apply kept_print]. }
  now rewrite Hk.
Qed.

End Frames.

(* ================================================================== *)
(** ** The applet runner emitter *)

Section EmitterFacts.
Import PyStr Py.
Local Open Scope list_scope.
Variable E : Env.

(** Without one of the two names the emitter fails at once: it opens and
    writes nothing and prints nothing. *)
Lemma emission_refused (self : Archiver) (fd : dict json) (dir : string) (w : World) :
  dict_has "java_class_name" fd && dict_has "filename" fd = false ->
  create_cheerpj_html E self fd dir w
  = (Ok (Failure MsgMissingApplet),
     mkWorld (trace w) (calls w ++ [CallCheerpj fd dir])).
Proof.
  intro Hk. unfold create_cheerpj_html, bind, enter, try_except, ret.
  apply andb_false_iff in Hk.
  destruct Hk as [-> | ->]; cbn; rewrite ?orb_true_r; reflexivity.
Qed.

(** With both names, what the emitter does is decided by the file system. *)
Lemma emission_attempted (self : Archiver) (fd : dict json) (dir : string) (w : World) :
  dict_has "java_class_name" fd && dict_has "filename" fd = true ->
  let p := OsPath.join dir "cheerpj.html" in
  let page := Page (applet_page fd) in
  let called := calls w ++ [CallCheerpj fd dir] in
  create_cheerpj_html E self fd dir w
  = if open_ok E (trace w) p
    then
      if write_ok E (trace w ++ [EvOpen p true]) p page
      then (Ok (Success p),
            mkWorld (trace w ++ [EvOpen p true; EvWrite p page true;
                                 EvPrint (MsgCreatedHtml p)]) called)
      else (Ok (Failure (MsgErrHtml OSError)),
            mkWorld (trace w ++ [EvOpen p true; EvWrite p page false;
                                 EvPrint (MsgErrHtml OSError)]) called)
    else (Ok (Failure (MsgErrHtml OSError)),
          mkWorld (trace w ++ [EvOpen p false; EvPrint (MsgErrHtml OSError)])
                  called).
Proof.
  intros Hk p page called. apply andb_true_iff in Hk. destruct Hk as [Hc Hf].
  unfold create_cheerpj_html, bind, enter, try_except, ret.
  rewrite Hc, Hf. cbn [negb orb].
  unfold open_file, write_file, print, emit, fs_step. cbn [trace calls].
  fold p. fold (applet_page fd). fold page.
  destruct (open_ok E (trace w) p); cbn [trace calls].
  - destruct (write_ok E (trace w ++ [EvOpen p true]) p page); cbn [trace calls];
      rewrite <- !app_assoc; reflexivity.
  - rewrite <- !app_assoc. reflexivity.
Qed.

End EmitterFacts.

Section EmitterClaims.
Import PyStr Py.
Local Open Scope list_scope.

(** C3, as the code has it.  For every file-details input:
    - when the entry class name or the filename is absent, emission fails
      and touches no file (the trace of events is unchanged);
    - otherwise, when the file system lets the page be opened and
      written, emission succeeds, and what it does is to open and write
      one file, [cheerpj.html] in the output directory;
    - otherwise it fails with the error of the file system, and writes no
      page;
    - the page declares the width and the height of the file details, and
      640 and 480 when they are unset. *)
Theorem emission_contract (E : Env) (self : Archiver) (fd : dict json)
  (dir : string) (w : World) :
  let p := OsPath.join dir "cheerpj.html" in
  let page := Page (applet_page fd) in
  let called := calls w ++ [CallCheerpj fd dir] in
  (dict_has "java_class_name" fd && dict_has "filename" fd = false ->
   create_cheerpj_html E self fd dir w
   = (Ok (Failure MsgMissingApplet), mkWorld (trace w) called))
  /\
  (dict_has "java_class_name" fd && dict_has "filename" fd = true ->
   open_ok E (trace w) p = true ->
   write_ok E (trace w ++ [EvOpen p true]) p page = true ->
   create_cheerpj_html E self fd dir w
   = (Ok (Success p),
      mkWorld (trace w ++ [EvOpen p true; EvWrite p page true;
                           EvPrint (MsgCreatedHtml p)]) called))
  /\
  (dict_has "java_class_name" fd && dict_has "filename" fd = true ->
   open_ok E (trace w) p = false ->
   create_cheerpj_html E self fd dir w
   = (Ok (Failure (MsgErrHtml OSError)),
      mkWorld (trace w ++ [EvOpen p false; EvPrint (MsgErrHtml OSError)]) called))
  /\
  (dict_has "java_class_name" fd && dict_has "filename" fd = true ->
   open_ok E (trace w) p = true ->
   write_ok E (trace w ++ [EvOpen p true]) p page = false ->
   create_cheerpj_html E self fd dir w
   = (Ok (Failure (MsgErrHtml OSError)),
      mkWorld (trace w ++ [EvOpen p true; EvWrite p page false;
                           EvPrint (MsgErrHtml OSError)]) called))
  /\
  (applet_width (applet_page fd) = dict_get_or "width" (JInt 640) fd
   /\ applet_height (applet_page fd) = dict_get_or "height" (JInt 480) fd
   /\ (dict_get "width" fd = None -> applet_width (applet_page fd) = JInt 640)
   /\ (dict_get "height" fd = None -> applet_height (applet_page fd) = JInt 480)).
Proof.
  intros p page called. split; [apply emission_refused|].
  split; [|split; [|split]].
  - intros Hk Ho Hw. rewrite (emission_attempted E self fd dir w Hk).
    fold p. rewrite Ho. fold page. now rewrite Hw.
  - intros Hk Ho. rewrite (emission_attempted E self fd dir w Hk).
    fold p. now rewrite Ho.
  - intros Hk Ho Hw. rewrite (emission_attempted E self fd dir w Hk).
    fold p. rewrite Ho. fold page. now rewrite Hw.
  - repeat split; unfold applet_page, dict_get_or; cbn; now intros ->.
Qed.

(** C3 on the details of an applet, in a file system that refuses
    nothing: one page, 640 by 480. *)
Lemma emission_contract_witness :
  create_cheerpj_html (Sample.env Sample.no_server Sample.no_files)
    Sample.archiver Sample.applet_details "out" Sample.start
  = (Ok (Success "out/cheerpj.html"),
     mkWorld [EvOpen "out/cheerpj.html" true;
              EvWrite "out/cheerpj.html"
                (Page (mkAppletPage (JStr "Game") (JStr "game.jar") (JStr "Main")
                                    (JInt 480) (JInt 640))) true;
              EvPrint (MsgCreatedHtml "out/cheerpj.html")]
             [CallCheerpj Sample.applet_details "out"]).
Proof.
  exact (proj1 (proj2 (emission_contract
                         (Sample.env Sample.no_server Sample.no_files)
                         Sample.archiver Sample.applet_details "out" Sample.start))
               eq_refl eq_refl eq_refl).
Defined.

(** C3 as stated fails: with both names present, emission fails when the
    file system does not let the page be opened. *)
Lemma emission_fails_on_read_only :
  dict_has "java_class_name" Sample.applet_details = true
  /\ dict_has "filename" Sample.applet_details = true
  /\ create_cheerpj_html (Sample.read_only Sample.no_server Sample.no_files)
       Sample.archiver Sample.applet_details "out" Sample.start
     = (Ok (Failure (MsgErrHtml OSError)),
        mkWorld [EvOpen "out/cheerpj.html" false; EvPrint (MsgErrHtml OSError)]
                [CallCheerpj Sample.applet_details "out"]).
Proof. repeat split. Qed.

(** C2 as stated fails: the emitter tests that the two names are present,
    not that they are not empty.  With both names empty it writes the
    page. *)
Lemma emission_accepts_empty_names :
  dict_get "filename" Sample.empty_names = Some (JStr "")
  /\ dict_get "java_class_name" Sample.empty_names = Some (JStr "")
  /\ create_cheerpj_html (Sample.env Sample.no_server Sample.no_files)
       Sample.archiver Sample.empty_names "out" Sample.start
     = (Ok (Success "out/cheerpj.html"),
        mkWorld [EvOpen "out/cheerpj.html" true;
                 EvWrite "out/cheerpj.html"
                   (Page (mkAppletPage (JStr "Game") (JStr "") (JStr "")
                                       (JInt 480) (JInt 640))) true;
                 EvPrint (MsgCreatedHtml "out/cheerpj.html")]
                [CallCheerpj Sample.empty_names "out"]).
Proof. repeat split. Qed.

End EmitterClaims.

(* ================================================================== *)
(** ** The orchestrator: which calls it makes *)

Ltac kept_step :=
  first
    [ apply kept_ret | apply kept_lift | apply kept_emit | apply kept_fs_step
    | apply kept_print | apply kept_makedirs | apply kept_open_file
    | apply kept_write_file | apply kept_exists_path | apply kept_request_json
    | apply kept_request_file | apply kept_print_json | apply kept_extract_token
    | apply kept_get_game_info | apply kept_get_build_download_url
    | apply kept_create_game_directory | apply kept_new_archiver
    | apply kept_describe_build | apply kept_describe_game
    | apply kept_print_java_classes
    | apply kept_bind | apply kept_try | apply kept_for_each
    | progress intros
    | match goal with
      | |- calls_kept (if ?b then _ else _) => destruct b
      | |- calls_kept (match ?x with _ => _ end) => destruct x
      end ].

Section Guard.
Import PyStr Py StrFacts.
Local Open Scope list_scope.
Variable L : Lib.
Variable E : Env.
Variable P : Call -> Prop.

Lemma only_of_kept {A : Type} (m : IO A) : calls_kept m -> calls_only P m.
Proof. intros Hk w Hw. now rewrite Hk. Qed.

Lemma only_bind {A B : Type} (m : IO A) (k : A -> IO B) :
  calls_only P m -> (forall a, calls_only P (k a)) -> calls_only P (bind m k).
Proof.
  intros Hm Hk w Hw. unfold bind. specialize (Hm w Hw).
  destruct (m w) as [[a|e] w1]; simpl in *; [|exact Hm].
  now apply Hk.
Qed.

(** After a pure step the rest runs on the value the step gave. *)
Lemma only_bind_lift {A B : Type} (r : Res A) (k : A -> IO B) :
  (forall a, r = Ok a -> calls_only P (k a)) -> calls_only P (bind (lift r) k).
Proof.
  intros Hk w Hw. unfold bind, lift.
  destruct r as [a|e]; simpl; [|exact Hw]. now apply (Hk a).
Qed.

Lemma only_for_each {A S : Type} (body : S -> A -> IO S) (items : list A) :
  (forall st x, calls_only P (body st x)) ->
  forall st, calls_only P (for_each body items st).
Proof.
  intro Hb. induction items as [|x r IH]; intro st; simpl.
  - apply only_of_kept, kept_ret.
  - apply only_bind; [apply Hb | exact IH].
Qed.

End Guard.

Section GuardedCalls.
Import PyStr Py StrFacts.
Local Open Scope list_scope.
Variable L : Lib.
Variable E : Env.

Lemma only_download (self : Archiver) (url : json) (filename : string)
  (game_title : json) (output_path : option string) :
  calls_only guarded_call (download_file E self url filename game_title output_path).
Proof.
  intros w Hw. rewrite download_file_calls. apply Forall_app. split; [exact Hw|].
  constructor; [exact I | constructor].
Qed.

Lemma only_cheerpj (self : Archiver) (fd : dict json) (dir : string) :
  names_applet fd -> calls_only guarded_call (create_cheerpj_html E self fd dir).
Proof.
  intros Hfd w Hw. rewrite create_cheerpj_html_calls. apply Forall_app.
  split; [exact Hw|]. constructor; [exact Hfd | constructor].
Qed.

Lemma jar_nonempty (name : string) :
  endswith (lower name) ".jar" = true -> nonempty name = true.
Proof. destruct name; [discriminate | reflexivity]. Qed.

(** What line 534 tells about the file details when its test holds. *)
Lemma jar_name_filename (download : bool) (fd : dict json) (name : string) :
  jar_name download (dict_get_or "filename" (JStr "") fd) = Ok (Some name) ->
  download = true
  /\ dict_get "filename" fd = Some (JStr name)
  /\ endswith (lower name) ".jar" = true.
Proof.
  unfold jar_name, dict_get_or. destruct download; [|discriminate].
  destruct (dict_get "filename" fd) as [[| | | |s| |]|]; try discriminate.
  destruct (endswith (lower s) ".jar") eqn:Hj; [|discriminate].
  intro H. injection H as <-. now repeat split.
Qed.

Lemma kept_output_dir_of (archiver : Archiver) (game_title : json)
  (output_path : option string) :
  calls_kept (output_dir_of E archiver game_title output_path).
Proof. unfold output_dir_of. repeat kept_step. Qed.

Lemma process_file_details_guarded (archiver : Archiver) (game_title : json)
  (output_path : option string) (v pjc d c : bool) (st : LoopState)
  (fd : dict json) :
  (forall x, dict_get "java_class_name" fd = Some x -> truthy x = true) ->
  calls_only guarded_call
    (process_file_details E archiver game_title output_path v pjc d c st fd).
Proof.
  intro Hclass. unfold process_file_details. destruct st as [jf jci].
  apply only_bind_lift. intros [name|] Hjar;
    [|apply only_of_kept, kept_ret].
  apply jar_name_filename in Hjar. destruct Hjar as (-> & Hname & Hjar).
  apply only_bind; [apply only_of_kept; repeat kept_step|]. intros _.
  apply only_bind; [|intros; apply only_of_kept, kept_ret].
  apply only_bind; [apply only_of_kept, kept_output_dir_of|]. intros _.
  apply only_bind; [apply only_download|].
  intros [jar_path|m]; [|apply only_of_kept, kept_ret].
  destruct (c && dict_has "java_class_name" fd) eqn:Hc;
    [|apply only_of_kept, kept_ret].
  apply only_bind; [|intros; apply only_of_kept, kept_ret].
  apply only_cheerpj. apply andb_true_iff in Hc. destruct Hc as [_ Hc].
  unfold dict_has in Hc. split.
  - exists name.
    rewrite (dict_get_set_other "filename" "title") by reflexivity.
    repeat split; [exact Hname | exact Hjar | now apply jar_nonempty].
  - destruct (dict_get "java_class_name" fd) as [x|] eqn:Hx; [|discriminate].
    exists x. rewrite (dict_get_set_other "java_class_name" "title") by reflexivity.
    split; [exact Hx | now apply Hclass].
Qed.

Lemma process_build_guarded (archiver : Archiver) (game_id : Z) (game_title : json)
  (output_path : option string) (v pjc d c : bool) (st : LoopState) (build : json) :
  calls_only guarded_call
    (process_build L E archiver game_id game_title output_path v pjc d c st build).
Proof.
  unfold process_build.
  apply only_bind; [apply only_of_kept; repeat kept_step|]. intros _.
  apply only_bind; [apply only_of_kept; repeat kept_step|]. intros build_id.
  apply only_bind; [apply only_of_kept; repeat kept_step|]. intros download_info.
  destruct (truthy download_info); [|apply only_of_kept, kept_ret].
  apply only_bind_lift. intros fd Hfd.
  apply process_file_details_guarded.
  intros x Hx. exact (file_details_class download_info fd x Hfd Hx).
Qed.

Lemma process_builds_guarded (archiver : Archiver) (game_id : Z) (game_title : json)
  (output_path : option string) (v pjc d c : bool) (builds : list json) :
  calls_only guarded_call
    (process_builds L E archiver game_id game_title output_path v pjc d c builds).
Proof.
  unfold process_builds.
  apply only_bind; [apply only_for_each; intros; apply process_build_guarded|].
  intros [jf jci]. apply only_of_kept. repeat kept_step.
Qed.

Lemma process_game_guarded (game_id : Z) (output_path : option string)
  (v pjc d c : bool) :
  calls_only guarded_call (process_game L E game_id output_path v pjc d c).
Proof.
  unfold process_game.
  apply only_bind; [apply only_of_kept; repeat kept_step|]. intros archiver.
  apply only_bind; [apply only_of_kept; repeat kept_step|]. intros game_info.
  destruct (negb (truthy game_info)); [apply only_of_kept; repeat kept_step|].
  apply only_bind; [apply only_of_kept; repeat kept_step|]. intros game_title.
  apply only_bind; [apply only_of_kept; repeat kept_step|]. intros _.
  apply only_bind; [apply only_of_kept; repeat kept_step|]. intros url.
  apply only_bind; [apply only_of_kept; repeat kept_step|]. intros _.
  apply only_bind; [apply only_of_kept; repeat kept_step|]. intros _.
  apply only_bind; [apply only_of_kept; repeat kept_step|]. intros builds.
  destruct (truthy builds); [|apply only_of_kept; repeat kept_step].
  apply only_bind; [apply only_of_kept; repeat kept_step|]. intros items.
  apply process_builds_guarded.
Qed.

End GuardedCalls.

(* ================================================================== *)
(** ** The orchestrator: transfers and the final notice *)

Section Transfers.
Import PyStr Py StrFacts.
Local Open Scope list_scope.
Variable L : Lib.
Variable E : Env.

Lemma bind_ok {A B : Type} (m : IO A) (k : A -> IO B) (w w' : World) (b : B) :
  bind m k w = (Ok b, w') ->
  exists a w1, m w = (Ok a, w1) /\ k a w1 = (Ok b, w').
Proof.
  unfold bind. destruct (m w) as [[a|e] w1]; [|discriminate].
  intro H. now exists a, w1.
Qed.

Lemma downloads_of_app (a b : list Call) :
  downloads_of (a ++ b) = downloads_of a ++ downloads_of b.
Proof. unfold downloads_of. apply flat_map_app. Qed.

(** A file whose name does not end with [.jar] is left alone. *)
Lemma other_file_skipped (archiver : Archiver) (title : json)
  (output_path : option string) (v pjc c : bool) (jf : list (json * string))
  (jci : list (dict json)) (fd : dict json) (name : string) (w : World) :
  dict_get_or "filename" (JStr "") fd = JStr name ->
  endswith (lower name) ".jar" = false ->
  exists jci',
    process_file_details E archiver title output_path v pjc true c (jf, jci) fd w
    = (Ok (jf, jci'), w).
Proof.
  intros Hname Hjar. unfold process_file_details. rewrite Hname.
  unfold jar_name. rewrite Hjar. unfold bind, lift, ret. eexists. reflexivity.
Qed.

Lemma jar_file_transferred (archiver : Archiver) (title : json)
  (output_path : option string) (v pjc c : bool) (st st' : LoopState)
  (fd : dict json) (name : string) (w w' : World) :
  dict_get_or "filename" (JStr "") fd = JStr name ->
  endswith (lower name) ".jar" = true ->
  process_file_details E archiver title output_path v pjc true c st fd w
  = (Ok st', w') ->
  let url := dict_get_or "download_url" JNull fd in
  fst st' = fst st ++ [(url, name)]
  /\ exists rest,
      calls w' = calls w ++ CallDownload url name title output_path :: rest
      /\ downloads_of rest = [].
Proof.
  intros Hname Hjar H url. unfold process_file_details in H.
  destruct st as [jf jci]. rewrite Hname in H. unfold jar_name in H.
  rewrite Hjar in H.
  apply bind_ok in H. destruct H as (jar & w0 & H0 & H).
  unfold lift in H0. injection H0 as <- <-.
  apply bind_ok in H. destruct H as ([] & w1 & H1 & H).
  apply bind_ok in H. destruct H as ([] & w2 & H2 & H).
  unfold ret in H. injection H as <- <-. split; [reflexivity|].
  assert (Hc1 : calls w1 = calls w).
  { assert (K : calls_kept (if v then print (MsgJarDetected name) else ret tt))
      by repeat kept_step.
    specialize (K w). now rewrite H1 in K. }
  apply bind_ok in H2. destruct H2 as (dir & w3 & H3 & H2).
  assert (Hc3 : calls w3 = calls w1).
  { pose proof (kept_output_dir_of E archiver title output_path w1) as K.
    now rewrite H3 in K. }
  apply bind_ok in H2. destruct H2 as (out & w4 & H4 & H2).
  pose proof (download_file_calls E archiver url name title output_path w3) as Hc4.
  fold url in H4. rewrite H4 in Hc4. cbn [snd] in Hc4.
  rewrite Hc3, Hc1 in Hc4.
  destruct out as [jar_path|m].
  - destruct (c && dict_has "java_class_name" fd).
    + apply bind_ok in H2. destruct H2 as (o & w5 & H5 & H2).
      unfold ret in H2. injection H2 as <-.
      pose proof (create_cheerpj_html_calls E archiver
                    (dict_set "title" title fd) (OsPath.dirname jar_path) w4) as Hc5.
      rewrite H5 in Hc5. cbn [snd] in Hc5. rewrite Hc5, Hc4.
      eexists. rewrite <- app_assoc. split; reflexivity.
    + unfold ret in H2. injection H2 as <-. rewrite Hc4.
      exists []. split; reflexivity.
  - unfold ret in H2. injection H2 as <-. rewrite Hc4.
    exists []. split; reflexivity.
Qed.

(** When the test of line 534 holds and the output directory is there,
    the loop reaches [download_file] and comes back from it. *)
Lemma jar_file_reaches_download (archiver : Archiver) (title : json)
  (output_path : option string) (v pjc c : bool) (st : LoopState)
  (fd : dict json) (name : string) (w : World) :
  dict_get_or "filename" (JStr "") fd = JStr name ->
  endswith (lower name) ".jar" = true ->
  (exists dir,
      fst (output_dir_of E archiver title output_path
             (snd ((if v then print (MsgJarDetected name) else ret tt) w)))
      = Ok dir) ->
  exists st',
    fst (process_file_details E archiver title output_path v pjc true c st fd w)
    = Ok st'.
Proof.
  intros Hname Hjar [dir Hdir]. unfold process_file_details.
  destruct st as [jf jci]. rewrite Hname. unfold jar_name. rewrite Hjar.
  unfold bind at 1, lift.
  unfold bind at 1.
  assert (Hp : exists w1, (if v then print (MsgJarDetected name) else ret tt) w
                          = (Ok tt, w1)).
  { destruct v; eexists; reflexivity. }
  destruct Hp as [w1 Hp]. rewrite Hp in *. cbn [snd] in Hdir.
  unfold bind at 1. unfold bind at 1.
  destruct (output_dir_of E archiver title output_path w1) as [[d|e] w3];
    [|discriminate].
  unfold bind at 1.
  destruct (download_file_returns E archiver
              (dict_get_or "download_url" JNull fd) name title output_path w3)
    as [out Hout].
  destruct (download_file E archiver (dict_get_or "download_url" JNull fd) name
              title output_path w3) as [[out'|e] w4]; [|discriminate].
  destruct out' as [jar_path|m]; [|eexists; reflexivity].
  destruct (c && dict_has "java_class_name" fd); [|eexists; reflexivity].
  unfold bind at 1.
  destruct (create_cheerpj_html_returns E archiver (dict_set "title" title fd)
              (OsPath.dirname jar_path) w4) as [o Ho].
  destruct (create_cheerpj_html E archiver (dict_set "title" title fd)
              (OsPath.dirname jar_path) w4) as [[o'|e] w5]; [|discriminate].
  eexists. reflexivity.
Qed.

(** In a run that returns, the downloads called are the entries added to
    [jar_files]. *)
Lemma file_details_downloads (archiver : Archiver) (title : json)
  (output_path : option string) (v pjc d c : bool) (st st' : LoopState)
  (fd : dict json) (w w' : World) :
  process_file_details E archiver title output_path v pjc d c st fd w
  = (Ok st', w') ->
  exists delta,
    fst st' = fst st ++ delta
    /\ downloads_of (calls w') = downloads_of (calls w) ++ delta.
Proof.
  intro H.
  destruct (jar_name d (dict_get_or "filename" (JStr "") fd)) as [[name|]|e] eqn:Hj.
  - apply jar_name_filename in Hj. destruct Hj as (-> & Hname & Hjar).
    assert (Hn : dict_get_or "filename" (JStr "") fd = JStr name)
      by (unfold dict_get_or; now rewrite Hname).
    destruct (jar_file_transferred archiver title output_path v pjc c st st' fd
                name w w' Hn Hjar H) as (Hst & rest & Hcalls & Hrest).
    eexists. split; [exact Hst|].
    rewrite Hcalls, downloads_of_app. cbn [downloads_of flat_map].
    fold (downloads_of rest). now rewrite Hrest.
  - unfold process_file_details in H. destruct st as [jf jci].
    rewrite Hj in H. unfold bind, lift, ret in H. injection H as <- <-.
    exists []. now rewrite !app_nil_r.
  - unfold process_file_details in H. destruct st as [jf jci].
    rewrite Hj in H. unfold bind, lift in H. discriminate.
Qed.

Lemma build_downloads (archiver : Archiver) (game_id : Z) (title : json)
  (output_path : option string) (v pjc d c : bool) (st st' : LoopState)
  (build : json) (w w' : World) :
  process_build L E archiver game_id title output_path v pjc d c st build w
  = (Ok st', w') ->
  exists delta,
    fst st' = fst st ++ delta
    /\ downloads_of (calls w') = downloads_of (calls w) ++ delta.
Proof.
  intro H. unfold process_build in H.
  apply bind_ok in H. destruct H as ([] & w1 & H1 & H).
  apply bind_ok in H. destruct H as (build_id & w2 & H2 & H).
  apply bind_ok in H. destruct H as (info & w3 & H3 & H).
  assert (Hc : calls w3 = calls w).
  { assert (K1 : calls_kept (if v then describe_build L build else ret tt))
      by repeat kept_step.
    specialize (K1 w). rewrite H1 in K1.
    unfold lift in H2. injection H2 as _ <-.
    pose proof (kept_get_build_download_url L E archiver build_id game_id w1) as K3.
    rewrite H3 in K3. cbn [snd] in *. congruence. }
  destruct (truthy info).
  - apply bind_ok in H. destruct H as (fd & w4 & H4 & H).
    unfold lift in H4. injection H4 as _ <-.
    rewrite <- Hc. now apply (file_details_downloads _ _ _ _ _ _ _ _ _ _ _ _ H).
  - unfold ret in H. injection H as <- <-. exists [].
    now rewrite Hc, !app_nil_r.
Qed.

Lemma loop_downloads (archiver : Archiver) (game_id : Z) (title : json)
  (output_path : option string) (v pjc d c : bool) (builds : list json) :
  forall (st st' : LoopState) (w w' : World),
    for_each (process_build L E archiver game_id title output_path v pjc d c)
             builds st w = (Ok st', w') ->
    exists delta,
      fst st' = fst st ++ delta
      /\ downloads_of (calls w') = downloads_of (calls w) ++ delta.
Proof.
  induction builds as [|b r IH]; intros st st' w w' H; simpl in H.
  - unfold ret in H. injection H as <- <-. exists []. now rewrite !app_nil_r.
  - apply bind_ok in H. destruct H as (st1 & w1 & H1 & H).
    destruct (build_downloads _ _ _ _ _ _ _ _ _ _ _ _ _ H1) as (d1 & Hs1 & Hc1).
    destruct (IH _ _ _ _ H) as (d2 & Hs2 & Hc2).
    exists (d1 ++ d2). rewrite Hs2, Hs1, Hc2, Hc1, !app_assoc. now split.
Qed.

(** When the iteration returns and has called no download, its last act
    is to print the notice. *)
Lemma no_download_notice (archiver : Archiver) (game_id : Z) (title : json)
  (output_path : option string) (v pjc c : bool) (builds : list json)
  (w w' : World) :
  process_builds L E archiver game_id title output_path v pjc true c builds w
  = (Ok tt, w') ->
  downloads_of (calls w') = downloads_of (calls w) ->
  exists t, trace w' = t ++ [EvPrint MsgNoJar].
Proof.
  intros H Hnone. unfold process_builds in H.
  apply bind_ok in H. destruct H as ([jf jci] & w1 & H1 & H).
  destruct (loop_downloads _ _ _ _ _ _ _ _ _ _ _ _ _ H1) as (delta & Hjf & Hc).
  cbn [fst] in Hjf. subst jf.
  apply bind_ok in H. destruct H as ([] & w2 & H2 & H).
  assert (Hc2 : calls w2 = calls w1).
  { assert (K : calls_kept
                  (match jci with
                   | _ :: _ => if pjc then print_java_classes jci else ret tt
                   | [] => ret tt
                   end)) by repeat kept_step.
    specialize (K w1). now rewrite H2 in K. }
  destruct delta as [|x delta].
  - unfold print, emit in H. injection H as <-. now exists (trace w2).
  - exfalso. unfold ret in H. injection H as <-.
    rewrite Hc2, Hc in Hnone.
    apply (f_equal (@List.length _)) in Hnone.
    rewrite length_app in Hnone. simpl in Hnone. lia.
Qed.

(** The true part of failure isolation: a build whose resolution gives
    nothing is passed over, with the lists as they were. *)
Lemma unresolved_build_skipped (archiver : Archiver) (game_id : Z) (title : json)
  (output_path : option string) (pjc d c : bool) (st : LoopState)
  (build build_id info : json) (w w1 : World) :
  item build "id" = Ok build_id ->
  get_build_download_url L E archiver build_id game_id w = (Ok info, w1) ->
  truthy info = false ->
  process_build L E archiver game_id title output_path false pjc d c st build w
  = (Ok st, w1).
Proof.
  intros Hid Hres Hfalse. unfold process_build, bind, ret, lift.
  rewrite Hid, Hres, Hfalse. reflexivity.
Qed.

End Transfers.

Section JarNames.
Import PyStr Py StrFacts.

Lemma map_chars_app (f : ascii -> ascii) (a b : string) :
  map_chars f (a ++ b) = map_chars f a ++ map_chars f b.
Proof. induction a as [|c a IH]; simpl; [reflexivity | now rewrite IH]. Qed.

Lemma map_chars_srev (f : ascii -> ascii) (s : string) :
  map_chars f (srev s) = srev (map_chars f s).
Proof.
  induction s as [|c s IH]; [reflexivity|].
  simpl map_chars. rewrite !srev_cons, map_chars_app, IH. reflexivity.
Qed.

Lemma lower_char_cases (c : ascii) :
  (lower_char c = "."%char -> c = "."%char)
  /\ (lower_char c = "j"%char -> c = "j"%char \/ c = "J"%char)
  /\ (lower_char c = "a"%char -> c = "a"%char \/ c = "A"%char)
  /\ (lower_char c = "r"%char -> c = "r"%char \/ c = "R"%char).
Proof.
  destruct c as [[] [] [] [] [] [] [] []]; vm_compute;
    repeat split; intro H; try discriminate H; auto.
Qed.

(** [name.lower().endswith('.jar')]: the name ends with a dot and the
    letters j, a, r, each in either case. *)
Lemma jar_suffix_cases (name : string) :
  endswith (lower name) ".jar" = true
  <-> exists stem c1 c2 c3,
      name = stem ++ String "." (String c1 (String c2 (String c3 "")))
      /\ (c1 = "j"%char \/ c1 = "J"%char)
      /\ (c2 = "a"%char \/ c2 = "A"%char)
      /\ (c3 = "r"%char \/ c3 = "R"%char).
Proof.
  split.
  - unfold endswith, lower. rewrite <- map_chars_srev.
    assert (Hn : name = srev (srev name)) by now rewrite srev_involutive.
    revert Hn. generalize (srev name) as r. intros r Hn.
    change (srev ".jar") with "raj.".
    destruct r as [|c3 [|c2 [|c1 [|c0 rest]]]]; cbn [map_chars startswith];
      intro H; repeat (apply andb_true_iff in H; destruct H as [?H H]);
      try discriminate.
    repeat match goal with
           | H : Ascii.eqb _ _ = true |- _ => apply Ascii.eqb_eq in H
           end.
    exists (srev rest), c1, c2, c3.
    destruct (lower_char_cases c0) as (Hd & _).
    destruct (lower_char_cases c1) as (_ & Hj & _).
    destruct (lower_char_cases c2) as (_ & _ & Ha & _).
    destruct (lower_char_cases c3) as (_ & _ & _ & Hr).
    rewrite Hn, !srev_cons, !sapp_assoc. cbn [append].
    rewrite (Hd ltac:(assumption)). repeat split; auto.
  - intros (stem & c1 & c2 & c3 & -> & H1 & H2 & H3).
    apply endswith_iff. exists (lower stem). unfold lower.
    rewrite map_chars_app. f_equal.
    destruct H1 as [-> | ->], H2 as [-> | ->], H3 as [-> | ->]; reflexivity.
Qed.

End JarNames.

Section OrchestratorClaims.
Import PyStr Py StrFacts.
Local Open Scope list_scope.

(** C2, as the code has it.
    - The emitter tests that the entry class name and the filename are
      present: for every input where one of them is absent it returns the
      failure result, and opens, writes and prints nothing.  It does not
      test that they are not empty.
    - The orchestrator is what keeps empty names away from the emitter:
      in every run of [process_game], each call of the emitter carries
      file details whose filename is a string that ends with [.jar] in
      any case (so it is not empty) and whose entry class name is a value
      that is true (for a string: not empty). *)
Theorem emitter_precondition (L : Lib) (E : Env) (self : Archiver)
  (fd : dict json) (dir : string) (game_id : Z) (output_path : option string)
  (v pjc d c : bool) (w : World) :
  (dict_has "java_class_name" fd && dict_has "filename" fd = false ->
   create_cheerpj_html E self fd dir w
   = (Ok (Failure MsgMissingApplet),
      mkWorld (trace w) (calls w ++ [CallCheerpj fd dir])))
  /\
  (Forall guarded_call (calls w) ->
   Forall guarded_call
     (calls (snd (process_game L E game_id output_path v pjc d c w)))).
Proof.
  split; [apply emission_refused | apply process_game_guarded].
Qed.

(** C2 on a game whose one build is an applet: the emitter is called
    once, after the download, on details that name the applet. *)
Lemma emitter_precondition_witness :
  map (fun call => match call with
                   | CallDownload _ name _ _ => name
                   | CallCheerpj fd _ => "cheerpj.html for an applet"%string
                   end)
      (calls (snd (process_game UrlRef.lib
                     (Sample.env Sample.server_applet Sample.files)
                     12345 None false false true true Sample.start)))
  = ["game.jar"; "cheerpj.html for an applet"]%string
  /\ Forall guarded_call
       (calls (snd (process_game UrlRef.lib
                      (Sample.env Sample.server_applet Sample.files)
                      12345 None false false true true Sample.start))).
Proof.
  split; [reflexivity|].
  apply (emitter_precondition UrlRef.lib
           (Sample.env Sample.server_applet Sample.files)
           Sample.archiver [] "" 12345 None false false true true Sample.start).
  constructor.
Defined.

(** C9.  During the iteration over the builds, with downloads enabled:
    - a resolved file whose name does not end with [.jar] is left alone:
      nothing is called, nothing happens;
    - for a resolved file whose name ends with [.jar], a run that returns
      has called [download_file] on its URL and name, once; and the run
      does return when the output directory of line 543 is there;
    - a name ends with [.jar] in the sense of the script exactly when it
      ends with a dot and the letters j, a, r, each in either case;
    - when the iteration returns and no download was called (no such file
      was found in any build), the last thing printed is the notice that
      no JAR file was found. *)
Theorem jar_transfer_and_notice (L : Lib) (E : Env) (archiver : Archiver)
  (game_id : Z) (title : json) (output_path : option string) (v pjc c : bool) :
  (forall (st : LoopState) (fd : dict json) (name : string) (w : World),
      dict_get_or "filename" (JStr "") fd = JStr name ->
      let run :=
        process_file_details E archiver title output_path v pjc true c st fd w in
      let url := dict_get_or "download_url" JNull fd in
      (endswith (lower name) ".jar" = false -> exists st', run = (Ok st', w))
      /\
      (endswith (lower name) ".jar" = true ->
       (forall st', fst run = Ok st' ->
                    exists rest,
                      calls (snd run)
                      = calls w ++ CallDownload url name title output_path :: rest
                      /\ downloads_of rest = [])
       /\
       ((exists dir,
            fst (output_dir_of E archiver title output_path
                   (snd ((if v then print (MsgJarDetected name) else ret tt) w)))
            = Ok dir) ->
        exists st', fst run = Ok st')))
  /\
  (forall name,
      endswith (lower name) ".jar" = true
      <-> exists stem c1 c2 c3,
        name = (stem ++ String "." (String c1 (String c2 (String c3 ""))))%string
        /\ (c1 = "j"%char \/ c1 = "J"%char)
        /\ (c2 = "a"%char \/ c2 = "A"%char)
        /\ (c3 = "r"%char \/ c3 = "R"%char))
  /\
  (forall builds w w',
      process_builds L E archiver game_id title output_path v pjc true c builds w
      = (Ok tt, w') ->
      downloads_of (calls w') = downloads_of (calls w) ->
      exists t, trace w' = t ++ [EvPrint MsgNoJar]).
Proof.
  split; [|split; [apply jar_suffix_cases | apply no_download_notice]].
  intros st fd name w Hname run url. split.
  - intro Hjar. destruct st as [jf jci].
    destruct (other_file_skipped E archiver title output_path v pjc c jf jci fd
                name w Hname Hjar) as [jci' H].
    now exists (jf, jci').
  - intro Hjar. split.
    + intros st' Hrun.
      assert (H : run = (Ok st', snd run)).
      { destruct run as [r w']. simpl in *. now subst r. }
      exact (proj2 (jar_file_transferred E archiver title output_path v pjc c
                      st st' fd name w (snd run) Hname Hjar H)).
    + now apply jar_file_reaches_download.
Qed.

(** C9 on two games of one build: the build that is [notes.txt] is not
    transferred and the notice ends the run; the build that is [game.jar]
    is transferred. *)
Lemma jar_transfer_and_notice_witness :
  (exists t,
      trace (snd (process_builds UrlRef.lib
                    (Sample.env Sample.server_no_jar Sample.files)
                    Sample.archiver 12345 (JStr "My Game") None
                    false false true false [Sample.build 999] Sample.start))
      = t ++ [EvPrint MsgNoJar])
  /\ downloads_of
       (calls (snd (process_builds UrlRef.lib
                      (Sample.env Sample.server_one_build Sample.files)
                      Sample.archiver 12345 (JStr "My Game") None
                      false false true false [Sample.build 999] Sample.start)))
     = [(JStr "https://cdn.example/game.jar", "game.jar"%string)].
Proof.
  split; [|reflexivity].
  apply (proj2 (proj2 (jar_transfer_and_notice UrlRef.lib
                         (Sample.env Sample.server_no_jar Sample.files)
                         Sample.archiver 12345 (JStr "My Game") None
                         false false false))
               [Sample.build 999] Sample.start); reflexivity.
Defined.

(** C7 at a failing input.  The game has two builds; the descriptor of the
    first has a [primary_file] that is [null].  Build resolution returns
    this descriptor (not [None]); [get_file_details] then raises on it,
    nothing catches the exception, and [process_game] ends there: no
    request is ever made for the second build, which alone would have
    been downloaded. *)
Lemma malformed_descriptor_aborts :
  fst (get_build_download_url UrlRef.lib
         (Sample.env Sample.server_two_builds Sample.files)
         Sample.archiver (JInt 998) 12345 Sample.start)
  = Ok (Sample.descriptor_without_file 998)
  /\ get_file_details (Sample.descriptor_without_file 998) = Raise AttributeError
  /\ process_game UrlRef.lib (Sample.env Sample.server_two_builds Sample.files)
       12345 None false false true false Sample.start
     = (Raise AttributeError,
        mkWorld [EvMakedirs (Dir "downloads") true;
                 EvRequest (GetOverview 12345);
                 EvPrint (MsgGame (JStr "My Game") 12345);
                 EvPrint (MsgUrl (JStr "https://gamejolt.com/games/my-game/12345"));
                 EvRequest (PostBuildUrl (JInt 998));
                 EvRequest (GetGameserver "t998")]
                [])
  /\ downloads_of
       (calls (snd (process_game UrlRef.lib
                      (Sample.env Sample.server_one_build Sample.files)
                      12345 None false false true false Sample.start)))
     = [(JStr "https://cdn.example/game.jar", "game.jar"%string)].
Proof. repeat split. Qed.

End OrchestratorClaims.

(* ================================================================== *)
(** ** File transfer *)

Section Quiet.
Import PyStr Py StrFacts.
Local Open Scope list_scope.
Variable E : Env.

Lemma file_requests_app (a b : Trace) :
  file_requests (a ++ b) = file_requests a ++ file_requests b.
Proof. unfold file_requests. apply flat_map_app. Qed.

Lemma quiet_ret {A : Type} (a : A) : fetches_nothing (ret a).
Proof. intro w. exists []. now rewrite app_nil_r. Qed.

Lemma quiet_lift {A : Type} (r : Res A) : fetches_nothing (lift r).
Proof. intro w. exists []. now rewrite app_nil_r. Qed.

Lemma quiet_print (m : Msg) : fetches_nothing (print m).
Proof. intro w. now exists [EvPrint m]. Qed.

Lemma quiet_fs_step (ok : bool) (ev : Event) :
  file_requests [ev] = [] -> fetches_nothing (fs_step ok ev).
Proof. intros H w. now exists [ev]. Qed.

Lemma quiet_makedirs (d : DirTarget) : fetches_nothing (makedirs E d).
Proof. intro w. unfold makedirs. now apply quiet_fs_step. Qed.

Lemma quiet_open_file (p : string) : fetches_nothing (open_file E p).
Proof. intro w. unfold open_file. now apply quiet_fs_step. Qed.

Lemma quiet_write_file (p : string) (d : Data) : fetches_nothing (write_file E p d).
Proof. intro w. unfold write_file. now apply quiet_fs_step. Qed.

Lemma quiet_exists_path (p : string) : fetches_nothing (exists_path E p).
Proof. intro w. exists []. now rewrite app_nil_r. Qed.

Lemma quiet_bind {A B : Type} (m : IO A) (k : A -> IO B) :
  fetches_nothing m -> (forall a, fetches_nothing (k a)) ->
  fetches_nothing (bind m k).
Proof.
  intros Hm Hk w. unfold bind. destruct (Hm w) as (t1 & Ht1 & Hq1).
  destruct (m w) as [[a|e] w1]; simpl in *; [|now exists t1].
  destruct (Hk a w1) as (t2 & Ht2 & Hq2). exists (t1 ++ t2).
  rewrite Ht2, Ht1, app_assoc, file_requests_app, Hq1, Hq2. now split.
Qed.

Lemma quiet_try {A : Type} (body : IO A) (handler : Exn -> IO A) :
  fetches_nothing body -> (forall e, fetches_nothing (handler e)) ->
  fetches_nothing (try_except body handler).
Proof.
  intros Hb Hh w. unfold try_except. destruct (Hb w) as (t1 & Ht1 & Hq1).
  destruct (body w) as [[a|e] w1]; simpl in *; [now exists t1|].
  destruct (Hh e w1) as (t2 & Ht2 & Hq2). exists (t1 ++ t2).
  rewrite Ht2, Ht1, app_assoc, file_requests_app, Hq1, Hq2. now split.
Qed.

Lemma quiet_for_each {A S : Type} (body : S -> A -> IO S) (items : list A) :
  (forall st x, fetches_nothing (body st x)) ->
  forall st, fetches_nothing (for_each body items st).
Proof.
  intro Hb. induction items as [|x r IH]; intro st; simpl.
  - apply quiet_ret.
  - apply quiet_bind; [apply Hb | exact IH].
Qed.

Lemma quiet_enter (c : Call) : fetches_nothing (enter c).
Proof. intro w. exists []. simpl. now rewrite app_nil_r. Qed.

End Quiet.

Ltac quiet :=
  repeat first
    [ apply quiet_ret | apply quiet_lift | apply quiet_print | apply quiet_makedirs
    | apply quiet_open_file | apply quiet_write_file | apply quiet_exists_path
    | apply quiet_enter | apply quiet_bind | apply quiet_try | apply quiet_for_each
    | progress intros
    | match goal with
      | |- fetches_nothing (if ?b then _ else _) => destruct b
      | |- fetches_nothing (match ?x with _ => _ end) => destruct x
      end ].

Section Transfer.
Import PyStr Py StrFacts.
Local Open Scope list_scope.
Variable E : Env.

Lemma quiet_destination (self : Archiver) (filename : string) (title : json)
  (output_path : option string) :
  fetches_nothing (destination E self filename title output_path).
Proof. unfold destination, create_game_directory. quiet. Qed.

Lemma quiet_write_loop (p : string) (total : Z) (cs : list string) (n : Z) :
  fetches_nothing (for_each (write_chunk E p total) cs n).
Proof. apply quiet_for_each. intros. unfold write_chunk, show_progress. quiet. Qed.

(** The destination the directory step returns is the one the arguments
    decide. *)
Lemma destination_decided (self : Archiver) (filename : string) (title : json)
  (output_path : option string) (w w1 : World) (p : string) :
  destination E self filename title output_path w = (Ok p, w1) ->
  destination_path self filename title output_path = Some p.
Proof.
  unfold destination, destination_path, path_given, create_game_directory.
  destruct output_path as [op|]; [destruct (nonempty op)|].
  - unfold bind, ret. destruct (makedirs E (DirOfAbs op) w) as [[[]|e] w']; congruence.
  - unfold bind, lift, ret. destruct (safe_title title) as [s|e]; [|discriminate].
    destruct (makedirs E _ w) as [[[]|e] w']; congruence.
  - unfold bind, lift, ret. destruct (safe_title title) as [s|e]; [|discriminate].
    destruct (makedirs E _ w) as [[[]|e] w']; congruence.
Qed.
Lemma once_of_quiet {A : Type} (m : IO A) : fetches_nothing m -> fetches_once m.
Proof.
  intros Hm w. destruct (Hm w) as (t & Ht & Hq). exists t.
  rewrite Hq. split; [exact Ht | simpl; lia].
Qed.

Lemma once_request_file (url : json) : fetches_once (request_file E url).
Proof. intro w. exists [EvRequest (GetFile url)]. split; [reflexivity | simpl; lia]. Qed.

Lemma once_after_quiet {A B : Type} (m : IO A) (k : A -> IO B) :
  fetches_nothing m -> (forall a, fetches_once (k a)) -> fetches_once (bind m k).
Proof.
  intros Hm Hk w. unfold bind. destruct (Hm w) as (t1 & Ht1 & Hq1).
  destruct (m w) as [[a|e] w1]; simpl in *.
  - destruct (Hk a w1) as (t2 & Ht2 & Hq2). exists (t1 ++ t2).
    rewrite Ht2, Ht1, app_assoc, file_requests_app, Hq1. now split.
  - exists t1. rewrite Hq1. split; [exact Ht1 | simpl; lia].
Qed.

Lemma once_then_quiet {A B : Type} (m : IO A) (k : A -> IO B) :
  fetches_once m -> (forall a, fetches_nothing (k a)) -> fetches_once (bind m k).
Proof.
  intros Hm Hk w. unfold bind. destruct (Hm w) as (t1 & Ht1 & Hq1).
  destruct (m w) as [[a|e] w1]; simpl in *; [|now exists t1].
  destruct (Hk a w1) as (t2 & Ht2 & Hq2). exists (t1 ++ t2).
  rewrite Ht2, Ht1, app_assoc, file_requests_app, Hq2, app_nil_r. now split.
Qed.

Lemma once_try {A : Type} (body : IO A) (handler : Exn -> IO A) :
  fetches_once body -> (forall e, fetches_nothing (handler e)) ->
  fetches_once (try_except body handler).
Proof.
  intros Hb Hh w. unfold try_except. destruct (Hb w) as (t1 & Ht1 & Hq1).
  destruct (body w) as [[a|e] w1]; simpl in *; [now exists t1|].
  destruct (Hh e w1) as (t2 & Ht2 & Hq2). exists (t1 ++ t2).
  rewrite Ht2, Ht1, app_assoc, file_requests_app, Hq2, app_nil_r. now split.
Qed.

(** One call of [download_file] sends one request for the file at most. *)
Lemma download_file_once (self : Archiver) (url : json) (filename : string)
  (title : json) (output_path : option string) :
  fetches_once (download_file E self url filename title output_path).
Proof.
  unfold download_file.
  apply once_after_quiet; [apply quiet_enter|]. intros _.
  apply once_try; [|intros; quiet].
  apply once_after_quiet; [apply quiet_destination|]. intros dest.
  apply once_after_quiet; [apply quiet_exists_path|]. intros [|].
  - apply once_of_quiet. quiet.
  - apply once_then_quiet; [apply once_request_file|]. intros body.
    unfold raise. quiet. unfold write_chunk, show_progress. quiet.
Qed.

(** When the destination exists, the transfer declares success and sends
    no request. *)
Lemma download_found (self : Archiver) (url : json) (filename : string)
  (title : json) (output_path : option string) (w w1 : World) (dest : string) :
  destination E self filename title output_path
    (snd (enter (CallDownload url filename title output_path) w)) = (Ok dest, w1) ->
  path_exists E (trace w1) dest = true ->
  download_file E self url filename title output_path w
  = (Ok (Success dest),
     mkWorld (trace w1 ++ [EvPrint (MsgFileExists dest)]) (calls w1))
  /\ file_requests (trace w1 ++ [EvPrint (MsgFileExists dest)])
     = file_requests (trace w).
Proof.
  intros Hd Hex. split.
  - unfold download_file. unfold bind at 1. cbn [enter snd] in *.
    unfold try_except, bind at 1. rewrite Hd.
    unfold bind at 1, exists_path. rewrite Hex. reflexivity.
  - destruct (quiet_destination self filename title output_path
                (snd (enter (CallDownload url filename title output_path) w)))
      as (t & Ht & Hq).
    rewrite Hd in Ht. cbn [snd enter trace] in Ht.
    rewrite Ht, !file_requests_app, Hq. cbn. now rewrite !app_nil_r.
Qed.

(** When the destination does not exist, the transfer asks for the file,
    once, whatever comes of it. *)
Lemma download_absent (self : Archiver) (url : json) (filename : string)
  (title : json) (output_path : option string) (w w1 : World) (dest : string) :
  destination E self filename title output_path
    (snd (enter (CallDownload url filename title output_path) w)) = (Ok dest, w1) ->
  path_exists E (trace w1) dest = false ->
  file_requests
    (trace (snd (download_file E self url filename title output_path w)))
  = file_requests (trace w) ++ [url].
Proof.
  intros Hd Hex.
  destruct (quiet_destination self filename title output_path
              (snd (enter (CallDownload url filename title output_path) w)))
    as (t & Ht & Hq).
  rewrite Hd in Ht. cbn [snd enter trace] in Ht.
  assert (Hrest : forall (body : FileBody),
             fetches_nothing
               (print (MsgDownloading filename (total_size body)) ;;;
                open_file E dest ;;;
                _ <- for_each (write_chunk E dest (total_size body))
                              (chunks body) 0%Z ;;
                match broken body with
                | Some e => raise e
                | None => print (MsgDownloaded dest) ;;; ret (Success dest)
                end)%io).
  { intro body. unfold raise. quiet. unfold write_chunk, show_progress. quiet. }
  assert (Hhandler : forall e,
             fetches_nothing
               (print (MsgErrDownload e) ;;; ret (Failure (MsgErrDownload e)))%io)
    by (intro e; quiet).
  unfold download_file. unfold bind at 1. cbn [enter snd] in *.
  unfold try_except, bind at 1. rewrite Hd.
  unfold bind at 1, exists_path. rewrite Hex.
  unfold bind at 1, request_file.
  set (w2 := mkWorld (trace w1 ++ [EvRequest (GetFile url)]) (calls w1)).
  assert (Hw2 : file_requests (trace w2) = file_requests (trace w) ++ [url]).
  { subst w2. cbn [trace]. rewrite Ht, !file_requests_app, Hq. cbn.
    now rewrite app_nil_r. }
  destruct (fetch E (trace w1) url) as [body|e].
  - destruct (Hrest body w2) as (t2 & Ht2 & Hq2).
    match goal with
    | |- context [match ?m w2 with _ => _ end] =>
        change (m w2) with
          ((print (MsgDownloading filename (total_size body)) ;;;
            open_file E dest ;;;
            _ <- for_each (write_chunk E dest (total_size body))
                          (chunks body) 0%Z ;;
            match broken body with
            | Some e => raise e
            | None => print (MsgDownloaded dest) ;;; ret (Success dest)
            end)%io w2);
        destruct ((print (MsgDownloading filename (total_size body)) ;;;
            open_file E dest ;;;
            _ <- for_each (write_chunk E dest (total_size body))
                          (chunks body) 0%Z ;;
            match broken body with
            | Some e => raise e
            | None => print (MsgDownloaded dest) ;;; ret (Success dest)
            end)%io w2) as [[o|e] w3]
    end; cbn [snd] in Ht2 |- *.
    + now rewrite Ht2, file_requests_app, Hq2, app_nil_r.
    + destruct (Hhandler e w3) as (t3 & Ht3 & Hq3).
      now rewrite Ht3, Ht2, !file_requests_app, Hq2, Hq3, !app_nil_r.
  - destruct (Hhandler e w2) as (t3 & Ht3 & Hq3).
    now rewrite Ht3, file_requests_app, Hq3, app_nil_r.
Qed.

Lemma bind_ok_run {A B : Type} (m : IO A) (k : A -> IO B) (w w' : World) (b : B) :
  bind m k w = (Ok b, w') ->
  exists a w1, m w = (Ok a, w1) /\ k a w1 = (Ok b, w').
Proof.
  unfold bind. destruct (m w) as [[a|e] w1]; [|discriminate].
  intro H. now exists a, w1.
Qed.

(** After a transfer that succeeded, the destination is the one the
    arguments decide, and it exists from then on. *)
Lemma success_means_present (self : Archiver) (url : json) (filename : string)
  (title : json) (output_path : option string) (w w1 : World) (p : string) :
  keeps_files E ->
  download_file E self url filename title output_path w = (Ok (Success p), w1) ->
  destination_path self filename title output_path = Some p
  /\ forall t', path_exists E (trace w1 ++ t') p = true.
Proof.
  intros [Hkeep Hopen] H. unfold download_file in H.
  unfold bind at 1 in H. cbn [enter] in H. unfold try_except in H.
  match type of H with
  | (match ?b ?w0 with _ => _ end) = _ =>
      destruct (b w0) as [[o|e] w'] eqn:Hb; [|discriminate H]
  end.
  injection H as -> ->.
  apply bind_ok_run in Hb. destruct Hb as (dest & wd & Hd & Hb).
  apply destination_decided in Hd.
  apply bind_ok_run in Hb. destruct Hb as (found & wf & Hf & Hb).
  unfold exists_path in Hf. injection Hf as <- <-.
  destruct (path_exists E (trace wd) dest) eqn:Hex.
  - unfold bind, print, emit, ret in Hb. injection Hb as <- <-. cbn [trace].
    split; [exact Hd|]. intro t'. rewrite <- app_assoc. now apply Hkeep.
  - apply bind_ok_run in Hb. destruct Hb as (body & w2 & _ & Hb).
    apply bind_ok_run in Hb. destruct Hb as ([] & w3 & _ & Hb).
    apply bind_ok_run in Hb. destruct Hb as ([] & w4 & Ho & Hb).
    apply bind_ok_run in Hb. destruct Hb as (n & w5 & Hloop & Hb).
    unfold open_file, fs_step in Ho.
    destruct (open_ok E (trace w3) dest); [|discriminate Ho].
    injection Ho as <-.
    destruct (quiet_write_loop dest (total_size body) (chunks body) 0%Z
                (mkWorld (trace w3 ++ [EvOpen dest true]) (calls w3)))
      as (t & Ht & _).
    rewrite Hloop in Ht. cbn [snd trace] in Ht.
    destruct (broken body); [discriminate Hb|].
    unfold bind, print, emit, ret in Hb. injection Hb as <- <-. cbn [trace].
    split; [exact Hd|]. intro t'.
    rewrite Ht, <- !app_assoc. cbn [app]. apply Hopen.
Qed.

(** After a transfer that succeeded, the same transfer sends no request. *)
Lemma repeated_transfer_quiet (self : Archiver) (url : json) (filename : string)
  (title : json) (output_path : option string) (w w1 : World) (p : string) :
  keeps_files E ->
  download_file E self url filename title output_path w = (Ok (Success p), w1) ->
  file_requests
    (trace (snd (download_file E self url filename title output_path w1)))
  = file_requests (trace w1).
Proof.
  intros Hkeep H.
  destruct (success_means_present _ _ _ _ _ _ _ _ Hkeep H) as [Hpath Hex].
  unfold download_file. unfold bind at 1. cbn [enter].
  set (w0 := mkWorld (trace w1)
                     (calls w1 ++ [CallDownload url filename title output_path])).
  unfold try_except, bind at 1.
  destruct (quiet_destination self filename title output_path w0)
    as (t & Ht & Hq).
  destruct (destination E self filename title output_path w0) as [[p'|e] wd] eqn:Hd.
  - apply destination_decided in Hd. rewrite Hpath in Hd. injection Hd as <-.
    cbn [snd] in Ht. subst w0. cbn [trace] in Ht.
    unfold bind at 1, exists_path. rewrite Ht, Hex.
    unfold bind, print, emit, ret. cbn [snd trace].
    rewrite Ht, !file_requests_app, Hq. cbn. now rewrite !app_nil_r.
  - cbn [snd] in Ht. subst w0. cbn [trace] in Ht.
    unfold bind, print, emit, ret. cbn [snd trace].
    rewrite Ht, !file_requests_app, Hq. cbn. now rewrite !app_nil_r.
Qed.

Lemma sample_keeps_files (server : Request -> Res json) (files : json -> Res FileBody) :
  keeps_files (Sample.env server files).
Proof.
  split; intros t t' p; cbn [path_exists Sample.env]; unfold Sample.created.
  - intro H. rewrite existsb_app, H. reflexivity.
  - rewrite existsb_app. cbn [existsb]. rewrite String.eqb_refl.
    now rewrite orb_true_r.
Qed.

End Transfer.

Section TransferClaims.
Import PyStr Py.
Local Open Scope list_scope.

(** C5, as the code has it.  For a transfer [download_file] with given
    arguments:
    - when the directory of the destination is made and the destination
      exists, the transfer declares success, returns the destination and
      sends no request for the file;
    - when the directory of the destination is made and the destination
      does not exist, the transfer sends one request for the file, and
      one only, whatever earlier calls did;
    - one call sends one request for the file at most;
    - after a call that succeeded, on a file system that keeps its files,
      the same call again sends no request: the two calls together send
      one request at most. *)
Theorem transfer_idempotence (E : Env) (self : Archiver) (url : json)
  (filename : string) (title : json) (output_path : option string) (w : World) :
  let run := download_file E self url filename title output_path in
  (forall dest w1,
      destination E self filename title output_path
        (snd (enter (CallDownload url filename title output_path) w))
      = (Ok dest, w1) ->
      path_exists E (trace w1) dest = true ->
      run w = (Ok (Success dest),
               mkWorld (trace w1 ++ [EvPrint (MsgFileExists dest)]) (calls w1))
      /\ file_requests (trace (snd (run w))) = file_requests (trace w))
  /\
  (forall dest w1,
      destination E self filename title output_path
        (snd (enter (CallDownload url filename title output_path) w))
      = (Ok dest, w1) ->
      path_exists E (trace w1) dest = false ->
      file_requests (trace (snd (run w))) = file_requests (trace w) ++ [url])
  /\
  (exists t, trace (snd (run w)) = trace w ++ t
             /\ List.length (file_requests t) <= 1)
  /\
  (keeps_files E ->
   forall p w1,
     run w = (Ok (Success p), w1) ->
     file_requests (trace (snd (run w1))) = file_requests (trace w1)
     /\ exists t, trace (snd (run w1)) = trace w ++ t
                  /\ List.length (file_requests t) <= 1).
Proof.
  intro run. split; [|split; [|split]].
  - intros dest w1 Hd Hex.
    destruct (download_found E self url filename title output_path w w1 dest
                Hd Hex) as [Hrun Hreq].
    split; [exact Hrun|]. unfold run. now rewrite Hrun.
  - intros dest w1 Hd Hex.
    exact (download_absent E self url filename title output_path w w1 dest
             Hd Hex).
  - apply download_file_once.
  - intros Hkeep p w1 Hrun.
    pose proof (repeated_transfer_quiet E self url filename title output_path
                  w w1 p Hkeep Hrun) as Hquiet.
    split; [exact Hquiet|].
    destruct (download_file_once E self url filename title output_path w)
      as (t1 & Ht1 & Hq1).
    destruct (download_file_once E self url filename title output_path w1)
      as (t2 & Ht2 & Hq2).
    fold run in Ht1, Ht2, Hquiet. rewrite Hrun in Ht1. cbn [snd] in Ht1.
    exists (t1 ++ t2). split; [now rewrite Ht2, Ht1, app_assoc|].
    rewrite Ht2, file_requests_app in Hquiet.
    assert (Hnil : file_requests t2 = []).
    { apply (f_equal (@List.length _)) in Hquiet.
      rewrite length_app in Hquiet.
      destruct (file_requests t2); [reflexivity | simpl in Hquiet; lia]. }
    now rewrite file_requests_app, Hnil, app_nil_r.
Qed.

(** C5 on the transfer of [game.jar], twice: the first call downloads the
    file, the second finds it, and one request was sent in all. *)
Lemma transfer_idempotence_witness :
  keeps_files (Sample.env Sample.no_server Sample.files)
  /\ fst (download_file (Sample.env Sample.no_server Sample.files) Sample.archiver
            (JStr "https://cdn.example/game.jar") "game.jar" (JStr "My Game") None
            Sample.start)
     = Ok (Success "downloads/My_Game/game.jar")
  /\ file_requests
       (trace (snd (download_file (Sample.env Sample.no_server Sample.files)
                      Sample.archiver (JStr "https://cdn.example/game.jar")
                      "game.jar" (JStr "My Game") None
                      (snd (download_file
                              (Sample.env Sample.no_server Sample.files)
                              Sample.archiver (JStr "https://cdn.example/game.jar")
                              "game.jar" (JStr "My Game") None Sample.start)))))
     = [JStr "https://cdn.example/game.jar"].
Proof.
  split; [apply sample_keeps_files|]. split; [reflexivity|].
  set (run := download_file (Sample.env Sample.no_server Sample.files)
                Sample.archiver (JStr "https://cdn.example/game.jar")
                "game.jar" (JStr "My Game") None).
  assert (H : run Sample.start
              = (Ok (Success "downloads/My_Game/game.jar"), snd (run Sample.start)))
    by (vm_compute; reflexivity).
  transitivity (file_requests (trace (snd (run Sample.start)))); [|reflexivity].
  exact (proj1 (proj2 (proj2 (proj2 (transfer_idempotence
                                (Sample.env Sample.no_server Sample.files)
                                Sample.archiver
                                (JStr "https://cdn.example/game.jar")
                                "game.jar" (JStr "My Game") None Sample.start)))
                      (sample_keeps_files Sample.no_server Sample.files)
                      "downloads/My_Game/game.jar" (snd (run Sample.start)) H)).
Defined.

(** C5 as stated fails: here the first call fails (the server refuses the
    file) before the destination is opened, the second call with the same
    destination does not find it and sends the request again: two
    requests. *)
Lemma failed_transfer_is_repeated :
  fst (download_file (Sample.env Sample.no_server Sample.no_files) Sample.archiver
         (JStr "https://cdn.example/game.jar") "game.jar" (JStr "My Game") None
         Sample.start)
  = Ok (Failure (MsgErrDownload HTTPError))
  /\ file_requests
       (trace (snd (download_file (Sample.env Sample.no_server Sample.no_files)
                      Sample.archiver (JStr "https://cdn.example/game.jar")
                      "game.jar" (JStr "My Game") None
                      (snd (download_file
                              (Sample.env Sample.no_server Sample.no_files)
                              Sample.archiver (JStr "https://cdn.example/game.jar")
                              "game.jar" (JStr "My Game") None Sample.start)))))
     = [JStr "https://cdn.example/game.jar"; JStr "https://cdn.example/game.jar"].
Proof. split; reflexivity. Qed.

End TransferClaims.
(* ================================================================== *)
(** ** File details: which descriptors are read, and what is kept *)

Section DetailFacts.
Import PyStr Py Descriptor.

Lemma copy_field_obj (fields : dict json) (name key : string) (r : dict json) :
  copy_field (JObj fields) name key r = Ok (dict_set key (field name fields) r).
Proof. reflexivity. Qed.

Lemma copy_if_truthy_obj (fields : dict json) (name key : string) (r : dict json) :
  copy_if_truthy (JObj fields) name key r
  = Ok (if truthy (field name fields)
        then dict_set key (field name fields) r else r).
Proof.
  unfold copy_if_truthy, get, get_or. cbn [res_bind]. fold (field name fields).
  now destruct (truthy (field name fields)).
Qed.

Lemma copy_field_needs_obj (v : json) (name key : string) (r : dict json) :
  is_obj v = false -> copy_field v name key r = Raise AttributeError.
Proof. now destruct v. Qed.

Lemma contains_key_obj (key : string) (d : dict json) :
  contains_key key (JObj d) = Ok (dict_has key d).
Proof. reflexivity. Qed.

(** What a membership test followed by an index gives on a value that is
    no object: an exception, or the answer that the key is not there. *)
Lemma contains_then_item (key : string) (v : json) :
  is_obj v = false ->
  contains_key key v = Raise TypeError
  \/ contains_key key v = Ok false
  \/ (contains_key key v = Ok true /\ item v key = Raise TypeError).
Proof.
  destruct v; intro H; try discriminate H; cbn [contains_key item]; auto.
  - destruct (contains key s); auto.
  - destruct (existsb (is_str key) items); auto.
Qed.

End DetailFacts.

(** Both sides run the same steps: case analysis on each in turn. *)
Ltac same_steps :=
  cbn [res_bind]; try reflexivity;
  match goal with
  | |- res_bind (if ?b then _ else _) _ = _ => destruct b; same_steps
  | |- res_bind ?a _ = _ => destruct a; same_steps
  | |- (if ?b then _ else _) = _ => destruct b; same_steps
  end.

Section DetailSteps.
Import PyStr Py Descriptor.

(** [get_file_details] is its five steps in a row. *)
Lemma get_file_details_steps (v : json) :
  get_file_details v
  = (r <- step_url v [] ;; r <- step_file v r ;; r <- step_build v r ;;
     r <- step_game v r ;; step_java v r)%res.
Proof.
  unfold get_file_details, step_url, step_file, step_build, step_game, step_java.
  same_steps.
Qed.

Lemma is_obj_fields (v : json) : is_obj v = true -> exists fields, v = JObj fields.
Proof. destruct v; try discriminate. intros _. now eexists. Qed.

Lemma step_url_obj (d r : dict json) : step_url (JObj d) r = Ok (url_of d r).
Proof.
  unfold step_url, url_of. cbn [contains_key item res_bind]. unfold dict_has.
  now destruct (dict_get "url" d).
Qed.

Lemma step_game_obj (d r : dict json) :
  step_game (JObj d) r
  = match dict_get "game" d with
    | Some g => if is_obj g then Ok (game_of d r) else Raise AttributeError
    | None => Ok (game_of d r)
    end.
Proof.
  unfold step_game, game_of. cbn [contains_key item res_bind]. unfold dict_has.
  destruct (dict_get "game" d) as [g|]; [|reflexivity].
  now destruct g.
Qed.

Lemma step_build_obj (d r : dict json) :
  step_build (JObj d) r
  = match dict_get "build" d with
    | Some b => if is_obj b then Ok (build_of d r) else Raise AttributeError
    | None => Ok (build_of d r)
    end.
Proof.
  unfold step_build, build_of. cbn [contains_key item res_bind]. unfold dict_has.
  destruct (dict_get "build" d) as [b|]; [|reflexivity].
  destruct b as [| | | | | |bd]; try reflexivity.
  cbn [or_raise res_bind is_obj fields_of].
  repeat first [ rewrite copy_field_obj | rewrite platforms_of_fields
               | rewrite copy_if_truthy_obj | progress cbn [res_bind] ].
  reflexivity.
Qed.

Lemma step_file_obj (d r : dict json) :
  step_file (JObj d) r
  = match dict_get "build" d with
    | Some (JObj bd) =>
        match dict_get "primary_file" bd with
        | Some pf => if is_obj pf then Ok (file_of d r) else Raise AttributeError
        | None => Ok (file_of d r)
        end
    | Some b =>
        match contains_key "primary_file" b with
        | Ok true => Raise TypeError
        | Ok false => Ok r
        | Raise e => Raise e
        end
    | None => Ok (file_of d r)
    end.
Proof.
  unfold step_file, file_of, has_nested.
  cbn [contains_key item res_bind]. unfold dict_has.
  destruct (dict_get "build" d) as [b|]; [|reflexivity].
  destruct b as [| | | |s|l|bd]; try reflexivity.
  cbn [or_raise res_bind contains_key item fields_of]. unfold dict_has.
  destruct (dict_get "primary_file" bd) as [pf|]; [|reflexivity].
  now destruct pf.
Qed.

Lemma step_java_obj (d r : dict json) :
  absent_or is_obj (dict_get "build" d) = true ->
  step_java (JObj d) r = Ok (java_of d r).
Proof.
  unfold step_java, java_of, absent_or, copied_if_true, copied.
  cbn [get get_or res_bind contains_key]. unfold dict_has. fold (field "javaArchive" d).
  destruct (truthy (field "javaArchive" d)); [|reflexivity].
  cbn [copy_field get get_or res_bind item].
  destruct (dict_get "build" d) as [[| | | | | |bd]|]; try discriminate; intros _;
    cbn [or_raise res_bind fields_of get get_or]; [|reflexivity].
  fold (field "java_class_name" bd).
  now destruct (truthy (field "java_class_name" bd)).
Qed.

End DetailSteps.

(** The steps on an object whose fields [build], [primary_file] and
    [game] are known by equations. *)
Ltac details_steps :=
  repeat first
    [ rewrite step_url_obj | rewrite step_file_obj | rewrite step_build_obj
    | rewrite step_game_obj
    | match goal with
      | E : dict_get ?k ?d = _ |- context [dict_get ?k ?d] => rewrite E
      | E : Descriptor.is_obj ?v = _ |- context [Descriptor.is_obj ?v] => rewrite E
      | E : Py.contains_key ?k ?v = _ |- context [Py.contains_key ?k ?v] => rewrite E
      end
    | progress cbn [res_bind Descriptor.is_obj] ].

Section DetailDomain.
Import PyStr Py Descriptor.

(** On a well-formed descriptor the result is the one computed step by
    step. *)
Lemma file_details_computed (d : dict json) :
  well_formed (JObj d) = true -> get_file_details (JObj d) = Ok (details d).
Proof.
  unfold well_formed, absent_or. intro Hw.
  apply andb_true_iff in Hw. destruct Hw as [Hb Hg].
  rewrite get_file_details_steps. unfold details.
  destruct (dict_get "build" d) as [[| | | | | |bd]|] eqn:Eb; try discriminate Hb;
    [cbn [build_shaped absent_or] in Hb;
     destruct (dict_get "primary_file" bd) as [pf|] eqn:Ep|];
    (destruct (dict_get "game" d) as [g|] eqn:Eg);
    cbn [absent_or] in *; details_steps;
    apply step_java_obj; rewrite Eb; reflexivity.
Qed.

Lemma file_details_of_object (d : dict json) :
  if well_formed (JObj d)
  then exists file_details, get_file_details (JObj d) = Ok file_details
  else get_file_details (JObj d) = Raise TypeError
       \/ get_file_details (JObj d) = Raise AttributeError.
Proof.
  destruct (well_formed (JObj d)) eqn:Hw;
    [eexists; now apply file_details_computed|].
  revert Hw. unfold well_formed, absent_or. rewrite get_file_details_steps.
  destruct (dict_get "build" d) as [b|] eqn:Eb.
  - destruct (is_obj b) eqn:Hb.
    + apply is_obj_fields in Hb. destruct Hb as [bd ->]. cbn [build_shaped absent_or].
      destruct (dict_get "primary_file" bd) as [pf|] eqn:Ep;
        [destruct (is_obj pf) eqn:Hpf|];
        (destruct (dict_get "game" d) as [g|] eqn:Eg;
         [destruct (is_obj g) eqn:Hg|]);
        cbn [absent_or]; rewrite ?Hpf, ?Hg; cbn [andb]; try discriminate;
        intros _; details_steps; now right.
    + intros _.
      destruct (contains_then_item "primary_file" b Hb) as [K|[K|[K _]]];
        destruct b; try discriminate Hb; details_steps; auto.
  - cbn [andb].
    destruct (dict_get "game" d) as [g|] eqn:Eg; [|discriminate].
    intros Hg. details_steps. now right.
Qed.

(** X1.  [get_file_details] returns exactly on the descriptors that are
    well formed: objects whose [build], when present, is an object whose
    [primary_file], when present, is an object, and whose [game], when
    present, is an object.  On every other value (a descriptor that is a
    string, a list, a number or [None], or that has one of these three
    fields of another type) it raises [TypeError] or [AttributeError]. *)
Theorem file_details_defined (download_info : json) :
  if well_formed download_info
  then exists file_details, get_file_details download_info = Ok file_details
  else get_file_details download_info = Raise TypeError
       \/ get_file_details download_info = Raise AttributeError.
Proof.
  destruct download_info as [| | | |s|l|d];
    [now left | now left | now left | now left | | |apply file_details_of_object].
  - unfold get_file_details, has_nested. cbn [well_formed contains_key item res_bind].
    destruct (contains "url" s); cbn [res_bind]; [now left|].
    destruct (contains "build" s); cbn [res_bind]; [now left|].
    destruct (contains "game" s); cbn [res_bind]; [now left | now right].
  - unfold get_file_details, has_nested. cbn [well_formed contains_key item res_bind].
    destruct (existsb (is_str "url") l); cbn [res_bind]; [now left|].
    destruct (existsb (is_str "build") l); cbn [res_bind]; [now left|].
    destruct (existsb (is_str "game") l); cbn [res_bind]; [now left | now right].
Qed.

(** A result of [get_file_details] is the one computed step by step from
    a well-formed descriptor. *)
Lemma file_details_inv (download_info : json) (fd : dict json) :
  get_file_details download_info = Ok fd ->
  exists d, download_info = JObj d
            /\ well_formed download_info = true /\ fd = details d.
Proof.
  intro H.
  assert (Hw : well_formed download_info = true).
  { destruct (well_formed download_info) eqn:Hw; [reflexivity|].
    destruct download_info as [| | | |s|l|d]; try discriminate H.
    - exfalso. revert H. unfold get_file_details, has_nested.
      cbn [contains_key item res_bind].
      destruct (contains "url" s); cbn [res_bind]; [discriminate|].
      destruct (contains "build" s); cbn [res_bind]; [discriminate|].
      destruct (contains "game" s); cbn [res_bind]; discriminate.
    - exfalso. revert H. unfold get_file_details, has_nested.
      cbn [contains_key item res_bind].
      destruct (existsb (is_str "url") l); cbn [res_bind]; [discriminate|].
      destruct (existsb (is_str "build") l); cbn [res_bind]; [discriminate|].
      destruct (existsb (is_str "game") l); cbn [res_bind]; discriminate.
    - pose proof (file_details_of_object d) as K. rewrite Hw in K.
      destruct K as [K|K]; congruence. }
  destruct download_info as [| | | | | |d]; try discriminate Hw.
  exists d. repeat split; [exact Hw|].
  rewrite (file_details_computed d Hw) in H. congruence.
Qed.

End DetailDomain.

(** Case analysis on what [details] looks at. *)
Ltac details_shapes d :=
  unfold Descriptor.details, Descriptor.java_of, Descriptor.game_of,
    Descriptor.build_of, Descriptor.file_of, Descriptor.url_of,
    Descriptor.copied_if_true, Descriptor.copied;
  destruct (dict_get "url" d) as [?u|];
  destruct (Descriptor.fields_of (dict_get "game" d)) as [?g|];
  destruct (Descriptor.fields_of (dict_get "build" d)) as [?bd|];
  try match goal with
    | bd : dict json |- context [Descriptor.fields_of (dict_get "primary_file" ?bd)] =>
        destruct (Descriptor.fields_of (dict_get "primary_file" bd)) as [?pf|]
    end;
  repeat match goal with
    | |- context [if Py.truthy ?x then _ else _] =>
        let T := fresh "T" in destruct (Py.truthy x) eqn:T
    end.

Section DetailKeys.
Import PyStr Py Descriptor.

Lemma detail_keys_distinct : NoDup detail_keys.
Proof.
  unfold detail_keys.
  repeat (constructor; [cbn [In]; intuition discriminate|]). constructor.
Qed.

(** X2.  The keys of the file details are keys of the list
    [detail_keys], each once, in the order of the list. *)
Theorem file_details_keys (download_info : json) (file_details : dict json) :
  get_file_details download_info = Ok file_details ->
  map fst file_details
  = filter (fun key => dict_has key file_details) detail_keys
  /\ NoDup (map fst file_details)
  /\ incl (map fst file_details) detail_keys.
Proof.
  intro H. destruct (file_details_inv _ _ H) as (d & -> & _ & ->).
  assert (Hk : map fst (details d)
               = filter (fun key => dict_has key (details d)) detail_keys).
  { details_shapes d; vm_compute; reflexivity. }
  split; [exact Hk|]. rewrite Hk. split.
  - apply NoDup_filter, detail_keys_distinct.
  - apply incl_filter.
Qed.

(** X2 on the descriptor of an applet. *)
Lemma file_details_keys_witness :
  option_map (map fst)
    (match get_file_details (Sample.applet_descriptor 999 "game.jar") with
     | Ok fd => Some fd
     | Raise _ => None
     end)
  = Some ["download_url"; "filename"; "filesize"; "build_id"; "type";
          "added_on"; "updated_on"; "platforms"; "width"; "java_archive";
          "java_codebase"; "java_class_name"]
  /\ NoDup ["download_url"; "filename"; "filesize"; "build_id"; "type";
            "added_on"; "updated_on"; "platforms"; "width"; "java_archive";
            "java_codebase"; "java_class_name"].
Proof.
  split; [reflexivity|].
  exact (proj1 (proj2 (file_details_keys (Sample.applet_descriptor 999 "game.jar")
                         _ eq_refl))).
Defined.

End DetailKeys.

Section DetailLookups.
Import PyStr Py Descriptor.

Lemma get_copied_same (src : dict json) (name key : string) (r : dict json) :
  dict_get key (copied src name key r) = Some (field name src).
Proof. apply dict_get_set_same. Qed.

Lemma get_copied_other (src : dict json) (name key k : string) (r : dict json) :
  String.eqb k key = false -> dict_get k (copied src name key r) = dict_get k r.
Proof. apply dict_get_set_other. Qed.

Lemma get_copied_if_same (src : dict json) (name key : string) (r : dict json) :
  dict_get key (copied_if_true src name key r)
  = if truthy (field name src) then Some (field name src) else dict_get key r.
Proof.
  unfold copied_if_true. destruct (truthy (field name src)); [|reflexivity].
  apply get_copied_same.
Qed.

Lemma get_copied_if_other (src : dict json) (name key k : string) (r : dict json) :
  String.eqb k key = false ->
  dict_get k (copied_if_true src name key r) = dict_get k r.
Proof.
  intro H. unfold copied_if_true. destruct (truthy (field name src)); [|reflexivity].
  now apply get_copied_other.
Qed.

End DetailLookups.

(** A lookup through assignments. *)
Ltac details_lookup :=
  repeat first
    [ rewrite get_copied_same
    | rewrite get_copied_if_same
    | rewrite dict_get_set_same
    | rewrite get_copied_other by reflexivity
    | rewrite get_copied_if_other by reflexivity
    | rewrite dict_get_set_other by reflexivity
    | progress cbn [dict_get] ].

Section StepLookups.
Import PyStr Py Descriptor.

(** The keys a step does not set are as they were. *)
Lemma get_url_of (k : string) (d r : dict json) :
  String.eqb k "download_url" = false -> dict_get k (url_of d r) = dict_get k r.
Proof.
  intro H. unfold url_of. destruct (dict_get "url" d); [|reflexivity].
  now apply dict_get_set_other.
Qed.

Lemma get_file_of (k : string) (d r : dict json) :
  existsb (String.eqb k) ["filename"; "filesize"] = false ->
  dict_get k (file_of d r) = dict_get k r.
Proof.
  cbn [existsb]. intro H. apply orb_false_iff in H. destruct H as [H1 H].
  apply orb_false_iff in H. destruct H as [H2 _]. unfold file_of.
  destruct (fields_of (dict_get "build" d)) as [bd|]; [|reflexivity].
  destruct (fields_of (dict_get "primary_file" bd)) as [pf|]; [|reflexivity].
  now rewrite !get_copied_other.
Qed.

Lemma get_build_of (k : string) (d r : dict json) :
  existsb (String.eqb k)
    ["build_id"; "type"; "added_on"; "updated_on"; "platforms"; "width"; "height"]
  = false ->
  dict_get k (build_of d r) = dict_get k r.
Proof.
  cbn [existsb]. intro H.
  repeat match type of H with
         | (_ || _)%bool = false =>
             apply orb_false_iff in H; let H1 := fresh "H" in destruct H as [H1 H]
         end.
  unfold build_of. destruct (fields_of (dict_get "build" d)) as [bd|]; [|reflexivity].
  rewrite !get_copied_if_other by assumption.
  rewrite dict_get_set_other by assumption.
  now rewrite !get_copied_other.
Qed.

Lemma get_game_of (k : string) (d r : dict json) :
  existsb (String.eqb k) ["game_id"; "title"] = false ->
  dict_get k (game_of d r) = dict_get k r.
Proof.
  cbn [existsb]. intro H. apply orb_false_iff in H. destruct H as [H1 H].
  apply orb_false_iff in H. destruct H as [H2 _]. unfold game_of.
  destruct (fields_of (dict_get "game" d)) as [g|]; [|reflexivity].
  now rewrite !get_copied_other.
Qed.

Lemma get_java_of (k : string) (d r : dict json) :
  existsb (String.eqb k) ["java_archive"; "java_codebase"; "java_class_name"]
  = false ->
  dict_get k (java_of d r) = dict_get k r.
Proof.
  cbn [existsb]. intro H.
  repeat match type of H with
         | (_ || _)%bool = false =>
             apply orb_false_iff in H; let H1 := fresh "H" in destruct H as [H1 H]
         end.
  unfold java_of. destruct (truthy (field "javaArchive" d)); [|reflexivity].
  cbn zeta. destruct (fields_of (dict_get "build" d)) as [bd|];
    rewrite ?get_copied_if_other by assumption; now rewrite !get_copied_other.
Qed.

End StepLookups.

(** A lookup through the steps that do not set the key. *)
Ltac step_lookup :=
  unfold Descriptor.details;
  repeat first
    [ rewrite get_java_of by reflexivity
    | rewrite get_game_of by reflexivity
    | rewrite get_build_of by reflexivity
    | rewrite get_file_of by reflexivity
    | rewrite get_url_of by reflexivity ].

Section DetailInvariants.
Import PyStr Py Descriptor.

Lemma details_width (d : dict json) :
  dict_get "width" (details d)
  = match fields_of (dict_get "build" d) with
    | Some bd => if truthy (field "embed_width" bd)
                 then Some (field "embed_width" bd) else None
    | None => None
    end.
Proof.
  step_lookup. unfold build_of.
  destruct (fields_of (dict_get "build" d)) as [bd|]; details_lookup;
    step_lookup; [|reflexivity].
  now destruct (truthy (field "embed_width" bd)).
Qed.

Lemma details_height (d : dict json) :
  dict_get "height" (details d)
  = match fields_of (dict_get "build" d) with
    | Some bd => if truthy (field "embed_height" bd)
                 then Some (field "embed_height" bd) else None
    | None => None
    end.
Proof.
  step_lookup. unfold build_of.
  destruct (fields_of (dict_get "build" d)) as [bd|]; details_lookup;
    step_lookup; [|reflexivity].
  now destruct (truthy (field "embed_height" bd)).
Qed.

Lemma details_archive (d : dict json) :
  dict_get "java_archive" (details d)
  = if truthy (field "javaArchive" d) then Some (field "javaArchive" d) else None.
Proof.
  unfold details, java_of.
  destruct (truthy (field "javaArchive" d)); cbn zeta;
    [destruct (fields_of (dict_get "build" d))|]; details_lookup; step_lookup;
    reflexivity.
Qed.

Lemma details_codebase (d : dict json) :
  dict_get "java_codebase" (details d)
  = if truthy (field "javaArchive" d) then Some (field "javaCodebase" d) else None.
Proof.
  unfold details, java_of.
  destruct (truthy (field "javaArchive" d)); cbn zeta;
    [destruct (fields_of (dict_get "build" d))|]; details_lookup; step_lookup;
    reflexivity.
Qed.

Lemma details_class (d : dict json) :
  dict_get "java_class_name" (details d)
  = if truthy (field "javaArchive" d)
    then match fields_of (dict_get "build" d) with
         | Some bd => if truthy (field "java_class_name" bd)
                      then Some (field "java_class_name" bd) else None
         | None => None
         end
    else None.
Proof.
  unfold details, java_of.
  destruct (truthy (field "javaArchive" d)); cbn zeta;
    [destruct (fields_of (dict_get "build" d)) as [bd|]|]; details_lookup;
    step_lookup; reflexivity.
Qed.

Lemma details_filename (d : dict json) :
  dict_get "filename" (details d)
  = match fields_of (dict_get "build" d) with
    | Some bd =>
        match fields_of (dict_get "primary_file" bd) with
        | Some pf => Some (field "filename" pf)
        | None => None
        end
    | None => None
    end.
Proof.
  step_lookup. unfold file_of.
  destruct (fields_of (dict_get "build" d)) as [bd|];
    [destruct (fields_of (dict_get "primary_file" bd)) as [pf|]|];
    details_lookup; step_lookup; reflexivity.
Qed.

Lemma details_url (d : dict json) :
  dict_get "download_url" (details d) = dict_get "url" d.
Proof.
  step_lookup. unfold url_of.
  destruct (dict_get "url" d); details_lookup; reflexivity.
Qed.

(** X3.  In the file details the width, the height, the Java archive and
    the entry class name are recorded only when they are true (a number
    that is not zero, a string that is not empty), and an entry class
    name is never recorded without the archive and the codebase. *)
Theorem file_details_recorded_when_true (download_info : json)
  (file_details : dict json) :
  get_file_details download_info = Ok file_details ->
  (forall key x,
      In key ["width"; "height"; "java_archive"; "java_class_name"] ->
      dict_get key file_details = Some x -> truthy x = true)
  /\ (dict_has "java_class_name" file_details = true ->
      dict_has "java_archive" file_details = true
      /\ dict_has "java_codebase" file_details = true).
Proof.
  intro H. destruct (file_details_inv _ _ H) as (d & -> & _ & ->). split.
  - intros key x Hkey. cbn [In] in Hkey.
    destruct Hkey as [<-|[<-|[<-|[<-|[]]]]].
    + rewrite details_width.
      destruct (fields_of (dict_get "build" d)) as [bd|]; [|discriminate].
      destruct (truthy (field "embed_width" bd)) eqn:T; [|discriminate].
      now intros [= <-].
    + rewrite details_height.
      destruct (fields_of (dict_get "build" d)) as [bd|]; [|discriminate].
      destruct (truthy (field "embed_height" bd)) eqn:T; [|discriminate].
      now intros [= <-].
    + rewrite details_archive.
      destruct (truthy (field "javaArchive" d)) eqn:T; [|discriminate].
      now intros [= <-].
    + rewrite details_class.
      destruct (truthy (field "javaArchive" d)); [|discriminate].
      destruct (fields_of (dict_get "build" d)) as [bd|]; [|discriminate].
      destruct (truthy (field "java_class_name" bd)) eqn:T; [|discriminate].
      now intros [= <-].
  - unfold dict_has. rewrite details_class, details_archive, details_codebase.
    destruct (truthy (field "javaArchive" d)); [now split | discriminate].
Qed.

(** X3 on the descriptor of an applet: its width is recorded, and is
    true. *)
Lemma file_details_recorded_when_true_witness :
  exists fd,
    get_file_details (Sample.applet_descriptor 999 "game.jar") = Ok fd
    /\ dict_get "width" fd = Some (JInt 800)
    /\ dict_get "height" fd = None
    /\ truthy (JInt 800) = true.
Proof.
  eexists. split; [reflexivity|]. split; [reflexivity|]. split; [reflexivity|].
  exact (proj1 (file_details_recorded_when_true
                  (Sample.applet_descriptor 999 "game.jar") _ eq_refl)
               "width" (JInt 800) (or_introl eq_refl) eq_refl).
Defined.

(** X4.  The applet page the orchestrator asks for, from the details of a
    descriptor and the title of the game:
    - its title is the title given, whatever the descriptor says;
    - its width and height are the embed width and height of the build
      when these are true, and 640 and 480 otherwise (absent, zero,
      [None], or no build);
    - its archive is the filename of the primary file of the build (not
      the [javaArchive] of the descriptor): [None] when the build has no
      primary file. *)
Theorem applet_page_of_descriptor (d file_details : dict json) (title : json) :
  get_file_details (JObj d) = Ok file_details ->
  let bd := match fields_of (dict_get "build" d) with
            | Some bd => bd
            | None => []
            end in
  let page := applet_page (dict_set "title" title file_details) in
  page_title page = title
  /\ applet_width page = or_default (field "embed_width" bd) (JInt 640)
  /\ applet_height page = or_default (field "embed_height" bd) (JInt 480)
  /\ applet_archive page
     = match fields_of (dict_get "primary_file" bd) with
       | Some pf => field "filename" pf
       | None => JNull
       end.
Proof.
  intro H. destruct (file_details_inv _ _ H) as (d' & Hd & _ & ->).
  injection Hd as <-. unfold or_default, applet_page, dict_get_or.
  cbn [page_title applet_width applet_height applet_archive].
  rewrite dict_get_set_same.
  rewrite !(dict_get_set_other _ "title") by reflexivity.
  rewrite details_width, details_height, details_filename.
  destruct (fields_of (dict_get "build" d)) as [bd|].
  - repeat split.
    + now destruct (truthy (field "embed_width" bd)).
    + now destruct (truthy (field "embed_height" bd)).
    + now destruct (fields_of (dict_get "primary_file" bd)).
  - repeat split.
Qed.

(** X4 on the descriptor of an applet that declares a width of 800 and no
    height, for the game [My Game]: the page is 800 by 480. *)
Lemma applet_page_of_descriptor_witness :
  exists fd,
    get_file_details (Sample.applet_descriptor 999 "game.jar") = Ok fd
    /\ applet_width (applet_page (dict_set "title" (JStr "My Game") fd)) = JInt 800
    /\ applet_height (applet_page (dict_set "title" (JStr "My Game") fd)) = JInt 480.
Proof.
  eexists. split; [reflexivity|].
  pose proof (applet_page_of_descriptor _ _ (JStr "My Game")
                (eq_refl : get_file_details (Sample.applet_descriptor 999 "game.jar")
                           = Ok _)) as (_ & Hw & Hh & _).
  split; [exact Hw | exact Hh].
Defined.

End DetailInvariants.
(* ================================================================== *)
(** ** The two JSON endpoints: what is asked, and what comes back *)

Section RequestFacts.
Import PyStr Py.
Local Open Scope list_scope.
Variable L : Lib.
Variable E : Env.

Lemma requests_of_app (a b : Trace) :
  requests_of (a ++ b) = requests_of a ++ requests_of b.
Proof. unfold requests_of. apply flat_map_app. Qed.

(** X5.  [get_game_info] never raises and asks once: whatever the world,
    it sends the overview request, then only prints, and returns.
    - When the request (or its status check, or the decoding) fails, it
      prints the error and returns [None].
    - When the answer is an object, it returns its [payload], and [None]
      when there is none; it prints the answer in verbose mode only.
    - When the answer is any other value, it returns [None]. *)
Theorem get_game_info_contract (self : Archiver) (game_id : Z) (w : World) :
  exists v t,
    get_game_info E self game_id w
    = (Ok v, mkWorld (trace w ++ EvRequest (GetOverview game_id) :: t) (calls w))
    /\ forallb is_print t = true
    /\ match api E (trace w) (GetOverview game_id) with
       | Raise e => v = JNull /\ t = [EvPrint (MsgErrGame game_id e)]
       | Ok (JObj d) =>
           v = dict_get_or "payload" JNull d
           /\ t = if verbose self
                  then [EvPrint (MsgJson (GetOverview game_id) (JObj d))]
                  else []
       | Ok _ => v = JNull
       end.
Proof.
  unfold get_game_info, try_except, bind, request_json, print_json_response,
    lift, ret, print, emit.
  destruct (api E (trace w) (GetOverview game_id)) as [data|e]; cbn [trace calls].
  - destruct data as [| | | |s|l|d]; destruct (verbose self);
      cbn [contains_key item trace calls or_raise];
      try (destruct (contains "payload" s));
      try (destruct (existsb (is_str "payload") l));
      try (unfold dict_has, dict_get_or; destruct (dict_get "payload" d));
      cbn [trace calls or_raise];
      rewrite <- ?app_assoc; cbn [app];
      eexists; eexists; (split; [reflexivity|]); repeat split.
  - rewrite <- ?app_assoc. cbn [app].
    eexists; eexists; (split; [reflexivity|]); repeat split.
Qed.

(** What [extract_token] leaves: no request, and a token only from a
    string in which [extract_token_from_url] finds it. *)
Lemma extract_token_cases (url : json) (w : World) :
  exists token t,
    extract_token L url w = (Ok token, mkWorld (trace w ++ t) (calls w))
    /\ requests_of t = []
    /\ forall tk, token = Some tk ->
                  exists s, url = JStr s /\ extract_token_from_url L s = Some tk.
Proof.
  unfold extract_token, extract_token_from_url.
  assert (Hquiet : forall v : json,
             exists (token : option string) t,
               (if truthy v
                then (print (MsgErrToken AttributeError) ;;; ret None)%io
                else ret None) w
               = (Ok token, mkWorld (trace w ++ t) (calls w))
               /\ requests_of t = []
               /\ forall tk, token = Some tk ->
                             exists s, v = JStr s
                                       /\ match extract_token_try L s with
                                          | Ok r => r
                                          | Raise _ => None
                                          end = Some tk).
  { intro v. destruct (truthy v).
    - exists None, [EvPrint (MsgErrToken AttributeError)]. unfold bind, print, emit, ret.
      repeat split. intros tk Htk. discriminate Htk.
    - exists None, []. rewrite app_nil_r. split; [now destruct w|].
      split; [reflexivity|]. intros tk Htk. discriminate Htk. }
  destruct url as [|b|n|f|s|l|d];
    [apply (Hquiet JNull) | apply (Hquiet (JBool b)) | apply (Hquiet (JInt n))
    | apply (Hquiet (JFloat f)) | | apply (Hquiet (JArr l))
    | apply (Hquiet (JObj d))].
  unfold bind, print, emit, ret.
  destruct (extract_token_try L s) as [r|e] eqn:He; cbn [trace calls].
  - exists r, []. rewrite app_nil_r. split; [now destruct w|].
    split; [reflexivity|]. intros tk ->. exists s. now rewrite He.
  - exists None, [EvPrint (MsgErrToken e)]. split; [reflexivity|].
    split; [reflexivity|]. intros tk Htk. discriminate Htk.
Qed.

Lemma token_given_cases (token : option string) (tk : string) :
  token_given token = Some tk -> token = Some tk /\ nonempty tk = true.
Proof.
  destruct token as [t|]; [|discriminate]. cbn [token_given].
  destruct (nonempty t) eqn:Ht; [|discriminate]. intros [= <-]. now split.
Qed.

(** Build resolution, case by case. *)
Lemma build_resolution_cases (self : Archiver) (build_id : json) (game_id : Z)
  (w : World) :
  exists v t,
    get_build_download_url L E self build_id game_id w
    = (Ok v, mkWorld (trace w ++ EvRequest (PostBuildUrl build_id) :: t) (calls w))
    /\ ((requests_of t = [] /\ v = JNull)
        \/ exists url token,
            extract_token_from_url L url = Some token
            /\ nonempty token = true
            /\ requests_of t = [GetGameserver token]
            /\ (v = JNull
                \/ exists t1 data,
                    api E (trace w ++ EvRequest (PostBuildUrl build_id) :: t1)
                        (GetGameserver token) = Ok data
                    /\ get_or data "payload" (JObj []) = Ok v)).
Proof.
  unfold get_build_download_url, try_except. unfold bind at 1. unfold request_json at 1.
  destruct (api E (trace w) (PostBuildUrl build_id)) as [initial_data|e].
  2: { cbn [bind print emit ret trace calls]. unfold bind, print, emit, ret.
       cbn [trace calls]. rewrite <- app_assoc. cbn [app].
       eexists; eexists; split; [reflexivity|]. left. now split. }
  set (w1 := mkWorld (trace w ++ [EvRequest (PostBuildUrl build_id)]) (calls w)).
  assert (Hp : exists tp,
             print_json_response self initial_data (PostBuildUrl build_id) w1
             = (Ok tt, mkWorld (trace w1 ++ tp) (calls w))
             /\ requests_of tp = []).
  { unfold print_json_response, print, emit, ret. destruct (verbose self).
    - now exists [EvPrint (MsgJson (PostBuildUrl build_id) initial_data)].
    - exists []. now rewrite app_nil_r. }
  destruct Hp as (tp & Hp & Hrp). unfold bind at 1. rewrite Hp.
  set (w2 := mkWorld (trace w1 ++ tp) (calls w)).
  unfold bind at 1, lift.
  destruct (has_nested initial_data "payload" "url") as [has_url|e].
  2: { unfold bind, print, emit, ret. cbn [trace calls]. subst w2 w1. cbn [trace].
       rewrite <- !app_assoc. cbn [app].
       eexists; eexists; split; [reflexivity|]. left.
       rewrite requests_of_app, Hrp. now split. }
  destruct has_url.
  2: { unfold ret. subst w2 w1. cbn [trace]. rewrite <- !app_assoc. cbn [app].
       eexists; eexists; split; [reflexivity|]. left. now split. }
  unfold bind at 1.
  destruct (p <- item initial_data "payload" ;; item p "url")%res
    as [initial_url|e].
  2: { unfold bind, print, emit, ret. cbn [trace calls]. subst w2 w1. cbn [trace].
       rewrite <- !app_assoc. cbn [app].
       eexists; eexists; split; [reflexivity|]. left.
       rewrite requests_of_app, Hrp. now split. }
  unfold bind at 1.
  destruct (extract_token_cases initial_url w2) as (token & tt1 & Ht & Hrt & Htok).
  rewrite Ht. set (w3 := mkWorld (trace w2 ++ tt1) (calls w2)).
  destruct (token_given token) as [tk|] eqn:Hg.
  2: { unfold bind, print, emit, ret. cbn [trace calls]. subst w3 w2 w1. cbn [trace calls].
       rewrite <- !app_assoc. cbn [app].
       eexists; eexists; split; [reflexivity|]. left.
       rewrite !requests_of_app, Hrp, Hrt. now split. }
  apply token_given_cases in Hg. destruct Hg as [-> Hne].
  destruct (Htok tk eq_refl) as (s & -> & Hs).
  assert (Hreq : forall tail, requests_of tail = [] ->
                 requests_of (tp ++ tt1 ++ EvRequest (GetGameserver tk) :: tail)
                 = [GetGameserver tk]).
  { intros tail Htail. rewrite !requests_of_app, Hrp, Hrt.
    cbn [app requests_of flat_map]. fold (requests_of tail). now rewrite Htail. }
  unfold bind at 1, request_json.
  destruct (api E (trace w3) (GetGameserver tk)) as [gameserver_data|e] eqn:Hapi.
  2: { unfold bind, print, emit, ret. cbn [trace calls]. subst w3 w2 w1.
       cbn [trace calls]. rewrite <- !app_assoc. cbn [app].
       eexists; eexists; split; [reflexivity|]. right. exists s, tk.
       repeat split; try assumption; [now apply Hreq | now left]. }
  cbn [trace calls].
  assert (Hq : exists tq,
             print_json_response self gameserver_data (GetGameserver tk)
               (mkWorld (trace w3 ++ [EvRequest (GetGameserver tk)]) (calls w3))
             = (Ok tt, mkWorld ((trace w3 ++ [EvRequest (GetGameserver tk)]) ++ tq)
                               (calls w))
             /\ requests_of tq = []).
  { unfold print_json_response, print, emit, ret. destruct (verbose self).
    - now exists [EvPrint (MsgJson (GetGameserver tk) gameserver_data)].
    - exists []. now rewrite app_nil_r. }
  destruct Hq as (tq & Hq & Hrq). unfold bind at 1. rewrite Hq. unfold lift.
  destruct (get_or gameserver_data "payload" (JObj [])) as [v|e] eqn:Hv.
  - subst w3 w2 w1. cbn [trace calls] in *. rewrite <- !app_assoc. cbn [app].
    eexists; eexists; split; [reflexivity|]. right. exists s, tk.
    repeat split; try assumption; [now apply Hreq|]. right.
    exists (tp ++ tt1), gameserver_data. split; [|exact Hv].
    rewrite <- Hapi. f_equal. rewrite <- !app_assoc. reflexivity.
  - unfold bind, print, emit, ret. cbn [trace calls]. subst w3 w2 w1.
    cbn [trace calls]. rewrite <- !app_assoc. cbn [app].
    eexists; eexists; split; [reflexivity|]. right. exists s, tk.
    repeat split; try assumption; [|now left].
    apply Hreq. now rewrite requests_of_app, Hrq.
Qed.

(** X6.  [get_build_download_url] never raises.  It sends the request for
    the download URL of the build, and then:
    - either it sends nothing more and returns [None];
    - or it sends one gameserver request, for a token that is not empty
      and that [extract_token_from_url] found in a string, and returns
      [None] or the [payload] of the answer to that request (an empty
      object when the answer has none). *)
Theorem build_resolution_contract (self : Archiver) (build_id : json)
  (game_id : Z) (w : World) :
  exists v t,
    get_build_download_url L E self build_id game_id w
    = (Ok v, mkWorld (trace w ++ EvRequest (PostBuildUrl build_id) :: t) (calls w))
    /\ ((requests_of t = [] /\ v = JNull)
        \/ exists url token,
            extract_token_from_url L url = Some token
            /\ nonempty token = true
            /\ requests_of t = [GetGameserver token]
            /\ (v = JNull
                \/ exists t1 data,
                    api E (trace w ++ EvRequest (PostBuildUrl build_id) :: t1)
                        (GetGameserver token) = Ok data
                    /\ get_or data "payload" (JObj []) = Ok v)).
Proof. apply build_resolution_cases. Qed.

End RequestFacts.
(* ================================================================== *)
(** ** What the methods add to the trace *)

Section Adds.
Import PyStr Py.
Local Open Scope list_scope.
Variable E : Env.
Variable P : Event -> Prop.

Lemma adds_nothing {A : Type} (m : IO A) :
  (forall w, trace (snd (m w)) = trace w) -> adds_only P m.
Proof. intros H w. exists []. rewrite app_nil_r. now split. Qed.

Lemma adds_ret {A : Type} (a : A) : adds_only P (ret a).
Proof. now apply adds_nothing. Qed.

Lemma adds_lift {A : Type} (r : Res A) : adds_only P (lift r).
Proof. now apply adds_nothing. Qed.

Lemma adds_enter (c : Call) : adds_only P (enter c).
Proof. now apply adds_nothing. Qed.

Lemma adds_exists_path (p : string) : adds_only P (exists_path E p).
Proof. now apply adds_nothing. Qed.

Lemma adds_emit (ev : Event) : P ev -> adds_only P (emit ev).
Proof. intros H w. exists [ev]. split; [reflexivity | now constructor]. Qed.

Lemma adds_print (m : Msg) : P (EvPrint m) -> adds_only P (print m).
Proof. apply adds_emit. Qed.

Lemma adds_fs_step (ok : bool) (ev : Event) : P ev -> adds_only P (fs_step ok ev).
Proof. intros H w. exists [ev]. split; [reflexivity | now constructor]. Qed.

Lemma adds_makedirs (d : DirTarget) :
  (forall ok, P (EvMakedirs d ok)) -> adds_only P (makedirs E d).
Proof. intros H w. unfold makedirs. now apply adds_fs_step. Qed.

Lemma adds_open_file (p : string) :
  (forall ok, P (EvOpen p ok)) -> adds_only P (open_file E p).
Proof. intros H w. unfold open_file. now apply adds_fs_step. Qed.

Lemma adds_write_file (p : string) (d : Data) :
  (forall ok, P (EvWrite p d ok)) -> adds_only P (write_file E p d).
Proof. intros H w. unfold write_file. now apply adds_fs_step. Qed.

Lemma adds_request_json (r : Request) :
  P (EvRequest r) -> adds_only P (request_json E r).
Proof. intros H w. exists [EvRequest r]. split; [reflexivity | now constructor]. Qed.

Lemma adds_request_file (url : json) :
  P (EvRequest (GetFile url)) -> adds_only P (request_file E url).
Proof.
  intros H w. exists [EvRequest (GetFile url)].
  split; [reflexivity | now constructor].
Qed.

(** The rest of a sequence runs on a value the first part returned. *)
Lemma adds_bind_value {A B : Type} (m : IO A) (k : A -> IO B) :
  adds_only P m ->
  (forall a, (exists w w', m w = (Ok a, w')) -> adds_only P (k a)) ->
  adds_only P (bind m k).
Proof.
  intros Hm Hk w. unfold bind. destruct (Hm w) as (t1 & Ht1 & Hp1).
  destruct (m w) as [[a|e] w1] eqn:Hrun; cbn [snd] in *; [|now exists t1].
  destruct (Hk a (ex_intro _ w (ex_intro _ w1 Hrun)) w1) as (t2 & Ht2 & Hp2).
  exists (t1 ++ t2). rewrite Ht2, Ht1, app_assoc. split; [reflexivity|].
  apply Forall_app. now split.
Qed.

Lemma adds_bind {A B : Type} (m : IO A) (k : A -> IO B) :
  adds_only P m -> (forall a, adds_only P (k a)) -> adds_only P (bind m k).
Proof. intros Hm Hk. apply adds_bind_value; [exact Hm | intros a _; apply Hk]. Qed.

Lemma adds_try {A : Type} (body : IO A) (handler : Exn -> IO A) :
  adds_only P body -> (forall e, adds_only P (handler e)) ->
  adds_only P (try_except body handler).
Proof.
  intros Hb Hh w. unfold try_except. destruct (Hb w) as (t1 & Ht1 & Hp1).
  destruct (body w) as [[a|e] w1]; cbn [snd] in *; [now exists t1|].
  destruct (Hh e w1) as (t2 & Ht2 & Hp2).
  exists (t1 ++ t2). rewrite Ht2, Ht1, app_assoc. split; [reflexivity|].
  apply Forall_app. now split.
Qed.

Lemma adds_for_each {A S : Type} (body : S -> A -> IO S) (items : list A) :
  (forall st x, adds_only P (body st x)) ->
  forall st, adds_only P (for_each body items st).
Proof.
  intro Hb. induction items as [|x r IH]; intro st; cbn [for_each].
  - apply adds_ret.
  - apply adds_bind; [apply Hb | exact IH].
Qed.

End Adds.

(** A stronger property of the events gives a weaker one. *)
Lemma adds_weaken {A : Type} (P Q : Event -> Prop) (m : IO A) :
  (forall ev, P ev -> Q ev) -> adds_only P m -> adds_only Q m.
Proof.
  intros H Hm w. destruct (Hm w) as (t & Ht & Hp). exists t.
  split; [exact Ht|]. revert Hp. apply Forall_impl. exact H.
Qed.

(** The structure of a method, down to the events it emits. *)
Ltac adds_step :=
  first
    [ apply adds_ret | apply adds_lift | apply adds_enter | apply adds_exists_path
    | apply adds_bind | apply adds_try | apply adds_for_each
    | apply adds_print | apply adds_makedirs | apply adds_open_file
    | apply adds_write_file | apply adds_request_json | apply adds_request_file
    | apply adds_emit | apply adds_fs_step
    | progress intros
    | match goal with
      | |- adds_only _ (if ?b then _ else _) => destruct b
      | |- adds_only _ (match ?x with _ => _ end) => destruct x
      end ].

Section AddsMethods.
Import PyStr Py.
Local Open Scope list_scope.
Variable L : Lib.
Variable E : Env.
Variable P : Event -> Prop.

(** The methods that only print and ask the JSON endpoints. *)
Hypothesis prints : forall m, P (EvPrint m).

Lemma adds_print_json (self : Archiver) (data : json) (about : Request) :
  adds_only P (print_json_response self data about).
Proof. unfold print_json_response. repeat adds_step; apply prints. Qed.

Lemma adds_extract_token (url : json) : adds_only P (extract_token L url).
Proof. unfold extract_token. repeat adds_step; apply prints. Qed.

Lemma adds_get_game_info (self : Archiver) (game_id : Z) :
  P (EvRequest (GetOverview game_id)) ->
  adds_only P (get_game_info E self game_id).
Proof.
  intro Hr. unfold get_game_info.
  repeat first [apply adds_print_json | adds_step]; first [apply prints | exact Hr].
Qed.

Lemma adds_get_build_download_url (self : Archiver) (build_id : json) (game_id : Z) :
  P (EvRequest (PostBuildUrl build_id)) ->
  (forall token, P (EvRequest (GetGameserver token))) ->
  adds_only P (get_build_download_url L E self build_id game_id).
Proof.
  intros Hr Hg. unfold get_build_download_url.
  repeat first [apply adds_print_json | apply adds_extract_token | adds_step];
    first [apply prints | exact Hr | apply Hg].
Qed.

Lemma adds_describe_build (build : json) : adds_only P (describe_build L build).
Proof. unfold describe_build. repeat adds_step; apply prints. Qed.

Lemma adds_describe_game (game_info : json) :
  adds_only P (describe_game L game_info).
Proof. unfold describe_game. repeat adds_step; apply prints. Qed.

Lemma adds_print_java_classes (infos : list (dict json)) :
  adds_only P (print_java_classes infos).
Proof. unfold print_java_classes. repeat adds_step; apply prints. Qed.

Lemma adds_show_progress (downloaded total : Z) :
  adds_only P (show_progress downloaded total).
Proof. unfold show_progress. repeat adds_step; apply prints. Qed.

End AddsMethods.
(* ================================================================== *)
(** ** File transfer: what is written, and where *)

Section DownloadFacts.
Import PyStr Py.
Local Open Scope list_scope.
Variable E : Env.

Lemma written_to_app (p : string) (a b : Trace) :
  written_to p (a ++ b) = written_to p a ++ written_to p b.
Proof. unfold written_to. apply flat_map_app. Qed.

Lemma makedirs_only_facts (p : string) (t : Trace) :
  Forall is_makedirs t ->
  file_requests t = [] /\ written_to p t = [] /\ requests_of t = []
  /\ forall q ok, ~ In (EvOpen q ok) t.
Proof.
  induction 1 as [|ev t (d & ok & ->) _ (IH1 & IH2 & IH3 & IH4)].
  - repeat split. intros q ok [].
  - cbn [file_requests written_to requests_of flat_map app].
    fold (file_requests t). fold (written_to p t). fold (requests_of t).
    repeat split; try assumption.
    intros q ok' [Hin|Hin]; [discriminate | now apply (IH4 q ok')].
Qed.

Lemma adds_create_game_directory (P : Event -> Prop) (self : Archiver)
  (title : json) :
  (forall d ok, P (EvMakedirs d ok)) ->
  adds_only P (create_game_directory E self title).
Proof. intro H. unfold create_game_directory. repeat adds_step. apply H. Qed.

Lemma adds_destination (P : Event -> Prop) (self : Archiver) (filename : string)
  (title : json) (output_path : option string) :
  (forall d ok, P (EvMakedirs d ok)) ->
  adds_only P (destination E self filename title output_path).
Proof.
  intro H. unfold destination.
  repeat first [apply adds_create_game_directory | adds_step]; apply H.
Qed.

(** What the directory step does, when it returns. *)
Lemma destination_run (self : Archiver) (filename : string) (title : json)
  (output_path : option string) (w : World) (r : Res string) (w1 : World) :
  destination E self filename title output_path w = (r, w1) ->
  exists t, trace w1 = trace w ++ t /\ Forall is_makedirs t
            /\ calls w1 = calls w
            /\ match r with
               | Ok p => destination_path self filename title output_path = Some p
               | Raise e =>
                   destination_path self filename title output_path = None
                   \/ e = OSError
               end.
Proof.
  intro H.
  destruct (adds_destination is_makedirs self filename title output_path
              (fun d ok => ex_intro _ d (ex_intro _ ok eq_refl)) w) as (t & Ht & Hp).
  rewrite H in Ht. cbn [snd] in Ht. exists t. split; [exact Ht|]. split; [exact Hp|].
  split.
  - assert (K : calls_kept (destination E self filename title output_path)).
    { unfold destination. repeat kept_step. }
    specialize (K w). now rewrite H in K.
  - destruct r as [p|e]; [now apply (destination_decided E _ _ _ _ _ _ _ H)|].
    revert H. unfold destination, destination_path, create_game_directory,
      path_given, bind, lift, ret, makedirs, fs_step.
    destruct output_path as [op|]; [destruct (nonempty op)|].
    + destruct (makedirs_ok E (trace w) (DirOfAbs op)); intros [= <- _]; now right.
    + destruct (safe_title title) as [s|e']; [|now left].
      destruct (makedirs_ok E (trace w) _); intros [= <- _]; now right.
    + destruct (safe_title title) as [s|e']; [|now left].
      destruct (makedirs_ok E (trace w) _); intros [= <- _]; now right.
Qed.

(** The loop of lines 322-326, when it returns: the chunks that are not
    empty were written, in order, and nothing else was. *)
Lemma write_loop_run (p : string) (total : Z) (cs : list string) :
  forall (n n' : Z) (w w' : World),
    for_each (write_chunk E p total) cs n w = (Ok n', w') ->
    exists t, trace w' = trace w ++ t
              /\ written_to p t = filter nonempty cs
              /\ file_requests t = []
              /\ calls w' = calls w.
Proof.
  induction cs as [|c cs IH]; intros n n' w w' H; cbn [for_each] in H.
  - injection H as _ <-. exists []. rewrite app_nil_r. now repeat split.
  - apply bind_ok_run in H. destruct H as (n1 & w1 & H1 & H).
    destruct (IH _ _ _ _ H) as (t2 & Ht2 & Hw2 & Hq2 & Hc2).
    unfold write_chunk in H1. cbn [filter].
    destruct (nonempty c) eqn:Hc.
    + apply bind_ok_run in H1. destruct H1 as ([] & wa & Ha & H1).
      apply bind_ok_run in H1. destruct H1 as ([] & wb & Hb & H1).
      unfold ret in H1. injection H1 as _ <-.
      unfold write_file, fs_step in Ha.
      destruct (write_ok E (trace w) p (Chunk c)) eqn:Hok; [|discriminate Ha].
      injection Ha as <-.
      unfold show_progress in Hb.
      destruct (0 <? total)%Z.
      * unfold print, emit in Hb. injection Hb as <-. cbn [trace calls] in *.
        exists ([EvWrite p (Chunk c) true; EvPrint (MsgProgress
                   (n + Z.of_nat (String.length c)) total)] ++ t2).
        rewrite Ht2, <- !app_assoc. cbn [app]. split; [reflexivity|].
        cbn [written_to flat_map app]. rewrite String.eqb_refl.
        fold (written_to p t2). rewrite Hw2.
        cbn [file_requests flat_map app]. fold (file_requests t2).
        now repeat split.
      * unfold ret in Hb. injection Hb as <-. cbn [trace calls] in *.
        exists (EvWrite p (Chunk c) true :: t2).
        rewrite Ht2, <- !app_assoc. cbn [app]. split; [reflexivity|].
        cbn [written_to flat_map app]. rewrite String.eqb_refl.
        fold (written_to p t2). rewrite Hw2.
        cbn [file_requests flat_map app]. fold (file_requests t2).
        now repeat split.
    + unfold ret in H1. injection H1 as _ <-. exists t2. now repeat split.
Qed.

Lemma file_content_nonempty (cs : list string) :
  file_content (filter nonempty cs) = file_content cs.
Proof.
  induction cs as [|c cs IH]; [reflexivity|].
  cbn [filter]. destruct c as [|a c]; cbn [nonempty file_content fold_right];
    fold (file_content cs); [exact IH|].
  fold (file_content (filter nonempty cs)). now rewrite IH.
Qed.

(** A transfer that succeeds, step by step. *)
Lemma download_success_run (self : Archiver) (url : json) (filename : string)
  (title : json) (output_path : option string) (w w1 : World) (p : string) :
  download_file E self url filename title output_path w = (Ok (Success p), w1) ->
  exists td t,
    trace w1 = trace w ++ td ++ t
    /\ Forall is_makedirs td
    /\ destination_path self filename title output_path = Some p
    /\ ((path_exists E (trace w ++ td) p = true
         /\ t = [EvPrint (MsgFileExists p)])
        \/ (path_exists E (trace w ++ td) p = false
            /\ exists body tw,
                fetch E (trace w ++ td) url = Ok body
                /\ broken body = None
                /\ t = [EvRequest (GetFile url);
                        EvPrint (MsgDownloading filename (total_size body));
                        EvOpen p true] ++ tw ++ [EvPrint (MsgDownloaded p)]
                /\ written_to p tw = filter nonempty (chunks body)
                /\ file_requests tw = [])).
Proof.
  intro H. unfold download_file in H. unfold bind at 1 in H. cbn [enter] in H.
  unfold try_except in H.
  match type of H with
  | (match ?b ?w0 with _ => _ end) = _ =>
      destruct (b w0) as [[o|e] w'] eqn:Hb; [|discriminate H]
  end.
  injection H as -> ->.
  apply bind_ok_run in Hb. destruct Hb as (dest & wd & Hd & Hb).
  destruct (destination_run _ _ _ _ _ _ _ Hd) as (td & Htd & Hpd & _ & Hdest).
  cbn [trace] in Htd.
  apply bind_ok_run in Hb. destruct Hb as (found & wf & Hf & Hb).
  unfold exists_path in Hf. injection Hf as <- <-. rewrite Htd in Hb.
  destruct (path_exists E (trace w ++ td) dest) eqn:Hex.
  - unfold bind, print, emit, ret in Hb. injection Hb as <- <-.
    exists td, [EvPrint (MsgFileExists dest)]. cbn [trace].
    rewrite Htd, <- app_assoc. repeat split; try assumption. left. now split.
  - apply bind_ok_run in Hb. destruct Hb as (body & w2 & Hr & Hb).
    unfold request_file in Hr. rewrite Htd in Hr.
    destruct (fetch E (trace w ++ td) url) as [body'|e] eqn:Hfetch;
      [|discriminate Hr].
    injection Hr as -> <-.
    apply bind_ok_run in Hb. destruct Hb as ([] & w3 & Hp & Hb).
    unfold print, emit in Hp. injection Hp as <-. cbn [trace calls] in Hb.
    apply bind_ok_run in Hb. destruct Hb as ([] & w4 & Ho & Hb).
    unfold open_file, fs_step in Ho. cbn [trace calls] in Ho.
    destruct (open_ok E _ dest); [|discriminate Ho]. injection Ho as <-.
    apply bind_ok_run in Hb. destruct Hb as (n & w5 & Hloop & Hb).
    destruct (write_loop_run _ _ _ _ _ _ _ Hloop) as (tw & Htw & Hw & Hq & _).
    cbn [trace] in Htw.
    destruct (broken body) eqn:Hbr; [discriminate Hb|].
    unfold bind, print, emit, ret in Hb. injection Hb as <- <-. cbn [trace].
    exists td. eexists. split; [|split; [exact Hpd|split; [exact Hdest|]]].
    2: { right. split; [exact Hex|]. exists body, tw.
         repeat split; try assumption; reflexivity. }
    rewrite Htw, <- !app_assoc. cbn [app]. reflexivity.
Qed.

(** When the destination is there and stays there, a transfer sends no
    request: it declares success, unless the directory cannot be made. *)
Lemma present_is_not_fetched (self : Archiver) (url : json) (filename : string)
  (title : json) (output_path : option string) (w : World) (dest : string) :
  destination_path self filename title output_path = Some dest ->
  (forall t', path_exists E (trace w ++ t') dest = true) ->
  file_requests
    (trace (snd (download_file E self url filename title output_path w)))
  = file_requests (trace w)
  /\ (fst (download_file E self url filename title output_path w)
      = Ok (Success dest)
      \/ fst (download_file E self url filename title output_path w)
         = Ok (Failure (MsgErrDownload OSError))).
Proof.
  intros Hdest Hex.
  destruct (destination E self filename title output_path
              (mkWorld (trace w)
                 (calls w ++ [CallDownload url filename title output_path])))
    as [r wd] eqn:Hd.
  destruct (destination_run _ _ _ _ _ _ _ Hd) as (td & Htd & Hpd & _ & Hr).
  cbn [trace] in Htd.
  destruct (makedirs_only_facts dest td Hpd) as (Hq & _).
  assert (K : exists o w',
             download_file E self url filename title output_path w = (Ok o, w')
             /\ file_requests (trace w') = file_requests (trace w)
             /\ (o = Success dest \/ o = Failure (MsgErrDownload OSError))).
  { unfold download_file. unfold bind at 1. cbn [enter].
    unfold try_except. unfold bind at 1. rewrite Hd.
    destruct r as [p|e].
    - rewrite Hdest in Hr. injection Hr as <-.
      unfold bind at 1, exists_path. rewrite Htd, Hex.
      unfold bind, print, emit, ret. eexists; eexists. split; [reflexivity|].
      cbn [trace]. rewrite Htd, !file_requests_app, Hq. cbn.
      rewrite !app_nil_r. split; [reflexivity | now left].
    - destruct Hr as [Hr| ->]; [congruence|].
      unfold bind, print, emit, ret. eexists; eexists. split; [reflexivity|].
      cbn [trace]. rewrite Htd, !file_requests_app, Hq. cbn.
      rewrite !app_nil_r. split; [reflexivity | now right]. }
  destruct K as (o & w' & -> & Hreq & [-> | ->]); cbn [fst snd]; auto.
Qed.

(** The files a transfer opens: its destination, and no other. *)
Lemma download_opens_destination (self : Archiver) (url : json) (filename : string)
  (title : json) (output_path : option string) :
  adds_only (fun ev => forall q ok, ev = EvOpen q ok ->
                       destination_path self filename title output_path = Some q)
            (download_file E self url filename title output_path).
Proof.
  unfold download_file. apply adds_bind; [apply adds_enter|]. intros _.
  apply adds_try; [|repeat adds_step; discriminate].
  apply adds_bind_value; [apply adds_destination; discriminate|].
  intros dest (w & w' & Hd). apply destination_decided in Hd.
  apply adds_bind; [apply adds_exists_path|]. intros [|].
  - repeat adds_step. discriminate.
  - unfold write_chunk, show_progress, raise.
    repeat adds_step; try discriminate.
    match goal with
    | H : EvOpen _ _ = EvOpen _ _ |- _ => injection H as <- _
    end. exact Hd.
Qed.

End DownloadFacts.

Section DownloadBody.
Import PyStr Py.
Local Open Scope list_scope.

(** X7.  A transfer that succeeds either found the destination (it sent
    no request and wrote nothing), or sent one request for the file and
    wrote to the destination the chunks of the answer that are not empty,
    in order: the file holds the body of the answer, which came to its
    end. *)
Theorem downloaded_file_is_the_body (E : Env) (self : Archiver) (url : json)
  (filename : string) (title : json) (output_path : option string)
  (w w1 : World) (p : string) :
  download_file E self url filename title output_path w = (Ok (Success p), w1) ->
  exists t,
    trace w1 = trace w ++ t
    /\ ((file_requests t = [] /\ written_to p t = [])
        \/ exists t0 body,
            fetch E (trace w ++ t0) url = Ok body
            /\ broken body = None
            /\ file_requests t = [url]
            /\ written_to p t = filter nonempty (chunks body)
            /\ file_content (written_to p t) = file_content (chunks body)).
Proof.
  intro H.
  destruct (download_success_run E _ _ _ _ _ _ _ _ H)
    as (td & t & Ht & Hpd & _ & Hcases).
  destruct (makedirs_only_facts p td Hpd) as (Hq & Hw & _).
  exists (td ++ t). split; [exact Ht|].
  destruct Hcases as [[_ ->]|(_ & body & tw & Hfetch & Hbr & -> & Hwr & Hqr)].
  - left. rewrite file_requests_app, written_to_app, Hq, Hw. now split.
  - right. exists td, body. split; [exact Hfetch|]. split; [exact Hbr|].
    assert (Hwritten : written_to p (td ++ [EvRequest (GetFile url);
                          EvPrint (MsgDownloading filename (total_size body));
                          EvOpen p true] ++ tw ++ [EvPrint (MsgDownloaded p)])
                       = filter nonempty (chunks body)).
    { rewrite !written_to_app, Hw, Hwr. cbn [written_to flat_map app].
      now rewrite app_nil_r. }
    split; [|split; [exact Hwritten|]].
    + rewrite !file_requests_app, Hq, Hqr. reflexivity.
    + rewrite Hwritten. apply file_content_nonempty.
Qed.

(** X7 on the transfer of [game.jar], which comes in the chunks [ab], the
    empty chunk and [cd]: the file holds [abcd]. *)
Lemma downloaded_file_is_the_body_witness :
  download_file (Sample.env Sample.no_server Sample.files) Sample.archiver
    (JStr "https://cdn.example/game.jar") "game.jar" (JStr "My Game") None
    Sample.start
  = (Ok (Success "downloads/My_Game/game.jar"),
     snd (download_file (Sample.env Sample.no_server Sample.files) Sample.archiver
            (JStr "https://cdn.example/game.jar") "game.jar" (JStr "My Game") None
            Sample.start))
  /\ file_content
       (written_to "downloads/My_Game/game.jar"
          (trace (snd (download_file (Sample.env Sample.no_server Sample.files)
                         Sample.archiver (JStr "https://cdn.example/game.jar")
                         "game.jar" (JStr "My Game") None Sample.start))))
     = "abcd".
Proof.
  assert (H : download_file (Sample.env Sample.no_server Sample.files)
                Sample.archiver (JStr "https://cdn.example/game.jar") "game.jar"
                (JStr "My Game") None Sample.start
              = (Ok (Success "downloads/My_Game/game.jar"),
                 snd (download_file (Sample.env Sample.no_server Sample.files)
                        Sample.archiver (JStr "https://cdn.example/game.jar")
                        "game.jar" (JStr "My Game") None Sample.start)))
    by (vm_compute; reflexivity).
  split; [exact H|].
  destruct (downloaded_file_is_the_body _ _ _ _ _ _ _ _ _ H)
    as (t & Ht & [[Hq _]|(t0 & body & Hf & _ & _ & _ & Hc)]).
  - rewrite Ht. cbn [Sample.start trace app]. exfalso.
    assert (K : file_requests
                  (trace (snd (download_file
                                 (Sample.env Sample.no_server Sample.files)
                                 Sample.archiver
                                 (JStr "https://cdn.example/game.jar") "game.jar"
                                 (JStr "My Game") None Sample.start)))
                = [JStr "https://cdn.example/game.jar"])
      by (vm_compute; reflexivity).
    rewrite Ht in K. cbn [Sample.start trace app] in K. rewrite Hq in K.
    discriminate K.
  - rewrite Ht. cbn [Sample.start trace app]. rewrite Hc.
    cbn [Sample.env fetch Sample.files] in Hf. injection Hf as <-. reflexivity.
Defined.

End DownloadBody.

Section DownloadMemory.
Import PyStr Py.
Local Open Scope list_scope.

(** X8.  A transfer that failed after it opened its destination (the
    stream broke, or a write failed) leaves the file behind, and on a
    file system that keeps its files every later call of the same
    transfer takes that file for the download: it sends no request, and
    declares success (unless the directory cannot be made again). *)
Theorem partial_file_is_taken_for_complete (E : Env) (self : Archiver)
  (url : json) (filename : string) (title : json) (output_path : option string)
  (w w1 : World) (m : Msg) (t : Trace) (p : string) :
  keeps_files E ->
  download_file E self url filename title output_path w = (Ok (Failure m), w1) ->
  trace w1 = trace w ++ t ->
  In (EvOpen p true) t ->
  forall w2 t',
    trace w2 = trace w1 ++ t' ->
    file_requests
      (trace (snd (download_file E self url filename title output_path w2)))
    = file_requests (trace w2)
    /\ (fst (download_file E self url filename title output_path w2)
        = Ok (Success p)
        \/ fst (download_file E self url filename title output_path w2)
           = Ok (Failure (MsgErrDownload OSError))).
Proof.
  intros [_ Hopen] H Ht Hin w2 t' Hw2.
  assert (Hdest : destination_path self filename title output_path = Some p).
  { destruct (download_opens_destination E self url filename title output_path w)
      as (t0 & Ht0 & Hp0).
    rewrite H in Ht0. cbn [snd] in Ht0. rewrite Ht in Ht0.
    apply app_inv_head in Ht0. subst t0.
    rewrite Forall_forall in Hp0. exact (Hp0 _ Hin p true eq_refl). }
  apply present_is_not_fetched; [exact Hdest|].
  intro x. apply in_split in Hin. destruct Hin as (a & b & ->).
  rewrite Hw2, Ht, <- !app_assoc. cbn [app].
  rewrite app_assoc. apply Hopen.
Qed.

(** X8 on the transfer of [game.jar] when the stream breaks after the
    first chunk: the first call fails, the second finds the two bytes that
    were written and declares success, without a request. *)
Lemma partial_file_is_taken_for_complete_witness :
  let E := Sample.env Sample.no_server Scenario.broken_files in
  let run := download_file E Sample.archiver (JStr "https://cdn.example/game.jar")
               "game.jar" (JStr "My Game") None in
  fst (run Sample.start) = Ok (Failure (MsgErrDownload RequestException))
  /\ written_to "downloads/My_Game/game.jar" (trace (snd (run Sample.start)))
     = ["ab"]
  /\ file_requests (trace (snd (run (snd (run Sample.start)))))
     = file_requests (trace (snd (run Sample.start)))
  /\ (fst (run (snd (run Sample.start)))
      = Ok (Success "downloads/My_Game/game.jar")
      \/ fst (run (snd (run Sample.start)))
         = Ok (Failure (MsgErrDownload OSError))).
Proof.
  intros E run. split; [reflexivity|]. split; [reflexivity|].
  assert (Hin : In (EvOpen "downloads/My_Game/game.jar" true)
                   (trace (snd (run Sample.start)))) by (cbn; auto 10).
  exact (partial_file_is_taken_for_complete E Sample.archiver
           (JStr "https://cdn.example/game.jar") "game.jar" (JStr "My Game") None
           Sample.start (snd (run Sample.start))
           (MsgErrDownload RequestException)
           (trace (snd (run Sample.start))) "downloads/My_Game/game.jar"
           (sample_keeps_files Sample.no_server Scenario.broken_files)
           eq_refl eq_refl Hin (snd (run Sample.start)) []
           (eq_sym (app_nil_r _))).
Defined.

(** X9.  With an output path, the destination of every transfer is that
    path, whatever the file: once a transfer to it succeeded, on a file
    system that keeps its files, the transfer of any file to the same
    output path sends no request and declares success (unless the
    directory cannot be made again).  Of the JAR files of a game, only
    the first is downloaded. *)
Theorem output_path_is_shared (E : Env) (self : Archiver) (url : json)
  (filename : string) (title : json) (output_path : string)
  (w w1 : World) (p : string) :
  keeps_files E ->
  nonempty output_path = true ->
  download_file E self url filename title (Some output_path) w
  = (Ok (Success p), w1) ->
  p = output_path
  /\ forall url' filename' title' w2 t',
      trace w2 = trace w1 ++ t' ->
      file_requests
        (trace (snd (download_file E self url' filename' title'
                       (Some output_path) w2)))
      = file_requests (trace w2)
      /\ (fst (download_file E self url' filename' title' (Some output_path) w2)
          = Ok (Success output_path)
          \/ fst (download_file E self url' filename' title' (Some output_path) w2)
             = Ok (Failure (MsgErrDownload OSError))).
Proof.
  intros Hkeep Hne H.
  destruct (success_means_present E _ _ _ _ _ _ _ _ Hkeep H) as [Hdest Hex].
  unfold destination_path in Hdest. rewrite Hne in Hdest. injection Hdest as <-.
  split; [reflexivity|]. intros url' filename' title' w2 t' Hw2.
  apply present_is_not_fetched.
  - unfold destination_path. now rewrite Hne.
  - intro x. rewrite Hw2, <- app_assoc. apply Hex.
Qed.

(** X9 with the output path [out/game.jar]: once [game.jar] is there, the
    transfer of another file to the same path sends no request (the
    server would refuse it) and declares success. *)
Lemma output_path_is_shared_witness :
  let E := Sample.env Sample.no_server Sample.files in
  let first := download_file E Sample.archiver (JStr "https://cdn.example/game.jar")
                 "game.jar" (JStr "My Game") (Some "out/game.jar") Sample.start in
  let second := download_file E Sample.archiver
                  (JStr "https://cdn.example/other.jar") "other.jar"
                  (JStr "My Game") (Some "out/game.jar") (snd first) in
  fst first = Ok (Success "out/game.jar")
  /\ file_requests (trace (snd second)) = file_requests (trace (snd first))
  /\ (fst second = Ok (Success "out/game.jar")
      \/ fst second = Ok (Failure (MsgErrDownload OSError))).
Proof.
  intros E first second. split; [reflexivity|].
  apply (proj2 (output_path_is_shared E Sample.archiver
                  (JStr "https://cdn.example/game.jar") "game.jar"
                  (JStr "My Game") "out/game.jar" Sample.start (snd first)
                  "out/game.jar"
                  (sample_keeps_files Sample.no_server Sample.files)
                  eq_refl eq_refl)
               (JStr "https://cdn.example/other.jar") "other.jar" (JStr "My Game")
               (snd first) []).
  now rewrite app_nil_r.
Defined.

End DownloadMemory.
(* ================================================================== *)
(** ** Safe titles and destinations *)

Ltac by_char c :=
  destruct c as [[] [] [] [] [] [] [] []]; vm_compute;
  try reflexivity; try discriminate.

Section SafeTitles.
Import PyStr Py Shape Titles StrFacts.

(** A character of a safe title: alphanumeric, a hyphen or an underscore.
    It is kept by the sanitization, and is neither a space nor a slash. *)
Lemma safe_char_kept (c : ascii) :
  isalnum_char c || char_in c "-_" = true -> Ascii.eqb (keep_char c) c = true.
Proof. by_char c. Qed.

Lemma safe_char_no_space (c : ascii) :
  isalnum_char c || char_in c "-_" = true -> negb (isspace_char c) = true.
Proof. by_char c. Qed.

Lemma safe_char_not_blank (c : ascii) :
  isalnum_char c || char_in c "-_" = true ->
  Ascii.eqb (if Ascii.eqb c " " then "_"%char else c) c = true.
Proof. by_char c. Qed.

Lemma safe_char_no_slash (c : ascii) :
  isalnum_char c || char_in c "-_" = true -> negb (Ascii.eqb c "/") = true.
Proof. by_char c. Qed.

Lemma map_chars_fixed (f : ascii -> ascii) (s : string) :
  all_chars (fun c => Ascii.eqb (f c) c) s = true -> map_chars f s = s.
Proof.
  induction s as [|c s IH]; cbn [all_chars map_chars]; [reflexivity|].
  intro H. apply andb_true_iff in H. destruct H as [Hc Hs].
  apply Ascii.eqb_eq in Hc. now rewrite Hc, IH.
Qed.

Lemma lstrip_by_none (p : ascii -> bool) (s : string) :
  all_chars (fun c => negb (p c)) s = true -> lstrip_by p s = s.
Proof.
  destruct s as [|c s]; cbn [all_chars lstrip_by]; [reflexivity|].
  intro H. apply andb_true_iff in H. destruct H as [Hc _].
  apply negb_true_iff in Hc. now rewrite Hc.
Qed.

Lemma strip_by_none (p : ascii -> bool) (s : string) :
  all_chars (fun c => negb (p c)) s = true -> strip_by p s = s.
Proof.
  intro H. unfold strip_by, rstrip_by. rewrite (lstrip_by_none p s H).
  rewrite lstrip_by_none by now rewrite all_chars_srev.
  apply srev_involutive.
Qed.

(** The characters of a safe title. *)
Lemma safe_title_chars (s r : string) :
  safe_title (JStr s) = Ok r ->
  all_chars (fun c => isalnum_char c || char_in c "-_") r = true.
Proof.
  rewrite safe_title_string. intros [= <-].
  unfold replace_char. rewrite all_chars_map. unfold strip.
  apply all_chars_strip. rewrite all_chars_map.
  apply all_chars_true. intro c. apply (kept_char_safe c).
Qed.

(** X10.  Sanitization is idempotent: the safe title of a safe title is
    that safe title.  A directory name the script made is the name it
    makes for itself. *)
Theorem safe_title_idempotent (s r : string) :
  safe_title (JStr s) = Ok r -> safe_title (JStr r) = Ok r.
Proof.
  intro H. pose proof (safe_title_chars s r H) as Hr.
  rewrite safe_title_string. f_equal.
  rewrite (map_chars_fixed keep_char r)
    by (revert Hr; apply all_chars_impl, safe_char_kept).
  unfold strip. rewrite strip_by_none
    by (revert Hr; apply all_chars_impl, safe_char_no_space).
  unfold replace_char. apply map_chars_fixed.
  revert Hr. apply all_chars_impl, safe_char_not_blank.
Qed.

(** X10 on the title [My Game: 2!]. *)
Lemma safe_title_idempotent_witness :
  safe_title (JStr "My Game: 2!") = Ok "My_Game__2_"
  /\ safe_title (JStr "My_Game__2_") = Ok "My_Game__2_".
Proof.
  split; [reflexivity|].
  exact (safe_title_idempotent "My Game: 2!" "My_Game__2_" eq_refl).
Defined.

(** The same for a title that is no string: a list of strings is cut
    into its items, not into characters. *)
Lemma safe_blank_or_kept (c : ascii) :
  isalnum_char c || char_in c " -_" = true ->
  (let r := if Ascii.eqb c " " then "_"%char else c in
   isalnum_char r || char_in r "-_") = true.
Proof. by_char c. Qed.

Lemma char_in_later (x c : ascii) (s : string) :
  char_in x s = true -> char_in x (String c s) = true.
Proof. intro H. cbn [char_in]. now rewrite H, orb_true_r. Qed.

Lemma startswith_chars (s sub : string) :
  startswith s sub = true -> all_chars (fun x => char_in x s) sub = true.
Proof.
  revert s. induction sub as [|d sub IH]; intros s H; [reflexivity|].
  destruct s as [|c s]; [discriminate|]. cbn [startswith] in H.
  apply andb_true_iff in H. destruct H as [Hc Hs].
  apply Ascii.eqb_eq in Hc. subst d. cbn [all_chars char_in].
  rewrite Ascii.eqb_refl. cbn [orb andb].
  generalize (IH s Hs). apply all_chars_impl. intros x. apply char_in_later.
Qed.

Lemma contains_chars (sub s : string) :
  contains sub s = true -> all_chars (fun x => char_in x s) sub = true.
Proof.
  induction s as [|c s IH]; cbn [contains]; intro H.
  - rewrite orb_false_r in H. now apply startswith_chars.
  - apply orb_true_iff in H. destruct H as [H|H]; [now apply startswith_chars|].
    generalize (IH H). apply all_chars_impl. intros x. apply char_in_later.
Qed.

Lemma safe_piece_chars (c : string) :
  all_chars (fun x => isalnum_char x || char_in x " -_") (safe_piece c) = true.
Proof.
  unfold safe_piece.
  destruct (isalnum c || contains c " -_") eqn:H; [|reflexivity].
  apply orb_true_iff in H. destruct H as [H|H].
  - unfold isalnum in H. apply andb_true_iff in H. destruct H as [_ H].
    revert H. apply all_chars_impl. intros x ->. reflexivity.
  - generalize (contains_chars _ _ H). apply all_chars_impl.
    intros x ->. apply orb_true_r.
Qed.

Lemma join_empty_chars (p : ascii -> bool) (pieces : list string) :
  Forall (fun w => all_chars p w = true) pieces ->
  all_chars p (join "" pieces) = true.
Proof.
  induction 1 as [|w ws Hw _ IH]; [reflexivity|].
  rewrite join_empty_cons, all_chars_app, Hw, IH. reflexivity.
Qed.

Lemma safe_title_chars_any (title : json) (r : string) :
  safe_title title = Ok r ->
  all_chars (fun c => isalnum_char c || char_in c "-_") r = true.
Proof.
  unfold safe_title. intro H.
  destruct (iter title) as [items|e]; cbn [res_bind] in H; [|discriminate].
  destruct (str_items items) as [pieces|e]; cbn [res_bind] in H; [|discriminate].
  injection H as <-. unfold replace_char. rewrite all_chars_map. unfold strip.
  apply all_chars_strip.
  generalize (join_empty_chars (fun x => isalnum_char x || char_in x " -_")
                (map safe_piece pieces)).
  intro K. generalize (K ltac:(apply Forall_forall; intros w Hw;
                                apply in_map_iff in Hw;
                                destruct Hw as (c & <- & _);
                                apply safe_piece_chars)).
  apply all_chars_impl. intros c Hc. exact (safe_blank_or_kept c Hc).
Qed.

End SafeTitles.

Section Destinations.
Import PyStr Py Shape Titles StrFacts.

Lemma nonempty_app_l (a b : string) : nonempty a = true -> nonempty (a ++ b) = true.
Proof. now destruct a. Qed.

Lemma nonempty_app_r (a b : string) : nonempty b = true -> nonempty (a ++ b) = true.
Proof. destruct a; [trivial | reflexivity]. Qed.

(** A string that ends with a part that is not empty and holds no slash
    does not end with a slash, and is not made of slashes. *)
Lemma ends_without_slash (pre s : string) :
  nonempty s = true -> no_char "/" s = true ->
  endswith (pre ++ s) "/" = false
  /\ all_chars OsPath.is_slash (pre ++ s) = false
  /\ lstrip_by OsPath.is_slash (srev (pre ++ s)) = srev (pre ++ s).
Proof.
  intros Hne Hno. rewrite <- nonempty_srev in Hne.
  unfold no_char in Hno. rewrite <- all_chars_srev in Hno.
  unfold endswith. rewrite <- (all_chars_srev _ (pre ++ s)), srev_app.
  destruct (srev s) as [|c r]; [discriminate|].
  cbn [all_chars] in Hno. apply andb_true_iff in Hno. destruct Hno as [Hc _].
  apply negb_true_iff in Hc. unfold OsPath.is_slash.
  change (srev "/") with "/". cbn [append startswith all_chars lstrip_by].
  unfold OsPath.is_slash. rewrite Hc. repeat split.
Qed.

Lemma span_to_slash (f rest : string) :
  no_char "/" f = true ->
  span (fun c => negb (OsPath.is_slash c)) (f ++ String "/" rest)
  = (f, String "/" rest).
Proof.
  unfold no_char, OsPath.is_slash.
  induction f as [|c f IH]; cbn [all_chars append span]; [reflexivity|].
  intro H. apply andb_true_iff in H. destruct H as [Hc Hf].
  rewrite Hc, (IH Hf). reflexivity.
Qed.

(** [dirname] undoes [join]: the directory of a name without a slash,
    joined to a directory that does not end with a slash, is that
    directory. *)
Lemma dirname_of_joined (pre s f : string) :
  nonempty s = true -> no_char "/" s = true -> no_char "/" f = true ->
  OsPath.dirname ((pre ++ s) ++ "/" ++ f) = pre ++ s.
Proof.
  intros Hne Hs Hf. unfold OsPath.dirname.
  rewrite srev_app. change ("/" ++ f) with (String "/" f).
  rewrite srev_cons, sapp_assoc. cbn [append].
  rewrite span_to_slash by (unfold no_char; now rewrite all_chars_srev).
  cbn [snd]. rewrite srev_cons, srev_involutive.
  destruct (ends_without_slash pre s Hne Hs) as (_ & Hall & Hstrip).
  rewrite nonempty_app_l by now apply nonempty_app_r.
  rewrite all_chars_app, Hall. cbn [andb negb].
  unfold rstrip_by. rewrite srev_app. cbn [srev rev_onto append lstrip_by].
  unfold OsPath.is_slash at 1. cbn [Ascii.eqb]. 
  change (Ascii.eqb "/" "/") with true. cbn iota.
  rewrite Hstrip. apply srev_involutive.
Qed.

Lemma join_plain (a b : string) :
  nonempty a = true -> endswith a "/" = false -> startswith b "/" = false ->
  OsPath.join a b = a ++ "/" ++ b.
Proof. intros Ha He Hb. unfold OsPath.join. now rewrite Hb, Ha, He. Qed.

Lemma safe_title_no_slash (s r : string) :
  safe_title (JStr s) = Ok r -> no_char "/" r = true.
Proof.
  intro H. generalize (safe_title_chars s r H). unfold no_char.
  apply all_chars_impl, safe_char_no_slash.
Qed.

(** X11.  Where a transfer without an output path puts a file, for a
    title whose safe version [safe] is not empty and a download directory
    [d] that is not empty and does not end with a slash.  When the
    directory step of the transfer returns the destination [p]:
    - for a filename that starts with a slash, [p] is that filename: the
      download directory and the title are not in it;
    - for any other filename [f], [p] is [d/safe/f];
    - when [f] holds no slash, the directory of [p] is [d/safe], and the
      applet page written beside the file is [d/safe/cheerpj.html]. *)
Theorem destination_layout (E : Env) (self : Archiver)
  (title safe filename : string) (w w1 : World) (p : string) :
  safe_title (JStr title) = Ok safe ->
  nonempty safe = true ->
  nonempty (download_dir self) = true ->
  endswith (download_dir self) "/" = false ->
  destination E self filename (JStr title) None w = (Ok p, w1) ->
  let game_dir := download_dir self ++ "/" ++ safe in
  (startswith filename "/" = true -> p = filename)
  /\ (startswith filename "/" = false -> p = game_dir ++ "/" ++ filename)
  /\ (no_char "/" filename = true ->
      OsPath.dirname p = game_dir
      /\ OsPath.join (OsPath.dirname p) "cheerpj.html"
         = game_dir ++ "/cheerpj.html").
Proof.
  intros Hsafe Hne Hd Hde Hrun game_dir.
  pose proof (safe_title_no_slash _ _ Hsafe) as Hno.
  assert (Hstart : startswith safe "/" = false).
  { destruct safe as [|c r]; [discriminate|]. unfold no_char in Hno.
    cbn [all_chars] in Hno. apply andb_true_iff in Hno. destruct Hno as [Hc _].
    apply negb_true_iff in Hc. cbn [startswith]. now rewrite Hc. }
  assert (Hjoin : OsPath.join (download_dir self) safe = game_dir)
    by now apply join_plain.
  assert (Hgd : game_dir = (download_dir self ++ "/") ++ safe)
    by (unfold game_dir; now rewrite sapp_assoc).
  destruct (ends_without_slash (download_dir self ++ "/") safe Hne Hno)
    as (Hend & _ & _).
  rewrite <- Hgd in Hend.
  assert (Hgne : nonempty game_dir = true) by now apply nonempty_app_l.
  assert (Hp : p = OsPath.join game_dir filename).
  { unfold destination, create_game_directory in Hrun. cbn [path_given] in Hrun.
    unfold bind, lift, ret in Hrun. rewrite Hsafe, Hjoin in Hrun.
    destruct (makedirs E (Dir game_dir) w) as [[[]|e] w']; congruence. }
  assert (Hplain : startswith filename "/" = false ->
                   p = game_dir ++ "/" ++ filename).
  { intro Hf. rewrite Hp. now apply join_plain. }
  split; [|split].
  - intro Hf. rewrite Hp. unfold OsPath.join. now rewrite Hf.
  - exact Hplain.
  - intro Hf.
    assert (Hfs : startswith filename "/" = false).
    { destruct filename as [|c r]; [reflexivity|]. unfold no_char in Hf.
      cbn [all_chars] in Hf. apply andb_true_iff in Hf. destruct Hf as [Hc _].
      apply negb_true_iff in Hc. cbn [startswith]. now rewrite Hc. }
    rewrite (Hplain Hfs), Hgd, dirname_of_joined by assumption.
    split; [reflexivity|]. rewrite <- Hgd. now apply join_plain.
Qed.

(** X11 on [game.jar] of the game [My Game]. *)
Lemma destination_layout_witness :
  fst (destination (Sample.env Sample.no_server Sample.files) Sample.archiver
         "game.jar" (JStr "My Game") None Sample.start)
  = Ok "downloads/My_Game/game.jar"
  /\ OsPath.join (OsPath.dirname "downloads/My_Game/game.jar") "cheerpj.html"
     = "downloads/My_Game/cheerpj.html".
Proof.
  split; [reflexivity|].
  set (run := destination (Sample.env Sample.no_server Sample.files)
                Sample.archiver "game.jar" (JStr "My Game") None Sample.start).
  assert (H : run = (Ok "downloads/My_Game/game.jar", snd run))
    by (vm_compute; reflexivity).
  exact (proj2 (proj2 (proj2 (destination_layout
                  (Sample.env Sample.no_server Sample.files) Sample.archiver
                  "My Game" "My_Game" "game.jar" Sample.start (snd run)
                  "downloads/My_Game/game.jar"
                  eq_refl eq_refl eq_refl eq_refl H)) eq_refl)).
Defined.

End Destinations.
(* ================================================================== *)
(** ** The orchestrator: what a run may do *)

Section AddsTransfers.
Import PyStr Py.
Local Open Scope list_scope.
Variable E : Env.
Variable P : Event -> Prop.
Variable self : Archiver.
Variable title : json.
Variable output_path : option string.

Hypothesis prints : forall m, P (EvPrint m).
Hypothesis makes_game_dir :
  forall safe ok, safe_title title = Ok safe ->
                  P (EvMakedirs (Dir (OsPath.join (download_dir self) safe)) ok).
Hypothesis makes_output_dir :
  forall op ok, path_given output_path = Some op -> P (EvMakedirs (DirOfAbs op) ok).

Lemma lift_value {A : Type} (r : Res A) (a : A) :
  (exists w w', lift r w = (Ok a, w')) -> r = Ok a.
Proof. intros (w & w' & H). unfold lift in H. congruence. Qed.

Lemma adds_game_directory : adds_only P (create_game_directory E self title).
Proof.
  unfold create_game_directory.
  apply adds_bind_value; [apply adds_lift|]. intros safe Hs.
  apply lift_value in Hs. repeat adds_step. now apply makes_game_dir.
Qed.

Lemma adds_output_dir_of : adds_only P (output_dir_of E self title output_path).
Proof.
  unfold output_dir_of. destruct (path_given output_path); [apply adds_ret|].
  apply adds_game_directory.
Qed.

Lemma adds_destination_of (filename : string) :
  adds_only P (destination E self filename title output_path).
Proof.
  unfold destination. destruct (path_given output_path) as [op|] eqn:Hop.
  - repeat adds_step. now apply makes_output_dir.
  - apply adds_bind; [apply adds_game_directory | intros; apply adds_ret].
Qed.

Hypothesis fetches : forall url, P (EvRequest (GetFile url)).
Hypothesis opens : forall p ok, P (EvOpen p ok).
Hypothesis writes_chunks : forall p bytes ok, P (EvWrite p (Chunk bytes) ok).

Lemma adds_download_file (url : json) (filename : string) :
  adds_only P (download_file E self url filename title output_path).
Proof.
  unfold download_file. apply adds_bind; [apply adds_enter|]. intros _.
  apply adds_try; [|repeat adds_step; apply prints].
  apply adds_bind; [apply adds_destination_of|]. intros dest.
  unfold write_chunk, show_progress, raise.
  repeat adds_step;
    first [apply prints | apply fetches | apply opens | apply writes_chunks].
Qed.

End AddsTransfers.

Section AddsRun.
Import PyStr Py.
Local Open Scope list_scope.
Variable L : Lib.
Variable E : Env.
Variable P : Event -> Prop.
Variable output_path : option string.
Variable download create_cheerpj : bool.

(** What every run does: it prints, asks the three JSON endpoints, and
    makes the directory [downloads]. *)
Hypothesis prints : forall m, P (EvPrint m).
Hypothesis asks_overview : forall game_id, P (EvRequest (GetOverview game_id)).
Hypothesis asks_build : forall build_id, P (EvRequest (PostBuildUrl build_id)).
Hypothesis asks_server : forall token, P (EvRequest (GetGameserver token)).
Hypothesis makes_downloads : forall ok, P (EvMakedirs (Dir "downloads") ok).

(** What a run does when downloads are on. *)
Hypothesis makes_game_dir :
  download = true ->
  forall title safe ok,
    safe_title title = Ok safe ->
    P (EvMakedirs (Dir (OsPath.join "downloads" safe)) ok).
Hypothesis makes_output_dir :
  download = true ->
  forall op ok, path_given output_path = Some op -> P (EvMakedirs (DirOfAbs op) ok).
Hypothesis fetches : download = true -> forall url, P (EvRequest (GetFile url)).
Hypothesis opens : download = true -> forall p ok, P (EvOpen p ok).
Hypothesis writes_chunks :
  download = true -> forall p bytes ok, P (EvWrite p (Chunk bytes) ok).

(** What a run does when downloads and applet pages are on. *)
Hypothesis writes_pages :
  download = true -> create_cheerpj = true ->
  forall p page ok, P (EvWrite p (Page page) ok).

Lemma adds_create_cheerpj_html (self : Archiver) (fd : dict json) (dir : string) :
  download = true -> create_cheerpj = true ->
  adds_only P (create_cheerpj_html E self fd dir).
Proof.
  intros Hd Hc. unfold create_cheerpj_html.
  repeat adds_step;
    first [apply prints | now apply opens | now apply writes_pages].
Qed.

Lemma adds_process_file_details (self : Archiver) (title : json)
  (v pjc : bool) (st : LoopState) (fd : dict json) :
  download_dir self = "downloads" ->
  adds_only P (process_file_details E self title output_path v pjc download
                 create_cheerpj st fd).
Proof.
  intro Hdir. unfold process_file_details. destruct st as [jf jci].
  apply adds_bind_value; [apply adds_lift|]. intros [name|] Hjar;
    [|apply adds_ret].
  apply lift_value in Hjar. apply jar_name_filename in Hjar.
  destruct Hjar as (Hd & _ & _).
  assert (Hgame : forall safe ok, safe_title title = Ok safe ->
                  P (EvMakedirs (Dir (OsPath.join (download_dir self) safe)) ok)).
  { rewrite Hdir. now apply makes_game_dir. }
  apply adds_bind; [destruct v; [apply adds_print, prints | apply adds_ret]|].
  intros _. apply adds_bind; [|intros; apply adds_ret].
  rewrite Hd at 1.
  apply adds_bind;
    [apply adds_output_dir_of; [exact Hgame | now apply makes_output_dir]|].
  intros dir. apply adds_bind.
  - apply adds_download_file;
      first [ exact prints | exact Hgame | now apply makes_output_dir
            | now apply fetches | now apply opens | now apply writes_chunks ].
  - intros [jar_path|m]; [|apply adds_ret].
    destruct (create_cheerpj && dict_has "java_class_name" fd) eqn:Hc;
      [|apply adds_ret].
    apply andb_true_iff in Hc. destruct Hc as [Hc _].
    apply adds_bind; [now apply adds_create_cheerpj_html | intros; apply adds_ret].
Qed.

Lemma adds_process_build (self : Archiver) (game_id : Z) (title : json)
  (v pjc : bool) (st : LoopState) (build : json) :
  download_dir self = "downloads" ->
  adds_only P (process_build L E self game_id title output_path v pjc download
                 create_cheerpj st build).
Proof.
  intro Hdir. unfold process_build.
  apply adds_bind;
    [destruct v; [now apply adds_describe_build | apply adds_ret]|]. intros _.
  apply adds_bind; [apply adds_lift|]. intros build_id.
  apply adds_bind; [now apply adds_get_build_download_url|]. intros info.
  destruct (truthy info); [|apply adds_ret].
  apply adds_bind; [apply adds_lift|]. intros fd.
  now apply adds_process_file_details.
Qed.

Lemma adds_process_builds (self : Archiver) (game_id : Z) (title : json)
  (v pjc : bool) (builds : list json) :
  download_dir self = "downloads" ->
  adds_only P (process_builds L E self game_id title output_path v pjc download
                 create_cheerpj builds).
Proof.
  intro Hdir. unfold process_builds.
  apply adds_bind;
    [apply adds_for_each; intros; now apply adds_process_build|].
  intros [jf jci].
  apply adds_bind.
  - destruct jci; [apply adds_ret|].
    destruct pjc; [now apply adds_print_java_classes | apply adds_ret].
  - intros _. destruct jf; [|apply adds_ret].
    case download; [apply adds_print, prints | apply adds_ret].
Qed.

Lemma new_archiver_value (dir : string) (v : bool) (a : Archiver) :
  (exists w w', new_archiver E dir v w = (Ok a, w')) -> a = mkArchiver dir v.
Proof.
  intros (w & w' & H). unfold new_archiver, bind, ret in H.
  destruct (makedirs E (Dir dir) w) as [[[]|e] w1]; congruence.
Qed.

Lemma adds_process_game (game_id : Z) (v pjc : bool) :
  adds_only P (process_game L E game_id output_path v pjc download create_cheerpj).
Proof.
  unfold process_game.
  apply adds_bind_value.
  { unfold new_archiver. repeat adds_step. apply makes_downloads. }
  intros archiver Ha. apply new_archiver_value in Ha. subst archiver.
  apply adds_bind; [now apply adds_get_game_info|]. intros game_info.
  destruct (negb (truthy game_info)); [apply adds_print, prints|].
  apply adds_bind; [apply adds_lift|]. intros title.
  apply adds_bind; [apply adds_print, prints|]. intros _.
  apply adds_bind; [apply adds_lift|]. intros url.
  apply adds_bind; [apply adds_print, prints|]. intros _.
  apply adds_bind;
    [destruct v; [now apply adds_describe_game | apply adds_ret]|]. intros _.
  apply adds_bind; [apply adds_lift|]. intros builds.
  destruct (truthy builds); [|apply adds_print, prints].
  apply adds_bind; [apply adds_lift|]. intros items.
  now apply adds_process_builds.
Qed.

End AddsRun.

Section DryRun.
Import PyStr Py.
Local Open Scope list_scope.
Variable L : Lib.
Variable E : Env.

(** Without downloads the details of a build are only recorded. *)
Lemma kept_dry_file_details (self : Archiver) (title : json)
  (output_path : option string) (v pjc c : bool) (st : LoopState) (fd : dict json) :
  calls_kept (process_file_details E self title output_path v pjc false c st fd).
Proof. intro w. destruct st as [jf jci]. reflexivity. Qed.

Lemma kept_dry_run (game_id : Z) (output_path : option string) (v pjc c : bool) :
  calls_kept (process_game L E game_id output_path v pjc false c).
Proof.
  unfold process_game, process_builds, process_build.
  repeat first [apply kept_dry_file_details | kept_step].
Qed.

End DryRun.

Section RunClaims.
Import PyStr Py.
Local Open Scope list_scope.

(** X12.  A run without downloads ([--no-download]) touches no file: it
    calls neither the transfer nor the applet emitter, sends no request
    for a file, opens and writes nothing.  All it does is print, ask the
    three JSON endpoints, and make the directory [downloads]. *)
Theorem dry_run_touches_no_file (L : Lib) (E : Env) (game_id : Z)
  (output_path : option string) (v pjc c : bool) (w : World) :
  calls (snd (process_game L E game_id output_path v pjc false c w)) = calls w
  /\ exists t,
      trace (snd (process_game L E game_id output_path v pjc false c w))
      = trace w ++ t
      /\ Forall dry_event t.
Proof.
  split; [apply kept_dry_run|].
  apply (adds_process_game L E dry_event output_path false c);
    try discriminate; try (intros; exact I). reflexivity.
Qed.

(** X13.  A run without [--cheerpj] writes no applet page, and calls the
    emitter never: every call it records is a transfer. *)
Theorem no_page_without_flag (L : Lib) (E : Env) (game_id : Z)
  (output_path : option string) (v pjc d : bool) (w : World) :
  (Forall (fun call => exists url name title op,
                         call = CallDownload url name title op) (calls w) ->
   Forall (fun call => exists url name title op,
                         call = CallDownload url name title op)
          (calls (snd (process_game L E game_id output_path v pjc d false w))))
  /\ exists t,
      trace (snd (process_game L E game_id output_path v pjc d false w))
      = trace w ++ t
      /\ Forall no_page t.
Proof.
  split.
  - revert w.
    change (calls_only (fun call => exists url name title op,
                            call = CallDownload url name title op)
              (process_game L E game_id output_path v pjc d false)).
    unfold process_game, process_builds, process_build, process_file_details.
    cbn [andb].
    repeat first
      [ match goal with
        | |- calls_only _ (download_file _ _ _ _ _ _) =>
            let w := fresh "w" in let H := fresh "H" in
            intros w H; rewrite download_file_calls; apply Forall_app;
            split; [exact H | constructor; [now eexists; eexists; eexists; eexists
                                            | constructor]]
        | |- calls_only _ (output_dir_of _ _ _ _) =>
            apply only_of_kept, kept_output_dir_of
        | |- calls_only _ (if ?b then _ else _) => destruct b
        | |- calls_only _ (match ?x with _ => _ end) => destruct x
        | |- calls_only _ (let (_, _) := ?x in _) => destruct x
        end
      | apply only_bind
      | apply only_for_each
      | progress intros
      | apply only_of_kept; repeat kept_step ].
  - apply (adds_process_game L E no_page output_path d false);
      try discriminate; intros; exact I.
Qed.

(** X14.  Whatever the site answers, the only directories a run makes
    are [downloads], directories right below it whose name is made of
    letters, digits, [-] and [_] (so that no title leads out of
    [downloads]), and the directory of the output path when one is
    given. *)
Theorem run_makes_known_directories (L : Lib) (E : Env) (game_id : Z)
  (output_path : option string) (v pjc d c : bool) (w : World) :
  exists t,
    trace (snd (process_game L E game_id output_path v pjc d c w)) = trace w ++ t
    /\ Forall (run_directory output_path) t.
Proof.
  apply (adds_process_game L E (run_directory output_path) output_path d c);
    try (intros; exact I).
  - intro ok. now left.
  - intros _ title safe ok Hs. right. exists safe.
    split; [now apply safe_title_chars_any with title|].
    apply join_plain; [reflexivity | reflexivity |].
    generalize (safe_title_chars_any title safe Hs).
    destruct safe as [|x safe]; [reflexivity|].
    cbn [all_chars startswith]. intro H. apply andb_true_iff in H.
    destruct H as [H _].
    destruct (Ascii.eqb_spec x "/") as [->|Hx]; [discriminate|].
    destruct (startswith (String x safe) "/") eqn:Hst; [|reflexivity].
    cbn [startswith] in Hst. apply andb_true_iff in Hst.
    destruct Hst as [Hst _]. apply Ascii.eqb_eq in Hst. congruence.
  - intros _ op ok Hop. exact Hop.
Qed.

End RunClaims.
